(** * MrPDF: the page-level behaviour of [backend/pdf_functions.py]

    The module is a set of wrappers over the PyMuPDF document object
    ([fitz]).  A document is modelled by its sequence of pages, a call by
    the effects it performs in order (files opened, folders created, files
    saved) together with its outcome: a returned value or a raised
    exception.  The effects performed before an exception is raised are
    kept, so that the state of the disk at the moment of a failure can be
    read off a run.

    Modelling boundary.  [fitz] is taken with its sequence semantics:
    [len], indexing, [insert_pdf], [delete_page], [set_rotation],
    [new_page], [show_pdf_page], [insert_text] and [save] act on the list
    of pages.  The refusals of the library that this module can run
    into are part of the model: indexing or deleting outside the list,
    [save] on a document without pages, [insert_pdf] from a source
    without pages or with a page number that does not fit a C [int],
    [show_pdf_page] into an empty rectangle or from a page without
    content.  The inputs are unencrypted PDF files; failures of the
    output location (a path that cannot be written, the path of the
    opened input) are not part of the model.

    Python [int]s are [Z].  The arithmetic of Python [float]s is an
    interface, [float_ops]: [create_nup] and [add_watermark], whose
    results depend on it, are modelled over every implementation, and
    [binary64] is the one of CPython.  The numbers [add_page_numbers]
    computes are kept as exact rationals.  The text measuring and
    drawing of [TextWriter], [math]'s trigonometry and [str.format] are
    parameters of the functions that use them; the Office applications
    driven by the two converters are a host that lets each call succeed
    or fail. *)

From Stdlib Require Import ZArith QArith List String Ascii Bool Lia.
From Stdlib Require Import DecimalString DecimalZ FinFun Sorted SpecFloat.
Import ListNotations.
Local Open Scope string_scope.
Local Open Scope list_scope.
Local Open Scope Z_scope.

Set Implicit Arguments.

(** ** Python values and built-ins *)

Module Py.

(** The exceptions this module can raise or let through. *)
Inductive exn : Type :=
| ValueError (msg : string)
| IndexError (msg : string)
| TypeError (msg : string)
| ZeroDivisionError (msg : string)
| FileNotFoundError (path : string)
| OverflowError     (* an [int] that does not fit a C [int]; the text is the binding's *)
| LibraryError.     (* raised by the library itself; class and text are its own *)

Inductive result (A : Type) : Type :=
| Ok (a : A)
| Raise (e : exn).
Arguments Ok {A} a.
Arguments Raise {A} e.

Definition rbind {A B} (r : result A) (k : A -> result B) : result B :=
  match r with
  | Ok a => k a
  | Raise e => Raise e
  end.

(** [for x in xs: body] over a pure accumulator, stopping at the first
    exception. *)
Fixpoint rfold {A S} (body : S -> A -> result S) (xs : list A) (s : S)
  : result S :=
  match xs with
  | [] => Ok s
  | x :: xs' => rbind (body s x) (rfold body xs')
  end.

(** [str(n)] for an [int]. *)
Definition str (n : Z) : string := NilZero.string_of_int (Z.to_int n).

(** [len(range(lo, hi, step))], as CPython computes it. *)
Definition range_len (lo hi step : Z) : Z :=
  if 0 <? step then (if lo <? hi then (hi - lo - 1) / step + 1 else 0)
  else if step <? 0 then (if hi <? lo then (lo - hi - 1) / (- step) + 1 else 0)
  else 0.

(** [range(lo, hi, step)]; a zero step is a [ValueError]. *)
Definition range3 (lo hi step : Z) : result (list Z) :=
  if step =? 0 then Raise (ValueError "range() arg 3 must not be zero")
  else Ok (map (fun i => lo + Z.of_nat i * step)
               (seq 0 (Z.to_nat (range_len lo hi step)))).

(** [range(n)]. *)
Definition range (n : Z) : list Z :=
  map Z.of_nat (seq 0 (Z.to_nat n)).

(** [enumerate(xs, start)]. *)
Fixpoint enumerate {A} (xs : list A) (start : Z) : list (Z * A) :=
  match xs with
  | [] => []
  | x :: xs' => (start, x) :: enumerate xs' (start + 1)
  end.

(** [sorted(xs, reverse=True)] on integers (insertion into a descending
    list). *)
Fixpoint insert_desc (x : Z) (l : list Z) : list Z :=
  match l with
  | [] => [x]
  | y :: l' => if y <=? x then x :: l else y :: insert_desc x l'
  end.

Fixpoint sorted_reverse (l : list Z) : list Z :=
  match l with
  | [] => []
  | x :: l' => insert_desc x (sorted_reverse l')
  end.

(** [x in xs] for integers. *)
Definition mem (x : Z) (xs : list Z) : bool := existsb (Z.eqb x) xs.

(** [s.lower()] on ASCII letters. *)
Definition lower_ascii (c : ascii) : ascii :=
  let n := nat_of_ascii c in
  if ((65 <=? n)%nat && (n <=? 90)%nat)%bool then ascii_of_nat (n + 32) else c.

Fixpoint lower (s : string) : string :=
  match s with
  | EmptyString => EmptyString
  | String c s' => String (lower_ascii c) (lower s')
  end.

(** POSIX [os.path]. *)
Definition sep : ascii := "/"%char.

Definition startswith_sep (s : string) : bool :=
  match s with
  | String c _ => Ascii.eqb c sep
  | EmptyString => false
  end.

Fixpoint endswith_sep (s : string) : bool :=
  match s with
  | EmptyString => false
  | String c EmptyString => Ascii.eqb c sep
  | String _ s' => endswith_sep s'
  end.

(** [os.path.join(a, b)]. *)
Definition path_join (a b : string) : string :=
  if startswith_sep b then b
  else if (String.eqb a "" || endswith_sep a)%bool then a ++ b
  else a ++ "/" ++ b.

(** [os.path.basename(p)]: what follows the last separator. *)
Fixpoint basename (p : string) : string :=
  match p with
  | EmptyString => EmptyString
  | String c p' =>
      if Ascii.eqb c sep then basename p'
      else if existsb (Ascii.eqb sep) (list_ascii_of_string p') then basename p'
      else p
  end.

(** [os.path.splitext(p)[0]] for a name without separator: the name up
    to its last dot, unless only dots come before that dot. *)
Fixpoint cut_last_dot (cs : list ascii) : option (list ascii) :=
  match cs with
  | [] => None
  | c :: cs' =>
      match cut_last_dot cs' with
      | Some root => Some (c :: root)
      | None => if Ascii.eqb c "."%char then Some [] else None
      end
  end.

Definition splitext_root (name : string) : string :=
  match cut_last_dot (list_ascii_of_string name) with
  | Some root =>
      if forallb (Ascii.eqb "."%char) root then name
      else string_of_list_ascii root
  | None => name
  end.

End Py.
Export Py.

(** ** The document library *)

Module Fitz.

(** A page extent in points.  MuPDF never reports an empty page box (an
    empty MediaBox falls back to the Letter size), hence a positive
    rational. *)
Record extent : Type := Extent { ext_num : positive; ext_den : positive }.

Definition ext_Q (e : extent) : Q := Z.pos (ext_num e) # ext_den e.

Record Rect : Type := mkRect { x0 : Q; y0 : Q; x1 : Q; y1 : Q }.

(** [Rect.width] and [Rect.height] are [max(0, x1 - x0)] and
    [max(0, y1 - y0)]. *)
Definition max0 (d : Q) : Q := if Qle_bool d 0 then 0 else d.

Definition rect_width (r : Rect) : Q := max0 (x1 r - x0 r).
Definition rect_height (r : Rect) : Q := max0 (y1 r - y0 r).

(** What this module draws on a page: text put by [insert_text], a
    source page shown by [show_pdf_page]. *)
Inductive mark : Type :=
| TextMark (point : Q * Q) (text : string) (fontsize : Q) (color : Q * Q * Q)
| PageMark (target : Rect) (pno : Z).

Record page : Type := mkPage {
  page_body : option nat;      (* the page's own content; [None] after [new_page] *)
  page_width : extent;         (* unrotated box *)
  page_height : extent;
  page_rotation : Z;           (* 0, 90, 180 or 270 *)
  page_marks : list mark       (* in drawing order *)
}.

Definition document : Type := list page.

(** [len(doc)]. *)
Definition len (d : document) : Z := Z.of_nat (List.length d).

Definition in_doc (d : document) (i : Z) : bool :=
  ((0 <=? i) && (i <? len d))%bool.

(** [doc[i]]: negative numbers count from the end. *)
Definition load_page (d : document) (i : Z) : result page :=
  let j := if i <? 0 then i + len d else i in
  match (if in_doc d j then nth_error d (Z.to_nat j) else None) with
  | Some p => Ok p
  | None => Raise (IndexError ("page " ++ str i ++ " not in document"))
  end.

(** The page objects handed out by [doc[i]] and [new_page] alias the
    document: changing one changes the document. *)
Fixpoint update_nth (d : document) (n : nat) (f : page -> page) : document :=
  match d, n with
  | [], _ => []
  | p :: d', O => f p :: d'
  | p :: d', S n' => p :: update_nth d' n' f
  end.

Definition with_page (d : document) (i : Z) (f : page -> page)
  : result document :=
  rbind (load_page d i) (fun _ =>
    Ok (update_nth d (Z.to_nat (if i <? 0 then i + len d else i)) f)).

(** [page.rect]: the box as displayed, so a quarter turn swaps its
    sides. *)
Definition page_rect (p : page) : Rect :=
  if (page_rotation p mod 180 =? 90)
  then mkRect 0 0 (ext_Q (page_height p)) (ext_Q (page_width p))
  else mkRect 0 0 (ext_Q (page_width p)) (ext_Q (page_height p)).

(** Pages [a..b] of [d], both included. *)
Definition slice (d : document) (a b : Z) : document :=
  firstn (Z.to_nat (b - a + 1)) (skipn (Z.to_nat a) d).

(** [from_page] and [to_page] reach MuPDF as C [int]s: a number that
    does not fit is an [OverflowError].  The page count of a document
    is such an [int] itself, so the numbers of the pages of the source
    always fit. *)
Definition fits_int (src : document) (z : Z) : bool :=
  ((- 2 ^ 31 <=? z) && ((z <? 2 ^ 31) || (z <? len src)))%bool.

(** [doc.insert_pdf(src, from_page, to_page)], appending: a source
    without pages is refused; otherwise the page numbers are clamped
    into the source ([-1] is the default of both: first and last page),
    and a reversed pair copies in reverse order. *)
Definition insert_pdf (doc src : document) (from_page to_page : Z)
  : result document :=
  if negb (fits_int src from_page && fits_int src to_page)
  then Raise OverflowError
  else
    let n := len src in
    if n =? 0 then Raise LibraryError
    else
      let fp := Z.min (Z.max from_page 0) (n - 1) in
      let tp := Z.min (if to_page <? 0 then n - 1 else to_page) (n - 1) in
      if fp <=? tp then Ok (doc ++ slice src fp tp)
      else Ok (doc ++ rev (slice src tp fp)).

(** [doc.delete_page(pno)] for the page numbers this module passes
    (never negative). *)
Definition delete_page (d : document) (pno : Z) : result document :=
  if in_doc d pno
  then Ok (firstn (Z.to_nat pno) d ++ skipn (S (Z.to_nat pno)) d)
  else Raise (ValueError "bad page number(s)").

(** [page.set_rotation(r)]: the angle is stored modulo 360. *)
Definition set_rotation (r : Z) (p : page) : page :=
  mkPage (page_body p) (page_width p) (page_height p)
         (if r mod 90 =? 0 then r mod 360 else 0) (page_marks p).

Definition add_mark (m : mark) (p : page) : page :=
  mkPage (page_body p) (page_width p) (page_height p) (page_rotation p)
         (page_marks p ++ [m]).

(** [page.get_contents() != []]: the page has a content stream, its own
    or one made by drawing on it; a page just made by [new_page] has
    none. *)
Definition has_contents (p : page) : bool :=
  match page_body p, page_marks p with
  | None, [] => false
  | _, _ => true
  end.

(** [doc.new_page(width, height)] appends a blank page. *)
Definition new_page (d : document) (w h : positive) : document :=
  d ++ [mkPage None (Extent w 1) (Extent h 1) 0 []].

(** The keyword arguments of [save] this module uses. *)
Record save_opts : Type := mkOpts {
  garbage : Z;
  deflate : bool;
  deflate_images : bool;
  deflate_fonts : bool;
  clean : bool
}.

Definition plain_save : save_opts := mkOpts 0 false false false false.

End Fitz.
Export Fitz.

(** ** Calls, their effects and their outcome *)

Inductive event : Type :=
| EvOpen (path : string)
| EvMakedirs (path : string)
| EvSave (path : string) (doc : document) (opts : save_opts).

(** The files a call reads. *)
Definition disk : Type := list (string * document).

Fixpoint lookup (dk : disk) (path : string) : option document :=
  match dk with
  | [] => None
  | (p, d) :: dk' => if String.eqb p path then Some d else lookup dk' path
  end.

(** A computation reads the disk, appends to the effects so far and
    ends with a value or an exception. *)
Definition M (A : Type) : Type := disk -> list event -> list event * result A.

Definition ret {A} (a : A) : M A := fun _ t => (t, Ok a).

Definition raise {A} (e : exn) : M A := fun _ t => (t, Raise e).

Definition bind {A B} (c : M A) (k : A -> M B) : M B :=
  fun dk t =>
    match c dk t with
    | (t', Ok a) => k a dk t'
    | (t', Raise e) => (t', Raise e)
    end.

Definition lift {A} (r : result A) : M A := fun _ t => (t, r).

Definition emit (e : event) : M unit := fun _ t => (t ++ [e], Ok tt).

Notation "x <- c ;; k" := (bind c (fun x => k))
  (at level 61, c at next level, right associativity).
Notation "c ;;; k" := (bind c (fun _ => k))
  (at level 61, right associativity).

(** [for x in xs: body] with effects. *)
Fixpoint for_each {A S} (xs : list A) (s : S) (body : S -> A -> M S) : M S :=
  match xs with
  | [] => ret s
  | x :: xs' => s' <- body s x ;; for_each xs' s' body
  end.

Definition run {A} (c : M A) (dk : disk) : list event * result A := c dk [].

(** The files written by a run, in order. *)
Fixpoint saved (t : list event) : list (string * document) :=
  match t with
  | [] => []
  | EvSave p d _ :: t' => (p, d) :: saved t'
  | _ :: t' => saved t'
  end.

(** [fitz.open(path)]. *)
Definition fitz_open (path : string) : M document :=
  emit (EvOpen path) ;;;
  fun dk t =>
    match lookup dk path with
    | Some d => (t, Ok d)
    | None => (t, Raise (FileNotFoundError path))
    end.

(** [doc.save(path, **opts)]: a document without pages is refused. *)
Definition fitz_save (d : document) (path : string) (opts : save_opts)
  : M unit :=
  match d with
  | [] => raise (ValueError "cannot save with zero pages")
  | _ :: _ => emit (EvSave path d opts)
  end.

(** [os.makedirs(path, exist_ok=True)]. *)
Definition makedirs (path : string) : M unit := emit (EvMakedirs path).

(** ** The functions of [pdf_functions.py] *)

(** The [pages] argument: a string or a list of 1-based numbers. *)
Inductive pages_arg : Type :=
| PagesStr (s : string)
| PagesList (l : list Z).

Definition invalid_page_number (page_num total_pages : Z) : exn :=
  ValueError ("Invalid page number: " ++ str (page_num + 1) ++ ". PDF has "
              ++ str total_pages ++ " pages").

(** [for page_num in nums: if page_num < 0 or page_num >= total: raise]. *)
Definition validate_pages (nums : list Z) (total_pages : Z) : result unit :=
  rfold (fun _ page_num =>
           if ((page_num <? 0) || (page_num >=? total_pages))%bool
           then Raise (invalid_page_number page_num total_pages)
           else Ok tt) nums tt.

(** [[p - 1 for p in pages]] when [pages] is none of the keywords: a
    list gives its numbers; iterating a string gives its characters, and
    a character minus one is a [TypeError]. *)
Definition zero_based (pages : pages_arg) : result (list Z) :=
  match pages with
  | PagesList l => Ok (map (fun p => p - 1) l)
  | PagesStr EmptyString => Ok []
  | PagesStr _ =>
      Raise (TypeError "unsupported operand type(s) for -: 'str' and 'int'")
  end.

Definition is_keyword (pages : pages_arg) (kw : string) : bool :=
  match pages with
  | PagesStr s => String.eqb s kw
  | PagesList _ => false
  end.

(** [rotate_pages] (lines 187-229). *)
Definition rotations : list Z := [90; 180; 270; -90; -180; -270].

(** Lines 209-222: the 0-based numbers of the pages to rotate. *)
Definition rotate_selection (pages : pages_arg) (total_pages : Z)
  : result (list Z) :=
  if is_keyword pages "all" then Ok (range total_pages)
  else if is_keyword pages "even"
  then Ok (filter (fun i => (i + 1) mod 2 =? 0) (range total_pages))
  else if is_keyword pages "odd"
  then Ok (filter (fun i => (i + 1) mod 2 =? 1) (range total_pages))
  else
    rbind (zero_based pages) (fun pages_to_rotate =>
    rbind (validate_pages pages_to_rotate total_pages) (fun _ =>
    Ok pages_to_rotate)).

Definition rotate_pages (input_pdf output_pdf : string) (rotation : Z)
  (pages : pages_arg) : M unit :=
  if negb (mem rotation rotations)
  then raise (ValueError
                "Rotation must be 90, 180, 270, -90, -180, or -270 degrees")
  else
    doc <- fitz_open input_pdf ;;
    pages_to_rotate <- lift (rotate_selection pages (len doc)) ;;
    doc' <- lift (rfold (fun d page_num =>
                           with_page d page_num (set_rotation rotation))
                        pages_to_rotate doc) ;;
    fitz_save doc' output_pdf plain_save.

(** [compress_pdf] (lines 232-274): the table of settings, with the
    defaults of [save] for the keys a level leaves out. *)
Definition compression_settings (level : string) : option save_opts :=
  if String.eqb level "low" then Some (mkOpts 1 true false false false)
  else if String.eqb level "medium" then Some (mkOpts 3 true true true false)
  else if String.eqb level "high" then Some (mkOpts 4 true true true true)
  else None.

Definition compress_pdf (input_pdf output_pdf compression_level : string)
  : M unit :=
  match compression_settings compression_level with
  | None => raise (ValueError
                     "compression_level must be 'low', 'medium', or 'high'")
  | Some settings =>
      doc <- fitz_open input_pdf ;;
      fitz_save doc output_pdf settings
  end.

(** [merge_pdfs] (lines 62-79). *)
Definition merge_pdfs (input_pdfs : list string) (output_pdf : string)
  : M unit :=
  doc <- for_each (S := document) input_pdfs [] (fun doc input_pdf =>
           src <- fitz_open input_pdf ;;
           lift (insert_pdf doc src (-1) (-1))) ;;
  fitz_save doc output_pdf plain_save.

(** [delete_pages] (lines 159-184). *)
Definition delete_pages (input_pdf output_pdf : string)
  (pages_to_delete : list Z) : M unit :=
  doc <- fitz_open input_pdf ;;
  let pages_to_delete_sorted :=
    sorted_reverse (map (fun p => p - 1) pages_to_delete) in
  lift (validate_pages pages_to_delete_sorted (len doc)) ;;;
  doc' <- lift (rfold delete_page pages_to_delete_sorted doc) ;;
  fitz_save doc' output_pdf plain_save.

(** [split_pdf] (lines 82-156).  The file names are
    [f"{base_name}_{kind}_{n}.pdf"]. *)
Definition split_name (base_name kind : string) (n : Z) : string :=
  (base_name ++ "_" ++ kind ++ "_" ++ str n ++ ".pdf")%string.

Definition invalid_range (start end_ total_pages : Z) : exn :=
  ValueError ("Invalid range (" ++ str start ++ ", " ++ str end_
              ++ "). PDF has " ++ str total_pages ++ " pages (0-"
              ++ str (total_pages - 1) ++ ")").

Definition split_pdf (input_pdf output_folder mode : string)
  (pages_per_split : Z) (page_ranges : option (list (Z * Z)))
  : M (list string) :=
  src <- fitz_open input_pdf ;;
  let total_pages := len src in
  let base_name := splitext_root (basename input_pdf) in
  makedirs output_folder ;;;
  if String.eqb mode "pages" then
    for_each (range total_pages) [] (fun output_files page_num =>
      output_doc <- lift (insert_pdf [] src page_num page_num) ;;
      let output_path :=
        path_join output_folder (split_name base_name "page" (page_num + 1)) in
      fitz_save output_doc output_path plain_save ;;;
      ret (output_files ++ [output_path]))
  else if String.eqb mode "chunks" then
    starts <- lift (range3 0 total_pages pages_per_split) ;;
    r <- for_each starts ([], 1) (fun st start_page =>
      let '(output_files, chunk_num) := st in
      let end_page := Z.min (start_page + pages_per_split - 1) (total_pages - 1) in
      output_doc <- lift (insert_pdf [] src start_page end_page) ;;
      let output_path :=
        path_join output_folder (split_name base_name "chunk" chunk_num) in
      fitz_save output_doc output_path plain_save ;;;
      ret (output_files ++ [output_path], chunk_num + 1)) ;;
    ret (fst r)
  else if String.eqb mode "range" then
    match page_ranges with
    | None | Some [] =>
        raise (ValueError "page_ranges must be provided when mode='range'")
    | Some ranges =>
        for_each (enumerate ranges 1) [] (fun output_files ir =>
          let '(idx, (start, end_)) := ir in
          if ((start <? 0) || (end_ >=? total_pages))%bool
          then raise (invalid_range start end_ total_pages)
          else
            output_doc <- lift (insert_pdf [] src start end_) ;;
            let output_path :=
              path_join output_folder (split_name base_name "range" idx) in
            fitz_save output_doc output_path plain_save ;;;
            ret (output_files ++ [output_path]))
    end
  else
    raise (ValueError ("Invalid mode '" ++ mode
                       ++ "'. Must be 'pages', 'chunks', or 'range'")).

(** ** Python floats *)

(** What the module needs of the arithmetic of [float].  The functions
    that compute with floats are modelled over any implementation of
    these operations. *)
Record float_ops : Type := mkFloatOps {
  float : Type;
  of_int : Z -> float;            (* an [int] operand of a mixed operation *)
  of_Q : Q -> float;              (* a literal, a number read from the file *)
  to_Q : float -> Q;              (* the exact value *)
  int_truediv : Z -> Z -> float;  (* [a / b] on two [int]s, [b] not 0 *)
  fadd : float -> float -> float;
  fsub : float -> float -> float;
  fmul : float -> float -> float;
  fdiv : float -> float -> float; (* [a / b], [b] not 0 *)
  fneg : float -> float;
  feqb : float -> float -> bool;
  fltb : float -> float -> bool;
  fleb : float -> float -> bool
}.

Arguments to_Q {f} _.
Arguments fadd {f} _ _.
Arguments fsub {f} _ _.
Arguments fmul {f} _ _.
Arguments fdiv {f} _ _.
Arguments fneg {f} _.
Arguments feqb {f} _ _.
Arguments fltb {f} _ _.
Arguments fleb {f} _ _.

(** CPython's [float] is IEEE binary64, rounding to nearest, ties to
    even.  [int_truediv] and [of_Q] are the correctly rounded quotient
    for operands below 2^53, which convert exactly. *)
Module Binary64.

Definition prec : Z := 53.
Definition emax : Z := 1024.

Definition of_int (z : Z) : spec_float := binary_normalize prec emax z 0 false.

Definition add : spec_float -> spec_float -> spec_float := SFadd prec emax.
Definition sub : spec_float -> spec_float -> spec_float := SFsub prec emax.
Definition mul : spec_float -> spec_float -> spec_float := SFmul prec emax.
Definition div : spec_float -> spec_float -> spec_float := SFdiv prec emax.

Definition int_truediv (a b : Z) : spec_float := div (of_int a) (of_int b).

Definition of_Q (q : Q) : spec_float := int_truediv (Qnum q) (Z.pos (Qden q)).

Definition to_Q (x : spec_float) : Q :=
  match x with
  | S754_finite s m e =>
      let v := if 0 <=? e then inject_Z (Z.pos m * 2 ^ e)
               else Z.pos m # Z.to_pos (2 ^ (- e)) in
      if s then Qopp v else v
  | _ => 0%Q
  end.

End Binary64.

Definition binary64 : float_ops :=
  {| float := spec_float;
     of_int := Binary64.of_int;
     of_Q := Binary64.of_Q;
     to_Q := Binary64.to_Q;
     int_truediv := Binary64.int_truediv;
     fadd := Binary64.add;
     fsub := Binary64.sub;
     fmul := Binary64.mul;
     fdiv := Binary64.div;
     fneg := SFopp;
     feqb := SFeqb;
     fltb := SFltb;
     fleb := SFleb |}.

(** [fitz.Rect] with float coordinates. *)
Record frect (F : Type) : Type := mkFRect { fx0 : F; fy0 : F; fx1 : F; fy1 : F }.

(** [for x in xs: ... break ...] over a pure accumulator: the body
    answers [None] to break, and an exception ends the loop. *)
Fixpoint for_break {A S} (xs : list A) (s : S)
  (body : S -> A -> result (option S)) : result S :=
  match xs with
  | [] => Ok s
  | x :: xs' =>
      rbind (body s x) (fun r =>
        match r with
        | Some s' => for_break xs' s' body
        | None => Ok s
        end)
  end.

Section Floats.

Variable fl : float_ops.

(** [a / b] on floats and on [int]s. *)
Definition float_truediv (a b : float fl) : result (float fl) :=
  if feqb b (of_int fl 0) then Raise (ZeroDivisionError "float division by zero")
  else Ok (fdiv a b).

Definition int_div (a b : Z) : result (float fl) :=
  if b =? 0 then Raise (ZeroDivisionError "division by zero")
  else Ok (int_truediv fl a b).

(** [min(a, b)]: the second argument when it is the smaller one. *)
Definition fmin (a b : float fl) : float fl := if fltb b a then b else a.

(** [Rect.width], [Rect.height]: [max(0, x1 - x0)], [max(0, y1 - y0)]. *)
Definition fmax0 (d : float fl) : float fl :=
  if fltb (of_int fl 0) d then d else of_int fl 0.

Definition frect_width (r : frect (float fl)) : float fl :=
  fmax0 (fsub (fx1 r) (fx0 r)).

Definition frect_height (r : frect (float fl)) : float fl :=
  fmax0 (fsub (fy1 r) (fy0 r)).

(** [page.rect], as Python sees it. *)
Definition page_frect (p : page) : frect (float fl) :=
  let r := page_rect p in
  mkFRect (of_Q fl (x0 r)) (of_Q fl (y0 r)) (of_Q fl (x1 r)) (of_Q fl (y1 r)).

Definition rect_to_Q (r : frect (float fl)) : Rect :=
  mkRect (to_Q (fx0 r)) (to_Q (fy0 r)) (to_Q (fx1 r)) (to_Q (fy1 r)).

(** [Rect.is_empty] and [Rect.is_infinite]. *)
Definition rect_is_empty (r : frect (float fl)) : bool :=
  (fleb (fx1 r) (fx0 r) || fleb (fy1 r) (fy0 r))%bool.

Definition rect_is_infinite (r : frect (float fl)) : bool :=
  (feqb (fx0 r) (fy0 r) && feqb (fy0 r) (of_int fl (-2147483648))
   && feqb (fx1 r) (fy1 r) && feqb (fy1 r) (of_int fl 2147483520))%bool.

(** [page.show_pdf_page(rect, src, pno)] for the page [sheet] of [d]
    and a page number that is not negative. *)
Definition show_pdf_page (d : document) (sheet : nat)
  (rect : frect (float fl)) (src : document) (pno : Z) : result document :=
  if (rect_is_empty rect || rect_is_infinite rect)%bool
  then Raise (ValueError "rect must be finite and not empty")
  else
    rbind (load_page src pno) (fun src_page =>
    if negb (has_contents src_page)
    then Raise (ValueError "nothing to show - source page empty")
    else Ok (update_nth d sheet (add_mark (PageMark (rect_to_Q rect) pno)))).

(** [create_nup] (lines 4-59). *)
Record nup_layout : Type := mkLayout {
  page_width_total : Z;
  page_height_total : Z;
  scaled_width : float fl;
  scaled_height : float fl
}.

(** Lines 18-40: the sheet size and the size of a placed page, from the
    first source page's rectangle. *)
Definition nup_geometry (n_cols n_rows : Z) (orientation : string)
  (src_rect : frect (float fl)) : result nup_layout :=
  let margin := 20 in
  let page_spacing := 10 in
  let '(page_width_total, page_height_total) :=
    if String.eqb (lower orientation) "landscape" then (842, 595)
    else (595, 842) in
  let available_width :=
    page_width_total - (2 * margin) - ((n_cols - 1) * page_spacing) in
  let available_height :=
    page_height_total - (2 * margin) - ((n_rows - 1) * page_spacing) in
  rbind (int_div available_width n_cols) (fun page_width =>
  rbind (int_div available_height n_rows) (fun page_height =>
  rbind (float_truediv page_width (frect_width src_rect)) (fun sx =>
  rbind (float_truediv page_height (frect_height src_rect)) (fun sy =>
  let scale := fmin sx sy in
  Ok (mkLayout page_width_total page_height_total
        (fmul (frect_width src_rect) scale)
        (fmul (frect_height src_rect) scale)))))).

(** Lines 52-55: the rectangle of the cell in row [row], column [col]. *)
Definition nup_target (lay : nup_layout) (row col : Z) : frect (float fl) :=
  let margin := of_int fl 20 in
  let page_spacing := of_int fl 10 in
  let x := fadd margin (fmul (of_int fl col) (fadd (scaled_width lay) page_spacing)) in
  let y := fadd margin (fmul (of_int fl row) (fadd (scaled_height lay) page_spacing)) in
  mkFRect x y (fadd x (scaled_width lay)) (fadd y (scaled_height lay)).

(** Lines 47-58: the body of the loop over the columns. *)
Definition nup_place (src : document) (lay : nup_layout) (n_cols i : Z)
  (sheet : nat) (row : Z) (d : document) (col : Z)
  : result (option document) :=
  let src_idx := i + (row * n_cols) + col in
  if src_idx >=? len src then Ok None
  else
    rbind (show_pdf_page d sheet (nup_target lay row col) src src_idx)
          (fun d' => Ok (Some d')).

(** Lines 45-58: the placements on the sheet that starts at source page
    [i]; the sheet is the last page of [doc]. *)
Definition nup_fill (src doc : document) (lay : nup_layout)
  (n_cols n_rows i : Z) : result document :=
  let sheet := Nat.pred (List.length doc) in
  rfold (fun d row =>
           for_break (range n_cols) d (nup_place src lay n_cols i sheet row))
        (range n_rows) doc.

Definition create_nup (input_pdf output_pdf : string) (n_cols n_rows : Z)
  (orientation : string) : M unit :=
  src <- fitz_open input_pdf ;;
  let pages_per_sheet := n_cols * n_rows in
  src0 <- lift (load_page src 0) ;;
  lay <- lift (nup_geometry n_cols n_rows orientation (page_frect src0)) ;;
  starts <- lift (range3 0 (len src) pages_per_sheet) ;;
  doc <- lift (rfold (fun doc i =>
                        nup_fill src
                          (new_page doc (Z.to_pos (page_width_total lay))
                                        (Z.to_pos (page_height_total lay)))
                          lay n_cols n_rows i)
                     starts []) ;;
  fitz_save doc output_pdf plain_save.

End Floats.

Arguments float_truediv : clear implicits.
Arguments fmin : clear implicits.
Arguments fmax0 : clear implicits.
Arguments frect_width : clear implicits.
Arguments frect_height : clear implicits.
Arguments rect_to_Q : clear implicits.
Arguments rect_is_empty : clear implicits.
Arguments rect_is_infinite : clear implicits.
Arguments show_pdf_page : clear implicits.
Arguments nup_target : clear implicits.
Arguments nup_place : clear implicits.
Arguments nup_fill : clear implicits.

(** [add_page_numbers] (lines 446-516). *)
Section PageNumbers.

(** [format_string.format(page=p, total=t)], Python's built-in. *)
Variable format : string -> Z -> Z -> result string.

(** Lines 497-511: where the number goes. *)
Definition number_point (position : string) (page_rect : Rect) (margin : Q)
  : result (Q * Q) :=
  let w := rect_width page_rect in
  let h := rect_height page_rect in
  if String.eqb position "bottom-right" then Ok (w - margin, h - margin)%Q
  else if String.eqb position "bottom-center" then Ok (w / 2, h - margin)%Q
  else if String.eqb position "bottom-left" then Ok (margin, h - margin)%Q
  else if String.eqb position "top-right" then Ok (w - margin, margin)%Q
  else if String.eqb position "top-center" then Ok (w / 2, margin)%Q
  else if String.eqb position "top-left" then Ok (margin, margin)
  else Raise (ValueError ("Invalid position: " ++ position)).

(** Lines 476-485: the 0-based numbers of the pages to number. *)
Definition number_selection (pages : pages_arg) (total_pages : Z)
  : result (list Z) :=
  if is_keyword pages "all" then Ok (range total_pages)
  else
    rbind (zero_based pages) (fun pages_to_number =>
    rbind (validate_pages pages_to_number total_pages) (fun _ =>
    Ok pages_to_number)).

(** The body of the numbering loop (lines 487-514), for the page at
    position [idx] of the selection. *)
Definition number_page (position : string) (font_size : Q)
  (color : Q * Q * Q) (format_string : string) (start_number total : Z)
  (d : document) (ip : Z * Z) : result document :=
  let '(idx, page_num) := ip in
  let margin := 30%Q in
  rbind (load_page d page_num) (fun page =>
  let page_rect := page_rect page in
  let current_page_num := start_number + idx in
  rbind (format format_string current_page_num total) (fun page_text =>
  rbind (number_point position page_rect margin) (fun point =>
  with_page d page_num
    (add_mark (TextMark point page_text font_size color))))).

Definition add_page_numbers (input_pdf output_pdf position : string)
  (font_size : Q) (color : Q * Q * Q) (format_string : string)
  (start_number : Z) (pages : pages_arg) : M unit :=
  doc <- fitz_open input_pdf ;;
  let total_pages := len doc in
  pages_to_number <- lift (number_selection pages total_pages) ;;
  doc' <- lift (rfold (number_page position font_size color format_string
                         start_number
                         (Z.of_nat (List.length pages_to_number)))
                      (enumerate pages_to_number 0) doc) ;;
  fitz_save doc' output_pdf plain_save.

End PageNumbers.

(** [add_watermark] (lines 355-443).  The library measures and draws
    the text and [math] gives the angle functions: they are parameters
    of the model. *)

(** The arguments of one [tw.write_text] call, with the text appended to
    the writer: where the text starts, the text, its size, and the
    [opacity], [color], [morph] and [overlay] arguments. *)
Record text_call (F : Type) : Type := mkCall {
  tc_point : F * F;
  tc_text : string;
  tc_fontsize : F;
  tc_opacity : F;
  tc_color : F * F * F;
  tc_morph : option ((F * F) * (F * F * F * F * F * F));
  tc_overlay : bool
}.

Section Watermark.

Variable fl : float_ops.

(** [TextWriter.text_rect] after [append(Point(0, 0), text, fontsize)]. *)
Variable text_rect : string -> float fl -> frect (float fl).
(** [math.radians], [math.cos], [math.sin]. *)
Variables radians cos sin : float fl -> float fl.
(** What [tw.write_text(page, ...)] makes of a page. *)
Variable write_text : page -> text_call (float fl) -> page.

(** Lines 378-441: the call made for a page with rectangle
    [page_rect]. *)
Definition watermark_call (page_rect : frect (float fl))
  (watermark_text : string) (opacity font_size : float fl)
  (color : float fl * float fl * float fl) (rotation : float fl)
  (position : string) : text_call (float fl) :=
  let page_width := frect_width fl page_rect in
  let page_height := frect_height fl page_rect in
  let center_x := fdiv page_width (of_int fl 2) in
  let center_y :=
    if String.eqb position "top" then fmul page_height (of_Q fl (1 # 4))
    else if String.eqb position "bottom" then fmul page_height (of_Q fl (3 # 4))
    else fdiv page_height (of_int fl 2) in
  let text_rect := text_rect watermark_text font_size in
  let text_width := frect_width fl text_rect in
  let text_height := frect_height fl text_rect in
  let text_start_x := fsub center_x (fdiv text_width (of_int fl 2)) in
  let text_start_y := fadd center_y (fdiv text_height (of_int fl 4)) in
  if negb (feqb rotation (of_int fl 0)) then
    let angle_rad := radians rotation in
    let cos_a := cos angle_rad in
    let sin_a := sin angle_rad in
    let rotation_matrix :=
      (cos_a, sin_a, fneg sin_a, cos_a, of_int fl 0, of_int fl 0) in
    let pivot := (center_x, center_y) in
    mkCall (text_start_x, text_start_y) watermark_text font_size opacity color
           (Some (pivot, rotation_matrix)) true
  else
    mkCall (text_start_x, text_start_y) watermark_text font_size opacity color
           None true.

Definition add_watermark (input_pdf output_pdf watermark_text : string)
  (opacity font_size : float fl) (color : float fl * float fl * float fl)
  (rotation : float fl) (position : string) : M unit :=
  doc <- fitz_open input_pdf ;;
  let doc' :=
    map (fun page =>
           write_text page
             (watermark_call (page_frect fl page) watermark_text opacity
                font_size color rotation position)) doc in
  fitz_save doc' output_pdf plain_save.

End Watermark.

Arguments watermark_call : clear implicits.
Arguments add_watermark : clear implicits.

(** [word_to_pdf] and [powerpoint_to_pdf] (lines 277-352): a sequence of
    calls to the host application, each of which the host lets succeed
    or fail. *)
Module Office.

Inductive call : Type :=
| Import                                  (* import win32com.client *)
| Dispatch (prog_id : string)             (* win32com.client.Dispatch *)
| SetVisible (value : Z)                  (* app.Visible = value; False is 0 *)
| Open (path : string) (with_window : option bool)
| SaveAs (path : string) (file_format : Z)
| Close
| Quit.

(** What the host answers to a call: [None] when it succeeds, the error
    it raises otherwise. *)
Definition host : Type := call -> option string.

(** The calls made so far and the pending error, if any. *)
Definition state : Type := (list call * option string)%type.

(** The calls [cs] in order, up to the first that fails. *)
Fixpoint perform (h : host) (cs : list call) (t : list call) : state :=
  match cs with
  | [] => (t, None)
  | c :: cs' =>
      match h c with
      | None => perform h cs' (t ++ [c])
      | Some err => (t ++ [c], Some err)
      end
  end.

(** [try: body finally: final]: the last calls are made whatever the
    body did; an error of theirs replaces the body's. *)
Definition try_finally (h : host) (body final : list call) (t : list call)
  : state :=
  let '(t1, r1) := perform h body t in
  let '(t2, r2) := perform h final t1 in
  (t2, match r2 with Some err => Some err | None => r1 end).

Definition word_to_pdf (abspath : string -> string) (h : host)
  (input_docx output_pdf : string) : state :=
  let input_docx := abspath input_docx in
  let output_pdf := abspath output_pdf in
  match perform h [Import; Dispatch "Word.Application"; SetVisible 0] [] with
  | (t, Some err) => (t, Some err)
  | (t, None) =>
      try_finally h
        [Open input_docx None; SaveAs output_pdf 17; Close] [Quit] t
  end.

Definition powerpoint_to_pdf (abspath : string -> string) (h : host)
  (input_pptx output_pdf : string) : state :=
  let input_pptx := abspath input_pptx in
  let output_pdf := abspath output_pdf in
  match perform h [Import; Dispatch "PowerPoint.Application"; SetVisible 1] []
  with
  | (t, Some err) => (t, Some err)
  | (t, None) =>
      try_finally h
        [Open input_pptx (Some false); SaveAs output_pdf 32; Close] [Quit] t
  end.

End Office.

(** ** Sample documents, for the concrete instances *)

Definition a4 (n : nat) : page :=
  mkPage (Some n) (Extent 595 1) (Extent 842 1) 0 [].

(** A document of [k] pages whose bodies are numbered from 1. *)
Definition sample (k : nat) : document := map a4 (seq 1 k).

(** A page as [new_page] makes it: no content. *)
Definition blank : page := mkPage None (Extent 595 1) (Extent 842 1) 0 [].

Definition sample_disk : disk :=
  [("in/report.pdf", sample 5); ("a.pdf", sample 2); ("b.pdf", sample 3);
   ("four.pdf", sample 4); ("empty.pdf", []); ("blank.pdf", [blank])].

(** Hosts that refuse one call. *)
Definition open_fails : Office.host :=
  fun c => match c with
           | Office.Open _ _ => Some "cannot open the document"
           | _ => None
           end.

Definition close_fails : Office.host :=
  fun c => match c with
           | Office.Close => Some "the document is busy"
           | _ => None
           end.

(** Stand-ins for the parameters of [add_watermark], to run the model:
    a text as wide as half its size per character, angles in radians
    with 355/113 for pi, the first terms of the cosine and sine series,
    and a drawing that records the text as a mark. *)
Definition sample_text_rect (text : string) (size : float binary64)
  : frect (float binary64) :=
  mkFRect (of_int binary64 0) (of_int binary64 0)
          (Binary64.mul size
             (Binary64.int_truediv (Z.of_nat (String.length text)) 2))
          size.

Definition sample_radians (deg : float binary64) : float binary64 :=
  Binary64.div (Binary64.mul deg (Binary64.of_Q (355 # 113)))
               (Binary64.of_int 180).

Definition sample_cos (x : float binary64) : float binary64 :=
  Binary64.sub (Binary64.of_int 1)
               (Binary64.div (Binary64.mul x x) (Binary64.of_int 2)).

Definition sample_sin (x : float binary64) : float binary64 :=
  Binary64.sub x (Binary64.div (Binary64.mul (Binary64.mul x x) x)
                               (Binary64.of_int 6)).

Definition sample_write_text (p : page) (c : text_call (float binary64))
  : page :=
  add_mark (TextMark (Binary64.to_Q (fst (tc_point c)),
                      Binary64.to_Q (snd (tc_point c)))
                     (tc_text c) (Binary64.to_Q (tc_fontsize c))
                     (let '(r, g, b) := tc_color c in
                      (Binary64.to_Q r, Binary64.to_Q g, Binary64.to_Q b))) p.

(** ** Quantities of the specification *)

(** The sum of the page counts of a list of documents. *)
Definition total_pages (docs : list document) : Z :=
  fold_right Z.add 0 (map len docs).

(** [ceil(a / b)] for a positive [b]. *)
Definition ceil_div (a b : Z) : Z := (a + b - 1) / b.

(** The path [split_pdf] gives to its [n]-th file of a kind. *)
Definition out_path (output_folder input_pdf kind : string) (n : Z) : string :=
  path_join output_folder (split_name (splitext_root (basename input_pdf)) kind n).

(** The [i]-th run (from 0) of [C] consecutive pages of a document. *)
Definition chunk (src : document) (C : Z) (i : nat) : document :=
  slice src (Z.of_nat i * C) (Z.min (Z.of_nat i * C + C - 1) (len src - 1)).

(** The saving of a file without options, as an effect. *)
Definition save_event (f : string * document) : event :=
  EvSave (fst f) (snd f) plain_save.

(** [p'] is [p] with the marks [ms] drawn on top. *)
Definition same_but_marks (p p' : page) (ms : list mark) : Prop :=
  page_body p' = page_body p /\ page_width p' = page_width p /\
  page_height p' = page_height p /\ page_rotation p' = page_rotation p /\
  page_marks p' = page_marks p ++ ms.

(** [p] with the marks [ms] drawn on top. *)
Definition with_marks (p : page) (ms : list mark) : page :=
  mkPage (page_body p) (page_width p) (page_height p) (page_rotation p)
         (page_marks p ++ ms).

(** The source pages shown by a list of marks, in drawing order. *)
Definition pnos_of (ms : list mark) : list Z :=
  flat_map (fun m => match m with
                     | PageMark _ pno => [pno]
                     | TextMark _ _ _ _ => []
                     end) ms.

(** The A4 sheet the orientation selects, in points. *)
Definition sheet_size (orientation : string) : Z * Z :=
  if String.eqb (lower orientation) "landscape" then (842, 595) else (595, 842).

Section NupQuantities.

Variable fl : float_ops.

(** The width (or height) of a cell of the n-up grid: what the margins
    of 20 and the spacing of 10 leave of the sheet, shared among the
    [n] columns (or rows). *)
Definition cell_extent (sheet_extent n : Z) : float fl :=
  int_truediv fl (sheet_extent - 2 * 20 - (n - 1) * 10) n.

(** The one scale factor of an n-up layout, from a page [p]: the smaller
    of the ratios of the cell to the rectangle of [p], in width and in
    height. *)
Definition nup_scale (orientation : string) (n_cols n_rows : Z) (p : page)
  : float fl :=
  fmin fl
    (fdiv (cell_extent (fst (sheet_size orientation)) n_cols)
          (frect_width fl (page_frect fl p)))
    (fdiv (cell_extent (snd (sheet_size orientation)) n_rows)
          (frect_height fl (page_frect fl p))).

(** The size at which every page is placed: the size of [p] times the
    scale factor. *)
Definition placed_width (orientation : string) (n_cols n_rows : Z) (p : page)
  : float fl :=
  fmul (frect_width fl (page_frect fl p)) (nup_scale orientation n_cols n_rows p).

Definition placed_height (orientation : string) (n_cols n_rows : Z) (p : page)
  : float fl :=
  fmul (frect_height fl (page_frect fl p)) (nup_scale orientation n_cols n_rows p).

(** The rectangle of row [row], column [col] in a grid of rectangles of
    size [w] by [h] that starts 20 from the left and from the top and
    leaves 10 between neighbours. *)
Definition grid_rect (w h : float fl) (row col : Z) : frect (float fl) :=
  let x := fadd (of_int fl 20) (fmul (of_int fl col) (fadd w (of_int fl 10))) in
  let y := fadd (of_int fl 20) (fmul (of_int fl row) (fadd h (of_int fl 10))) in
  mkFRect x y (fadd x w) (fadd y h).

(** A rectangle [show_pdf_page] accepts: not empty, not the infinite
    one. *)
Definition rect_accepted (r : frect (float fl)) : bool :=
  negb (rect_is_empty fl r || rect_is_infinite fl r).

(** Every rectangle of the grid is accepted. *)
Definition grid_accepted (w h : float fl) (n_cols n_rows : Z) : bool :=
  forallb (fun row =>
             forallb (fun col => rect_accepted (grid_rect w h row col))
                     (range n_cols))
          (range n_rows).

(** A source page shown in a rectangle of the grid. *)
Definition placed (w h : float fl) (n_cols n_rows : Z) (m : mark) : Prop :=
  exists row col pno,
    0 <= row < n_rows /\ 0 <= col < n_cols /\
    m = PageMark (rect_to_Q fl (grid_rect w h row col)) pno.

(** A sheet of an n-up document: a page made by [new_page] with the
    sheet size, carrying source pages placed in the grid and nothing
    else. *)
Definition nup_sheet (orientation : string) (w h : float fl)
  (n_cols n_rows : Z) (p : page) : Prop :=
  page_body p = None /\
  (page_width p, page_height p)
  = (if String.eqb (lower orientation) "landscape"
     then (Extent 842 1, Extent 595 1) else (Extent 595 1, Extent 842 1)) /\
  page_rotation p = 0 /\
  Forall (placed w h n_cols n_rows) (page_marks p).

End NupQuantities.

Arguments cell_extent : clear implicits.
Arguments nup_scale : clear implicits.
Arguments placed_width : clear implicits.
Arguments placed_height : clear implicits.
Arguments grid_rect : clear implicits.
Arguments rect_accepted : clear implicits.
Arguments grid_accepted : clear implicits.
Arguments placed : clear implicits.
Arguments nup_sheet : clear implicits.

(** The texts page [j] (from 0) receives when the 1-based numbers [l]
    are processed in order: one per occurrence of [j + 1] in [l], the
    text of position [k] of the list being [texts (s + k)]. *)
Definition numbers_on (texts : nat -> string) (font_size : Q)
  (color : Q * Q * Q) (l : list Z) (s j : nat) (pt : Q * Q) : list mark :=
  map (fun k => TextMark pt (texts (s + k)%nat) font_size color)
      (filter (fun k => nth k l 0 - 1 =? Z.of_nat j) (seq 0 (List.length l))).

(** The pages of [d], numbered from [s], whose number is not in
    [nums]. *)
Definition without_from (s : Z) (d : document) (nums : list Z) : document :=
  map snd (filter (fun ip => negb (mem (fst ip) nums)) (enumerate d s)).

(** The positions [add_page_numbers] knows. *)
Definition positions : list string :=
  ["bottom-right"; "bottom-center"; "bottom-left";
   "top-right"; "top-center"; "top-left"].

(** A formatter for the templates of the docstring: [{page}] and
    [{total}] are replaced by the numbers, every other character is
    kept.  (The format language of Python is richer; the model of
    [add_page_numbers] takes the formatter as a parameter.) *)
Fixpoint template (page total : Z) (s : string) (skip : nat) : string :=
  match s with
  | EmptyString => EmptyString
  | String c s' =>
      match skip with
      | S k => template page total s' k
      | O =>
          if prefix "{page}" s
          then (str page ++ template page total s' 5)%string
          else if prefix "{total}" s
          then (str total ++ template page total s' 6)%string
          else String c (template page total s' 0)
      end
  end.

Definition simple_format (s : string) (page total : Z) : result string :=
  Ok (template page total s 0).

(** A computation that saves no file. *)
Definition writes_nothing {A} (c : M A) : Prop :=
  forall dk t, saved (fst (c dk t)) = saved t.

(** A computation that, started with no file saved, has saved no file
    at the moment it raises. *)
Definition fails_clean {A} (c : M A) : Prop :=
  forall dk t t' e, saved t = [] -> c dk t = (t', Raise e) -> saved t' = [].

(** A computation that has saved exactly one file, at [path], when it
    returns, and none when it raises. *)
Definition saves_once {A} (path : string) (c : M A) : Prop :=
  forall dk t, saved t = [] ->
    match c dk t with
    | (t', Ok _) => exists d, saved t' = [(path, d)]
    | (t', Raise _) => saved t' = []
    end.

(** The pages of [d], numbered from [s], those with a number in [sel]
    turned to the angle [r]. *)
Definition rotate_where (r : Z) (sel : list Z) (s : Z) (d : document)
  : document :=
  map (fun ip => if mem (fst ip) sel then set_rotation r (snd ip) else snd ip)
      (enumerate d s).

(** The disk after the files saved by the effects [t] have been written
    over [dk]: a later save of a path hides an earlier one. *)
Definition write_back (t : list event) (dk : disk) : disk :=
  rev (saved t) ++ dk.

(** The files of the 'range' split for the ranges [ranges], the first
    of them numbered [first]. *)
Definition range_files (output_folder input_pdf : string) (src : document)
  (ranges : list (Z * Z)) (first : Z) : list (string * document) :=
  map (fun ir => (out_path output_folder input_pdf "range" (fst ir),
                  slice src (fst (snd ir)) (snd (snd ir))))
      (enumerate ranges first).

(** A range that lies in a document of [total] pages, first page first. *)
Definition range_within (total : Z) (se : Z * Z) : Prop :=
  0 <= fst se /\ fst se <= snd se /\ snd se < total.

(** The source pages shown on a page, in drawing order. *)
Definition shown (p : page) : list Z := pnos_of (page_marks p).

(** The integers from [a] up to, not including, [b]. *)
Definition upto (a b : Z) : list Z :=
  map (fun k => a + Z.of_nat k) (seq 0 (Z.to_nat (b - a))).

(** The host lets the application be started and hidden or shown: the
    three calls before the [try] succeed. *)
Definition started (h : Office.host) (prog_id : string) (visible : Z) : Prop :=
  h Office.Import = None /\ h (Office.Dispatch prog_id) = None
  /\ h (Office.SetVisible visible) = None.

(** ** Running a call step by step *)

Unset Implicit Arguments.

Lemma run_bind {A B} (c : M A) (k : A -> M B) dk t :
  bind c k dk t =
  match c dk t with
  | (t', Ok a) => k a dk t'
  | (t', Raise e) => (t', Raise e)
  end.
Proof. reflexivity. Qed.

Lemma fitz_open_found dk t path d :
  lookup dk path = Some d ->
  fitz_open path dk t = (t ++ [EvOpen path], Ok d).
Proof.
  intros H. unfold fitz_open, bind, emit. now rewrite H.
Qed.

Lemma fitz_save_nonempty d path opts dk t :
  d <> [] -> fitz_save d path opts dk t = (t ++ [EvSave path d opts], Ok tt).
Proof. destruct d; [contradiction | reflexivity]. Qed.

Lemma fitz_save_empty path opts dk t :
  fitz_save [] path opts dk t
  = (t, Raise (ValueError "cannot save with zero pages")).
Proof. reflexivity. Qed.

Lemma same_length_nonempty (d d' : document) :
  List.length d' = List.length d -> d <> [] -> d' <> [].
Proof.
  destruct d; [contradiction |]. destruct d'; [discriminate |].
  intros _ _. discriminate.
Qed.

Lemma fitz_open_trace dk t path :
  exists r, fitz_open path dk t = (t ++ [EvOpen path], r).
Proof.
  unfold fitz_open, bind, emit.
  destruct (lookup dk path); eauto.
Qed.

Lemma mem_In x xs : mem x xs = true <-> In x xs.
Proof.
  unfold mem. rewrite existsb_exists. split.
  - intros (y & Hy & E). apply Z.eqb_eq in E. now subst.
  - intros H. exists x. split; [assumption | apply Z.eqb_refl].
Qed.

Ltac step_run :=
  unfold run; repeat (rewrite run_bind; cbn beta iota).

(** ** Rotation *)

(** Only the angle of a page changes under [set_rotation]. *)
Lemma set_rotation_frame r p :
  page_body (set_rotation r p) = page_body p /\
  page_width (set_rotation r p) = page_width p /\
  page_height (set_rotation r p) = page_height p /\
  page_marks (set_rotation r p) = page_marks p.
Proof. repeat split. Qed.

Lemma set_rotation_angle r p :
  In r rotations -> page_rotation (set_rotation r p) = r mod 360.
Proof.
  intros H. unfold rotations in H. simpl in H.
  decompose [or] H; subst; try contradiction; reflexivity.
Qed.

(** Once the angle is accepted the first effect is the opening of the
    input, so the effects are not empty whatever happens next. *)
Lemma rotate_pages_opens dk input output rotation pages :
  In rotation rotations ->
  exists t r, run (rotate_pages input output rotation pages) dk
              = (EvOpen input :: t, r).
Proof.
  intros Hin. apply mem_In in Hin.
  unfold rotate_pages. rewrite Hin. cbn [negb].
  unfold run, bind, fitz_open, bind, emit, lift, fitz_save, emit. cbn [app].
  destruct (lookup dk input) as [doc |]; [| do 2 eexists; reflexivity].
  destruct (rotate_selection pages (len doc)) as [sel | e];
    [| do 2 eexists; reflexivity].
  match goal with
  | |- context [rfold ?f sel doc] =>
      destruct (rfold f sel doc) as [[| q doc'] | e]
  end; do 2 eexists; reflexivity.
Qed.

(** C7: [rotate_pages] raises a [ValueError] before any effect (no file
    opened, nothing written) exactly when the angle is none of 90, 180,
    270, -90, -180, -270; the angle 0 is rejected. *)
Theorem rotate_pages_rejects_angle :
  (forall dk input output rotation pages,
      (exists msg, run (rotate_pages input output rotation pages) dk
                   = ([], Raise (ValueError msg)))
      <-> ~ In rotation [90; 180; 270; -90; -180; -270]) /\
  (forall dk input output pages,
      run (rotate_pages input output 0 pages) dk
      = ([], Raise (ValueError
           "Rotation must be 90, 180, 270, -90, -180, or -270 degrees"))).
Proof.
  split; [| reflexivity].
  intros dk input output rotation pages. split.
  - intros [msg Hrun] Hin.
    destruct (rotate_pages_opens dk input output rotation pages Hin) as (t & r & E).
    rewrite E in Hrun. discriminate.
  - intros Hnot.
    assert (Hmem : mem rotation rotations = false).
    { destruct (mem rotation rotations) eqn:E; [| reflexivity].
      apply mem_In in E. contradiction. }
    unfold rotate_pages. rewrite Hmem. eexists. reflexivity.
Qed.

(** C5: on a 4-page document, [rotate_pages] with [pages='even'] saves
    the document in which pages 2 and 4 carry the new angle and pages 1
    and 3 are the input's, and setting the angle leaves the body, the
    box and the marks of a page as they were. *)
Theorem rotate_even_four_pages dk input output rotation p1 p2 p3 p4 :
  lookup dk input = Some [p1; p2; p3; p4] ->
  In rotation [90; 180; 270; -90; -180; -270] ->
  run (rotate_pages input output rotation (PagesStr "even")) dk
  = ([EvOpen input;
      EvSave output
        [p1; set_rotation rotation p2; p3; set_rotation rotation p4]
        plain_save], Ok tt)
  /\ page_rotation (set_rotation rotation p2) = rotation mod 360
  /\ page_rotation (set_rotation rotation p4) = rotation mod 360
  /\ (forall p,
         page_body (set_rotation rotation p) = page_body p /\
         page_width (set_rotation rotation p) = page_width p /\
         page_height (set_rotation rotation p) = page_height p /\
         page_marks (set_rotation rotation p) = page_marks p).
Proof.
  intros Hdoc Hin.
  split; [| split; [| split]];
    try (apply set_rotation_angle; exact Hin);
    try (intro p; apply set_rotation_frame).
  assert (Hmem : mem rotation rotations = true) by (apply mem_In; exact Hin).
  unfold rotate_pages. rewrite Hmem. cbn [negb].
  step_run. rewrite (fitz_open_found dk [] input _ Hdoc).
  reflexivity.
Qed.

Lemma rotate_even_four_pages_witness :
  run (rotate_pages "four.pdf" "out.pdf" (-90) (PagesStr "even")) sample_disk
  = ([EvOpen "four.pdf";
      EvSave "out.pdf"
        [a4 1; set_rotation (-90) (a4 2); a4 3; set_rotation (-90) (a4 4)]
        plain_save], Ok tt).
Proof.
  apply (rotate_even_four_pages sample_disk "four.pdf" "out.pdf" (-90)
           (a4 1) (a4 2) (a4 3) (a4 4)).
  - reflexivity.
  - simpl. tauto.
Defined.

(** ** Copying pages *)

Lemma len_nonneg d : 0 <= len d.
Proof. unfold len. lia. Qed.

Lemma len_app d1 d2 : len (d1 ++ d2) = len d1 + len d2.
Proof. unfold len. rewrite length_app. lia. Qed.

(** Within the source, [insert_pdf] copies the pages asked for. *)
Lemma insert_pdf_range doc src a b :
  0 <= a -> a <= b -> b < len src ->
  insert_pdf doc src a b = Ok (doc ++ slice src a b).
Proof.
  intros Ha Hab Hb. unfold insert_pdf, fits_int.
  assert (Hfit : forall z, 0 <= z < len src ->
            ((- 2 ^ 31 <=? z) && ((z <? 2 ^ 31) || (z <? len src)))%bool = true).
  { intros z Hz. apply andb_true_iff. split; [apply Z.leb_le; lia |].
    apply orb_true_iff. right. apply Z.ltb_lt. lia. }
  rewrite !Hfit by lia. cbn [andb negb].
  destruct (len src =? 0) eqn:E0; [apply Z.eqb_eq in E0; lia |].
  destruct (b <? 0) eqn:Eb; [apply Z.ltb_lt in Eb; lia |].
  rewrite (Z.max_l a 0), (Z.min_l a), (Z.min_l b) by lia.
  destruct (a <=? b) eqn:E; [reflexivity | apply Z.leb_gt in E; lia].
Qed.

Lemma slice_middle (pre mid post : document) :
  mid <> [] ->
  slice (pre ++ mid ++ post) (len pre) (len pre + len mid - 1) = mid.
Proof.
  intros _. unfold slice, len.
  replace (Z.to_nat (Z.of_nat (List.length pre))) with (List.length pre) by lia.
  replace (Z.to_nat _) with (List.length mid) by lia.
  rewrite skipn_app, skipn_all, Nat.sub_diag. cbn [skipn app].
  rewrite firstn_app, firstn_all, Nat.sub_diag. cbn [firstn].
  apply app_nil_r.
Qed.

Lemma slice_one (pre post : document) p :
  slice (pre ++ p :: post) (len pre) (len pre) = [p].
Proof.
  replace (len pre) with (len pre + len [p] - 1) at 2
    by (unfold len; cbn [List.length]; lia).
  apply (slice_middle pre [p] post). discriminate.
Qed.

Lemma len_positive (d : document) : d <> [] -> 1 <= len d.
Proof.
  destruct d; [contradiction |]. intros _. unfold len. cbn [List.length]. lia.
Qed.

Lemma len_zero (d : document) : len d = 0 -> d = [].
Proof.
  destruct d; [reflexivity |]. unfold len. cbn [List.length]. lia.
Qed.

(** The defaults of [insert_pdf] copy the whole source, when it has a
    page. *)
Lemma insert_pdf_all doc src :
  src <> [] -> insert_pdf doc src (-1) (-1) = Ok (doc ++ src).
Proof.
  intros Hne. pose proof (len_positive src Hne) as Hn.
  unfold insert_pdf.
  replace (fits_int src (-1)) with true by reflexivity. cbn [andb negb].
  destruct (len src =? 0) eqn:E0; [apply Z.eqb_eq in E0; lia |].
  cbn [Z.ltb Z.compare].
  rewrite (Z.max_r (-1) 0), (Z.min_l 0), Z.min_id by lia.
  destruct (0 <=? len src - 1) eqn:E; [| apply Z.leb_gt in E; lia].
  do 2 f_equal. unfold slice, len.
  replace (Z.to_nat _) with (List.length src) by lia.
  cbn [Z.to_nat skipn]. apply firstn_all.
Qed.

(** A source without pages is refused. *)
Lemma insert_pdf_no_pages doc :
  insert_pdf doc [] (-1) (-1) = Raise LibraryError.
Proof. reflexivity. Qed.

(** ** Merging *)

(** Merging onto [doc] with the effects [t] already done. *)
Lemma merge_loop dk inputs docs :
  Forall2 (fun path d => lookup dk path = Some d) inputs docs ->
  Forall (fun d => d <> []) docs ->
  forall doc t,
    for_each inputs doc (fun doc input_pdf =>
        src <- fitz_open input_pdf ;;
        lift (insert_pdf doc src (-1) (-1))) dk t
    = (t ++ map EvOpen inputs, Ok (doc ++ List.concat docs)).
Proof.
  induction 1 as [| path d inputs docs Hd _ IH]; intros Hne doc t.
  - cbn. now rewrite !app_nil_r.
  - inversion Hne as [| ? ? Hd0 Hne']; subst.
    cbn [for_each]. rewrite run_bind, run_bind.
    rewrite (fitz_open_found dk t path _ Hd). unfold lift at 1.
    rewrite (insert_pdf_all doc d Hd0).
    rewrite (IH Hne'). cbn [map List.concat].
    now rewrite <- !app_assoc.
Qed.

Lemma len_concat docs : len (List.concat docs) = total_pages docs.
Proof.
  unfold total_pages.
  induction docs as [| d docs IH]; [reflexivity |].
  cbn [List.concat map fold_right]. now rewrite len_app, IH.
Qed.

Lemma concat_nonempty (docs : list document) :
  docs <> [] -> Forall (fun d => d <> []) docs -> List.concat docs <> [].
Proof.
  destruct docs as [| d docs]; [contradiction |].
  intros _ H. inversion H as [| ? ? Hd _]; subst.
  cbn [List.concat]. destruct d; [contradiction | discriminate].
Qed.

Lemma merge_pdfs_run dk inputs docs output :
  Forall2 (fun path d => lookup dk path = Some d) inputs docs ->
  inputs <> [] ->
  Forall (fun d => d <> []) docs ->
  run (merge_pdfs inputs output) dk
  = (map EvOpen inputs ++ [EvSave output (List.concat docs) plain_save], Ok tt).
Proof.
  intros Hdocs Hin Hne. unfold merge_pdfs. step_run.
  rewrite (merge_loop dk inputs docs Hdocs Hne [] []). cbn [app].
  apply fitz_save_nonempty. apply concat_nonempty; [| exact Hne].
  intros ->. inversion Hdocs; subst. contradiction.
Qed.

(** C4: for a list of inputs that is not empty and whose documents all
    have a page, [merge_pdfs] opens the inputs in list order and saves
    one document, made of all pages of the first input, then all pages
    of the second, and so on; its page count is the sum of the
    inputs'. *)
Theorem merge_pdfs_concatenates dk inputs docs output :
  Forall2 (fun path d => lookup dk path = Some d) inputs docs ->
  inputs <> [] ->
  Forall (fun d => d <> []) docs ->
  run (merge_pdfs inputs output) dk
  = (map EvOpen inputs ++ [EvSave output (List.concat docs) plain_save], Ok tt)
  /\ len (List.concat docs) = total_pages docs.
Proof.
  intros Hdocs Hin Hne. split; [| apply len_concat].
  unfold merge_pdfs. step_run.
  rewrite (merge_loop dk inputs docs Hdocs Hne [] []). cbn [app].
  apply fitz_save_nonempty. apply concat_nonempty; [| exact Hne].
  intros ->. inversion Hdocs; subst. contradiction.
Qed.

Lemma merge_pdfs_concatenates_witness :
  run (merge_pdfs ["a.pdf"; "b.pdf"] "all.pdf") sample_disk
  = ([EvOpen "a.pdf"; EvOpen "b.pdf";
      EvSave "all.pdf" [a4 1; a4 2; a4 1; a4 2; a4 3] plain_save], Ok tt)
  /\ len (List.concat [sample 2; sample 3]) = 5.
Proof.
  apply (merge_pdfs_concatenates sample_disk ["a.pdf"; "b.pdf"]
           [sample 2; sample 3] "all.pdf").
  - repeat constructor.
  - discriminate.
  - repeat constructor; discriminate.
Defined.

(** The claim as the specification words it, for every list, fails on
    the empty list, where [save] refuses the document without pages,
    and on a list that names a document without pages, which
    [insert_pdf] refuses: in both cases nothing is written. *)
Lemma merge_pdfs_refuses_no_pages :
  run (merge_pdfs [] "all.pdf") sample_disk
  = ([], Raise (ValueError "cannot save with zero pages"))
  /\ run (merge_pdfs ["a.pdf"; "empty.pdf"] "all.pdf") sample_disk
     = ([EvOpen "a.pdf"; EvOpen "empty.pdf"], Raise LibraryError).
Proof. split; reflexivity. Qed.

(** ** Output paths *)

Lemma append_inv_head (a b1 b2 : string) :
  (a ++ b1 = a ++ b2)%string -> b1 = b2.
Proof.
  induction a as [| c a IH]; cbn; [trivial |].
  intros H. injection H as H. auto.
Qed.

Lemma list_ascii_of_string_append (a b : string) :
  list_ascii_of_string (a ++ b)
  = list_ascii_of_string a ++ list_ascii_of_string b.
Proof.
  induction a as [| c a IH]; cbn; [reflexivity | now rewrite IH].
Qed.

Lemma append_inv_tail (b1 b2 s : string) :
  (b1 ++ s = b2 ++ s)%string -> b1 = b2.
Proof.
  intros H. apply (f_equal list_ascii_of_string) in H.
  rewrite !list_ascii_of_string_append in H.
  apply app_inv_tail in H.
  rewrite <- (string_of_list_ascii_of_string b1),
          <- (string_of_list_ascii_of_string b2).
  now rewrite H.
Qed.

(** Distinct integers print differently. *)
Lemma str_inj a b : str a = str b -> a = b.
Proof.
  unfold str. intros H.
  apply (f_equal NilZero.int_of_string) in H.
  assert (Hnil : forall z, Z.to_int z <> Decimal.Pos Decimal.Nil /\
                           Z.to_int z <> Decimal.Neg Decimal.Nil).
  { intros [| q | q]; cbn; split; try discriminate;
      intros E; injection E as E;
      exact (DecimalPos.Unsigned.to_uint_nonnil q E). }
  rewrite !NilZero.isi in H by apply Hnil.
  injection H as H. now apply DecimalZ.to_int_inj.
Qed.

Lemma split_name_inj base kind n m :
  split_name base kind n = split_name base kind m -> n = m.
Proof.
  unfold split_name. intros H.
  apply append_inv_head in H. cbn in H. injection H as H.
  apply append_inv_head in H. cbn in H. injection H as H.
  apply append_inv_tail in H. now apply str_inj.
Qed.

Lemma split_name_startswith base kind n m :
  startswith_sep (split_name base kind n)
  = startswith_sep (split_name base kind m).
Proof. unfold split_name. destruct base; reflexivity. Qed.

Lemma out_path_inj folder input kind n m :
  out_path folder input kind n = out_path folder input kind m -> n = m.
Proof.
  unfold out_path, path_join.
  set (base := splitext_root (basename input)).
  rewrite (split_name_startswith base kind n m).
  destruct (startswith_sep (split_name base kind m)).
  - apply split_name_inj.
  - destruct (String.eqb folder "" || endswith_sep folder)%bool; intros H.
    + apply append_inv_head in H. now apply split_name_inj in H.
    + apply append_inv_head in H. cbn in H. injection H as H.
      now apply split_name_inj in H.
Qed.

Lemma out_paths_NoDup folder input kind (first : Z) (n : nat) :
  NoDup (map (fun i => out_path folder input kind (first + Z.of_nat i))
             (seq 0 n)).
Proof.
  apply Injective_map_NoDup; [| apply seq_NoDup].
  intros i j H. apply out_path_inj in H. lia.
Qed.

(** ** Splitting into single pages *)

Lemma enumerate_length {A} (xs : list A) s :
  List.length (enumerate xs s) = List.length xs.
Proof.
  revert s. induction xs as [| x xs IH]; intros s; cbn; [| rewrite IH];
    reflexivity.
Qed.

Lemma enumerate_fst {A} (xs : list A) s :
  map fst (enumerate xs s)
  = map (fun i => s + Z.of_nat i) (seq 0 (List.length xs)).
Proof.
  revert s. induction xs as [| x xs IH]; intros s; [reflexivity |].
  cbn [enumerate map List.length seq fst]. rewrite IH, <- seq_shift, map_map.
  f_equal; [f_equal; lia |].
  apply map_ext. intros i. lia.
Qed.

Lemma enumerate_nth {A} (xs : list A) s i x :
  nth_error xs i = Some x ->
  nth_error (enumerate xs s) i = Some (s + Z.of_nat i, x).
Proof.
  revert s i. induction xs as [| y xs IH]; intros s [| i] H;
    try discriminate; cbn in *.
  - injection H as ->. do 2 f_equal. lia.
  - rewrite (IH (s + 1) i H). do 2 f_equal. lia.
Qed.

(** The single-page files of the pages [post] of a document, the first
    of them being page number [first] (1-based). *)
Lemma pages_loop dk folder input src post :
  forall pre acc t,
    src = pre ++ post ->
    for_each (map Z.of_nat (seq (List.length pre) (List.length post))) acc
      (fun output_files page_num =>
         output_doc <- lift (insert_pdf [] src page_num page_num) ;;
         fitz_save output_doc
           (out_path folder input "page" (page_num + 1)) plain_save ;;;
         ret (output_files ++ [out_path folder input "page" (page_num + 1)]))
      dk t
    = (t ++ map (fun ip => EvSave (out_path folder input "page" (fst ip))
                             [snd ip] plain_save)
                (enumerate post (len pre + 1)),
       Ok (acc ++ map (fun ip => out_path folder input "page" (fst ip))
                      (enumerate post (len pre + 1)))).
Proof.
  induction post as [| p post IH]; intros pre acc t Hsrc.
  - cbn. now rewrite !app_nil_r.
  - cbn [List.length seq map for_each enumerate fst snd].
    assert (Hone : insert_pdf [] src (Z.of_nat (List.length pre))
                     (Z.of_nat (List.length pre)) = Ok [p]).
    { rewrite insert_pdf_range.
      - cbn [app]. subst src. f_equal. apply slice_one.
      - lia.
      - lia.
      - subst src. rewrite len_app. unfold len. cbn [List.length]. lia. }
    rewrite run_bind, run_bind. unfold lift at 1. rewrite Hone.
    cbn beta iota. rewrite run_bind.
    unfold fitz_save at 1, emit at 1.
    cbn beta iota. unfold ret at 1.
    specialize (IH (pre ++ [p])
                  (acc ++ [out_path folder input "page"
                             (Z.of_nat (List.length pre) + 1)])
                  (t ++ [EvSave (out_path folder input "page"
                                   (Z.of_nat (List.length pre) + 1))
                           [p] plain_save])).
    rewrite length_app, Nat.add_1_r in IH. cbn [List.length] in IH.
    rewrite IH by (subst src; now rewrite <- app_assoc).
    rewrite len_app. unfold len. cbn [List.length].
    replace (Z.of_nat (List.length pre) + Z.of_nat 1 + 1)
      with (Z.of_nat (List.length pre) + 1 + 1) by lia.
    now rewrite <- !app_assoc.
Qed.

(** C8: in 'pages' mode [split_pdf] saves, for a document of K pages, K
    files under distinct paths; the i-th holds exactly the i-th page of
    the input; the paths are returned in page order. *)
Theorem split_pdf_pages dk input folder pages_per_split page_ranges src :
  lookup dk input = Some src ->
  exists files : list (string * document),
    run (split_pdf input folder "pages" pages_per_split page_ranges) dk
    = (EvOpen input :: EvMakedirs folder :: map save_event files,
       Ok (map fst files))
    /\ Z.of_nat (List.length files) = len src
    /\ NoDup (map fst files)
    /\ (forall i p, nth_error src i = Some p ->
          nth_error files i
          = Some (out_path folder input "page" (Z.of_nat i + 1), [p])).
Proof.
  intros Hsrc.
  exists (map (fun ip => (out_path folder input "page" (fst ip), [snd ip]))
              (enumerate src 1)).
  split; [| split; [| split]].
  - unfold split_pdf. step_run.
    rewrite (fitz_open_found dk [] input _ Hsrc).
    rewrite run_bind. unfold makedirs, emit.
    cbn [app String.eqb Ascii.eqb Bool.eqb].
    unfold range, len. rewrite Nat2Z.id.
    pose proof (pages_loop dk folder input src src [] [] 
                  [EvOpen input; EvMakedirs folder] eq_refl) as E.
    cbn [List.length app] in E. unfold out_path in E. unfold out_path.
    cbv zeta. rewrite E.
    rewrite !map_map. reflexivity.
  - rewrite length_map, enumerate_length. reflexivity.
  - rewrite map_map. cbn [fst].
    rewrite <- (map_map fst (out_path folder input "page")), enumerate_fst.
    rewrite map_map. apply out_paths_NoDup.
  - intros i p Hp. rewrite nth_error_map, (enumerate_nth src 1 i p Hp).
    cbn [option_map fst snd]. do 3 f_equal. lia.
Qed.

Lemma split_pdf_pages_witness :
  exists files : list (string * document),
    run (split_pdf "in/report.pdf" "out" "pages" 1 None) sample_disk
    = (EvOpen "in/report.pdf" :: EvMakedirs "out" :: map save_event files,
       Ok (map fst files))
    /\ Z.of_nat (List.length files) = len (sample 5)
    /\ NoDup (map fst files)
    /\ (forall i p, nth_error (sample 5) i = Some p ->
          nth_error files i
          = Some (out_path "out" "in/report.pdf" "page" (Z.of_nat i + 1), [p])).
Proof.
  apply (split_pdf_pages sample_disk "in/report.pdf" "out" 1 None (sample 5)).
  reflexivity.
Defined.

(** ** Splitting into chunks *)

Lemma ceil_div_bounds K C :
  1 <= C -> C * (ceil_div K C - 1) < K <= C * ceil_div K C.
Proof.
  intros HC. unfold ceil_div.
  pose proof (Z.div_mod (K + C - 1) C ltac:(lia)) as E.
  pose proof (Z.mod_pos_bound (K + C - 1) C ltac:(lia)) as B.
  lia.
Qed.

(** The length of [range(0, K, C)] is the ceiling of [K / C]. *)
Lemma range_len_ceil K C :
  0 <= K -> 1 <= C -> range_len 0 K C = ceil_div K C.
Proof.
  intros HK HC. unfold range_len, ceil_div.
  destruct (0 <? C) eqn:E; [| apply Z.ltb_ge in E; lia].
  destruct (0 <? K) eqn:E'.
  - apply Z.ltb_lt in E'.
    replace (K + C - 1) with (K - 0 - 1 + 1 * C) by lia.
    rewrite Z.div_add by lia. reflexivity.
  - apply Z.ltb_ge in E'. symmetry. apply Z.div_small. lia.
Qed.

Lemma ceil_div_nonneg K C : 0 <= K -> 1 <= C -> 0 <= ceil_div K C.
Proof.
  intros HK HC. pose proof (ceil_div_bounds K C HC). nia.
Qed.

Lemma slice_len d a b :
  0 <= a -> a <= b -> b < len d -> len (slice d a b) = b - a + 1.
Proof.
  unfold slice, len. intros Ha Hab Hb.
  rewrite length_firstn, length_skipn. lia.
Qed.

Lemma slice_nonempty d a b :
  0 <= a -> a <= b -> b < len d -> slice d a b <> [].
Proof.
  intros Ha Hab Hb E. pose proof (slice_len d a b Ha Hab Hb) as Hl.
  rewrite E in Hl. unfold len in Hl. cbn [List.length] in Hl. lia.
Qed.

Lemma nth_error_map_seq {A} (g : nat -> A) s n i x :
  nth_error (map g (seq s n)) i = Some x -> (i < n)%nat /\ x = g (s + i)%nat.
Proof.
  revert s i. induction n as [| n IH]; intros s [| i] H; cbn in H;
    try discriminate.
  - injection H as <-. split; [lia | now rewrite Nat.add_0_r].
  - apply IH in H. destruct H as [Hi ->]. split; [lia | f_equal; lia].
Qed.

Lemma chunks_loop dk folder input src C :
  1 <= C ->
  forall m j acc t,
    (forall i, In i (seq j m) -> Z.of_nat i * C < len src) ->
    for_each (map (fun i => 0 + Z.of_nat i * C) (seq j m))
      (acc, Z.of_nat j + 1)
      (fun st start_page =>
         let '(output_files, chunk_num) := st in
         output_doc <- lift (insert_pdf [] src start_page
                               (Z.min (start_page + C - 1) (len src - 1))) ;;
         fitz_save output_doc
           (out_path folder input "chunk" chunk_num) plain_save ;;;
         ret (output_files ++ [out_path folder input "chunk" chunk_num],
              chunk_num + 1))
      dk t
    = (t ++ map (fun i => EvSave (out_path folder input "chunk"
                                    (Z.of_nat i + 1))
                            (chunk src C i) plain_save) (seq j m),
       Ok (acc ++ map (fun i => out_path folder input "chunk" (Z.of_nat i + 1))
                      (seq j m),
           Z.of_nat (j + m) + 1)).
Proof.
  intros HC. induction m as [| m IH]; intros j acc t Hin.
  - cbn. rewrite !app_nil_r, Nat.add_0_r. reflexivity.
  - cbn [seq map for_each].
    assert (Hj : Z.of_nat j * C < len src) by (apply Hin; cbn; auto).
    assert (Hj0 : 0 <= Z.of_nat j * C) by nia.
    rewrite run_bind, run_bind. unfold lift at 1.
    rewrite insert_pdf_range by lia. cbn beta iota. cbn [app].
    rewrite run_bind, fitz_save_nonempty by (apply slice_nonempty; lia).
    cbn beta iota. unfold ret at 1.
    replace (Z.of_nat j + 1 + 1) with (Z.of_nat (S j) + 1) by lia.
    rewrite IH by (intros i Hi; apply Hin; cbn; auto).
    unfold chunk at 2. rewrite !Z.add_0_l. cbn [app].
    rewrite <- !app_assoc. cbn [app].
    replace (j + S m)%nat with (S j + m)%nat by lia. reflexivity.
Qed.

(** C2: in 'chunks' mode with [pages_per_split = C >= 1], [split_pdf]
    saves, for a document of K pages, [ceil(K / C)] files under distinct
    paths; each of them but the last holds exactly C pages and the last
    holds the [K - C * (ceil(K / C) - 1)] pages that remain. *)
Theorem split_pdf_chunks dk input folder C page_ranges src :
  lookup dk input = Some src ->
  1 <= C ->
  exists files : list (string * document),
    run (split_pdf input folder "chunks" C page_ranges) dk
    = (EvOpen input :: EvMakedirs folder :: map save_event files,
       Ok (map fst files))
    /\ Z.of_nat (List.length files) = ceil_div (len src) C
    /\ NoDup (map fst files)
    /\ (forall i f, nth_error files i = Some f ->
          Z.of_nat i + 1 < ceil_div (len src) C -> len (snd f) = C)
    /\ (forall i f, nth_error files i = Some f ->
          Z.of_nat i + 1 = ceil_div (len src) C ->
          len (snd f) = len src - C * (ceil_div (len src) C - 1))
    /\ (forall i f, nth_error files i = Some f -> snd f = chunk src C i).
Proof.
  intros Hsrc HC.
  pose proof (len_nonneg src) as HK.
  pose proof (ceil_div_bounds (len src) C HC) as Hceil.
  pose proof (ceil_div_nonneg (len src) C HK HC) as Hpos.
  set (n := Z.to_nat (ceil_div (len src) C)).
  assert (Hn : Z.of_nat n = ceil_div (len src) C) by (unfold n; lia).
  assert (Hstart : forall i, (i < n)%nat -> Z.of_nat i * C < len src) by nia.
  exists (map (fun i => (out_path folder input "chunk" (Z.of_nat i + 1),
                         chunk src C i)) (seq 0 n)).
  split; [| split; [| split; [| split; [| split]]]].
  - unfold split_pdf. step_run.
    rewrite (fitz_open_found dk [] input _ Hsrc).
    rewrite run_bind. unfold makedirs, emit.
    cbn [app String.eqb Ascii.eqb Bool.eqb].
    rewrite run_bind. unfold lift at 1, range3.
    destruct (C =? 0) eqn:E0; [apply Z.eqb_eq in E0; lia |].
    rewrite (range_len_ceil (len src) C HK HC). fold n.
    pose proof (chunks_loop dk folder input src C HC n 0 []
                  [EvOpen input; EvMakedirs folder]) as E.
    change (Z.of_nat 0 + 1) with 1 in E.
    unfold out_path in E. unfold out_path. cbv zeta.
    rewrite run_bind.
    rewrite E by (intros i Hi; apply in_seq in Hi; apply Hstart; lia).
    unfold ret. cbn [app fst]. rewrite !map_map. reflexivity.
  - rewrite length_map, length_seq. exact Hn.
  - rewrite map_map. cbn [fst].
    rewrite (map_ext _ (fun i => out_path folder input "chunk" (1 + Z.of_nat i)))
      by (intros i; f_equal; lia).
    apply out_paths_NoDup.
  - intros i f Hf Hi. apply nth_error_map_seq in Hf. destruct Hf as [Hlt ->].
    cbn [snd Nat.add]. unfold chunk. rewrite slice_len; nia.
  - intros i f Hf Hi. apply nth_error_map_seq in Hf. destruct Hf as [Hlt ->].
    cbn [snd Nat.add]. unfold chunk. rewrite slice_len; nia.
  - intros i f Hf. apply nth_error_map_seq in Hf. now destruct Hf as [_ ->].
Qed.

Lemma split_pdf_chunks_witness :
  exists files : list (string * document),
    run (split_pdf "in/report.pdf" "out" "chunks" 2 None) sample_disk
    = (EvOpen "in/report.pdf" :: EvMakedirs "out" :: map save_event files,
       Ok (map fst files))
    /\ Z.of_nat (List.length files) = ceil_div (len (sample 5)) 2
    /\ NoDup (map fst files)
    /\ (forall i f, nth_error files i = Some f ->
          Z.of_nat i + 1 < ceil_div (len (sample 5)) 2 -> len (snd f) = 2)
    /\ (forall i f, nth_error files i = Some f ->
          Z.of_nat i + 1 = ceil_div (len (sample 5)) 2 ->
          len (snd f) = len (sample 5) - 2 * (ceil_div (len (sample 5)) 2 - 1))
    /\ (forall i f, nth_error files i = Some f -> snd f = chunk (sample 5) 2 i).
Proof.
  apply (split_pdf_chunks sample_disk "in/report.pdf" "out" 2 None (sample 5)).
  - reflexivity.
  - lia.
Defined.

(** ** Page numbers *)

Example simple_format_page_of_total :
  simple_format "Page {page} of {total}" 3 12 = Ok "Page 3 of 12".
Proof. reflexivity. Qed.

Lemma update_nth_length d n f :
  List.length (update_nth d n f) = List.length d.
Proof.
  revert n. induction d as [| p d IH]; intros [| n]; cbn; auto.
Qed.

Lemma update_nth_same d n f p :
  nth_error d n = Some p -> nth_error (update_nth d n f) n = Some (f p).
Proof.
  revert n. induction d as [| q d IH]; intros [| n] H; cbn in *;
    try discriminate; [now injection H as -> | auto].
Qed.

Lemma update_nth_other d n f j :
  j <> n -> nth_error (update_nth d n f) j = nth_error d j.
Proof.
  revert n j. induction d as [| q d IH]; intros [| n] [| j] H; cbn;
    try reflexivity; [contradiction | apply IH; lia].
Qed.

Lemma load_page_in d i :
  0 <= i < len d ->
  exists p, nth_error d (Z.to_nat i) = Some p /\ load_page d i = Ok p.
Proof.
  intros Hi. unfold load_page, in_doc.
  destruct (i <? 0) eqn:E; [apply Z.ltb_lt in E; lia |].
  destruct (0 <=? i) eqn:E1; [| apply Z.leb_gt in E1; lia].
  destruct (i <? len d) eqn:E2; [| apply Z.ltb_ge in E2; lia].
  cbn [andb].
  destruct (nth_error d (Z.to_nat i)) as [p |] eqn:En; [eauto |].
  apply nth_error_None in En. unfold len in Hi. lia.
Qed.

Lemma with_page_in d i f :
  0 <= i < len d ->
  with_page d i f = Ok (update_nth d (Z.to_nat i) f).
Proof.
  intros Hi. unfold with_page.
  destruct (load_page_in d i Hi) as (p & _ & ->). cbn [rbind].
  destruct (i <? 0) eqn:E; [apply Z.ltb_lt in E; lia | reflexivity].
Qed.

Lemma validate_pages_ok l total :
  Forall (fun p => 1 <= p <= total) l ->
  validate_pages (map (fun p => p - 1) l) total = Ok tt.
Proof.
  unfold validate_pages. induction 1 as [| p l Hp _ IH]; [reflexivity |].
  cbn [map rfold].
  destruct (p - 1 <? 0) eqn:E1; [apply Z.ltb_lt in E1; lia |].
  destruct (p - 1 >=? total) eqn:E2; [apply Z.geb_le in E2; lia |].
  cbn [orb rbind]. exact IH.
Qed.

Lemma number_point_known position rect margin :
  In position positions ->
  exists pt, number_point position rect margin = Ok pt.
Proof.
  intros H. unfold positions in H. cbn [In] in H.
  decompose [or] H; subst; try contradiction; eexists; reflexivity.
Qed.

Lemma filter_seq_cons (f : nat -> bool) n :
  filter f (seq 0 (S n))
  = (if f O then [O] else [])
    ++ map S (filter (fun k => f (S k)) (seq 0 n)).
Proof.
  cbn [seq filter]. rewrite <- seq_shift.
  assert (E : forall l, filter f (map S l)
                        = map S (filter (fun k => f (S k)) l)).
  { induction l as [| x l IH]; [reflexivity |].
    cbn [map filter]. destruct (f (S x)); cbn [map]; now rewrite IH. }
  rewrite E. now destruct (f O).
Qed.

Section StampLoop.

Variable format : string -> Z -> Z -> result string.
Variables (position : string) (font_size : Q) (color : Q * Q * Q).
Variables (format_string : string) (start_number total : Z).
Variable texts : nat -> string.
Hypothesis position_known : In position positions.

Lemma stamp_loop :
  forall l s d,
    Forall (fun p => 1 <= p <= len d) l ->
    (forall k, (k < List.length l)%nat ->
       format format_string (start_number + Z.of_nat (s + k)) total
       = Ok (texts (s + k)%nat)) ->
    exists d',
      rfold (number_page format position font_size color format_string
               start_number total)
            (enumerate (map (fun p => p - 1) l) (Z.of_nat s)) d = Ok d'
      /\ List.length d' = List.length d
      /\ forall j p, nth_error d j = Some p ->
           exists p' pt,
             nth_error d' j = Some p'
             /\ number_point position (page_rect p) 30%Q = Ok pt
             /\ same_but_marks p p' (numbers_on texts font_size color l s j pt).
Proof.
  induction l as [| a l IH]; intros s d Hvalid Hfmt.
  - exists d. split; [reflexivity | split; [reflexivity |]].
    intros j p Hj.
    destruct (number_point_known position (page_rect p) 30%Q position_known)
      as [pt Hpt].
    exists p, pt. unfold same_but_marks, numbers_on. cbn.
    rewrite app_nil_r. auto 10.
  - inversion Hvalid as [| ? ? Ha Hl]; subst.
    cbn [map enumerate rfold].
    assert (Hin : 0 <= a - 1 < len d) by lia.
    destruct (load_page_in d (a - 1) Hin) as (pa & Hnth & Hload).
    destruct (number_point_known position (page_rect pa) 30%Q position_known)
      as [pta Hpta].
    assert (Hstep : (number_page format position font_size color format_string
                 start_number total) d (Z.of_nat s, a - 1)
                    = Ok (update_nth d (Z.to_nat (a - 1))
                            (add_mark (TextMark pta (texts s) font_size color)))).
    { unfold number_page. rewrite Hload. cbn [rbind].
      specialize (Hfmt O ltac:(cbn; lia)). rewrite Nat.add_0_r in Hfmt.
      rewrite Hfmt. cbn [rbind]. rewrite Hpta. cbn [rbind].
      now apply with_page_in. }
    rewrite Hstep. cbn [rbind].
    set (d1 := update_nth d (Z.to_nat (a - 1))
                 (add_mark (TextMark pta (texts s) font_size color))).
    assert (Hlen1 : List.length d1 = List.length d)
      by apply update_nth_length.
    replace (Z.of_nat s + 1) with (Z.of_nat (S s)) by lia.
    destruct (IH (S s) d1) as (d' & Hrun & Hlen & Hpages).
    { unfold len. rewrite Hlen1. exact Hl. }
    { intros k Hk. specialize (Hfmt (S k) ltac:(cbn; lia)).
      now rewrite Nat.add_succ_r in Hfmt. }
    exists d'. split; [exact Hrun | split; [congruence |]].
    intros j p Hj.
    assert (Hsplit : forall pt,
      numbers_on texts font_size color (a :: l) s j pt
      = (if a - 1 =? Z.of_nat j
         then [TextMark pt (texts s) font_size color] else [])
        ++ numbers_on texts font_size color l (S s) j pt).
    { intros pt. unfold numbers_on. cbn [List.length].
      rewrite filter_seq_cons. cbn [nth]. rewrite map_app, map_map.
      f_equal.
      - destruct (a - 1 =? Z.of_nat j); [| reflexivity].
        cbn [map]. now rewrite Nat.add_0_r.
      - apply map_ext. intros k. now rewrite Nat.add_succ_r. }
    destruct (Nat.eq_dec j (Z.to_nat (a - 1))) as [-> | Hne].
    + assert (p = pa) by congruence. subst p.
      destruct (Hpages (Z.to_nat (a - 1)) _ (update_nth_same d _ _ pa Hnth))
        as (p' & pt & Hp' & Hpt & Hb & Hw & Hh & Hr & Hmarks).
      change (page_rect (add_mark _ pa)) with (page_rect pa) in Hpt.
      assert (pt = pta) by congruence. subst pt.
      exists p', pta. split; [exact Hp' | split; [exact Hpta |]].
      unfold same_but_marks. repeat split; try assumption.
      rewrite Hmarks, Hsplit. cbn [add_mark page_marks].
      rewrite <- app_assoc. f_equal.
      replace (a - 1 =? Z.of_nat (Z.to_nat (a - 1))) with true
        by (symmetry; apply Z.eqb_eq; lia).
      reflexivity.
    + assert (Hj1 : nth_error d1 j = Some p)
        by (unfold d1; rewrite update_nth_other by exact Hne; exact Hj).
      destruct (Hpages j p Hj1) as (p' & pt & Hp' & Hpt & Hsame).
      exists p', pt. split; [exact Hp' | split; [exact Hpt |]].
      rewrite Hsplit.
      replace (a - 1 =? Z.of_nat j) with false
        by (symmetry; apply Z.eqb_neq; lia).
      exact Hsame.
Qed.

End StampLoop.

(** C9: with an explicit list of pages, all of them in the document
    (which has a page, so that it can be saved),
    [add_page_numbers] saves the document in which, for every position
    [k] (from 0) of the list, the page named there has received the text
    [format_string.format(page = start_number + k, total = len(list))]:
    the total handed to the formatter is the length of the list, not the
    page count of the document.  Page [j] receives these texts in list
    order and nothing else changes. *)
Theorem add_page_numbers_explicit_pages
  format dk input output position font_size color format_string
  start_number l doc texts :
  lookup dk input = Some doc ->
  doc <> [] ->
  In position positions ->
  Forall (fun p => 1 <= p <= len doc) l ->
  (forall k, (k < List.length l)%nat ->
     format format_string (start_number + Z.of_nat k)
            (Z.of_nat (List.length l)) = Ok (texts k)) ->
  exists doc',
    run (add_page_numbers format input output position font_size color
           format_string start_number (PagesList l)) dk
    = ([EvOpen input; EvSave output doc' plain_save], Ok tt)
    /\ List.length doc' = List.length doc
    /\ forall j p, nth_error doc j = Some p ->
         exists p' pt,
           nth_error doc' j = Some p'
           /\ number_point position (page_rect p) 30%Q = Ok pt
           /\ same_but_marks p p' (numbers_on texts font_size color l 0 j pt).
Proof.
  intros Hdoc Hne Hpos Hvalid Hfmt.
  destruct (stamp_loop format position font_size color format_string
              start_number (Z.of_nat (List.length l)) texts Hpos
              l O doc Hvalid Hfmt)
    as (doc' & Hrun & Hlen & Hpages).
  exists doc'. split; [| split; [exact Hlen | exact Hpages]].
  unfold add_page_numbers. step_run.
  rewrite (fitz_open_found dk [] input _ Hdoc). cbn [app].
  rewrite run_bind. unfold lift at 1, number_selection.
  cbn [is_keyword zero_based rbind].
  rewrite (validate_pages_ok l (len doc) Hvalid). cbn [rbind].
  rewrite run_bind. unfold lift at 1.
  rewrite length_map. cbn [Z.of_nat] in Hrun. rewrite Hrun.
  cbn beta iota.
  apply (fitz_save_nonempty doc' output plain_save dk [EvOpen input]).
  exact (same_length_nonempty doc doc' Hlen Hne).
Qed.

Lemma add_page_numbers_explicit_pages_witness :
  exists doc',
    run (add_page_numbers simple_format "in/report.pdf" "out.pdf"
           "bottom-center" 10 (0, 0, 0)%Q "{page} of {total}" 1
           (PagesList [2; 4])) sample_disk
    = ([EvOpen "in/report.pdf"; EvSave "out.pdf" doc' plain_save], Ok tt)
    /\ List.length doc' = List.length (sample 5)
    /\ forall j p, nth_error (sample 5) j = Some p ->
         exists p' pt,
           nth_error doc' j = Some p'
           /\ number_point "bottom-center" (page_rect p) 30%Q = Ok pt
           /\ same_but_marks p p'
                (numbers_on
                   (fun k => template (1 + Z.of_nat k) 2 "{page} of {total}" 0)
                   10 (0, 0, 0)%Q [2; 4] 0 j pt).
Proof.
  apply (add_page_numbers_explicit_pages simple_format sample_disk
           "in/report.pdf" "out.pdf" "bottom-center" 10 (0, 0, 0)%Q
           "{page} of {total}" 1 [2; 4] (sample 5)
           (fun k => template (1 + Z.of_nat k) 2 "{page} of {total}" 0)).
  - reflexivity.
  - discriminate.
  - cbn. tauto.
  - repeat constructor; cbn; lia.
  - intros k Hk. reflexivity.
Defined.

(** On the sample: pages 2 and 4 of a 5-page document are numbered
    "1 of 2" and "2 of 2". *)
Example add_page_numbers_two_of_five :
  exists pt,
    run (add_page_numbers simple_format "in/report.pdf" "out.pdf"
           "top-left" 10 (0, 0, 0)%Q "{page} of {total}" 1
           (PagesList [2; 4])) sample_disk
    = ([EvOpen "in/report.pdf";
        EvSave "out.pdf"
          [a4 1;
           add_mark (TextMark pt "1 of 2" 10 (0, 0, 0)%Q) (a4 2);
           a4 3;
           add_mark (TextMark pt "2 of 2" 10 (0, 0, 0)%Q) (a4 4);
           a4 5] plain_save], Ok tt).
Proof. exists (30, 30)%Q. vm_compute. reflexivity. Qed.

(** ** N-up *)

Lemma range_In n i : In i (range n) <-> 0 <= i < n.
Proof.
  unfold range. rewrite in_map_iff. split.
  - intros (k & <- & Hk). apply in_seq in Hk. lia.
  - intros Hi. exists (Z.to_nat i). split; [lia |]. apply in_seq. lia.
Qed.

Lemma range_first n : 1 <= n -> exists tl, range n = 0 :: tl.
Proof.
  intros Hn. unfold range.
  replace (Z.to_nat n) with (S (Z.to_nat (n - 1))) by lia.
  cbn [seq map Z.of_nat]. eauto.
Qed.

Lemma upto_empty a b : b <= a -> upto a b = [].
Proof.
  intros H. unfold upto. now replace (Z.to_nat (b - a)) with O by lia.
Qed.

Lemma upto_cons a b : a < b -> upto a b = a :: upto (a + 1) b.
Proof.
  intros H. unfold upto.
  replace (Z.to_nat (b - a)) with (S (Z.to_nat (b - (a + 1)))) by lia.
  cbn [seq map]. rewrite <- seq_shift, map_map.
  f_equal; [lia |]. apply map_ext. intros k. lia.
Qed.

Lemma upto_app a b c : a <= b -> b <= c -> upto a b ++ upto b c = upto a c.
Proof.
  intros Hab Hbc. remember (Z.to_nat (b - a)) as n eqn:Hn.
  revert a Hab Hn. induction n as [| n IH]; intros a Hab Hn.
  - replace a with b by lia. now rewrite upto_empty by lia.
  - rewrite (upto_cons a b), (upto_cons a c) by lia.
    cbn [app]. f_equal. apply IH; lia.
Qed.

Lemma upto_min_app a b c K :
  a <= b -> b <= c ->
  upto a (Z.min b K) ++ upto b (Z.min c K) = upto a (Z.min c K).
Proof.
  intros Hab Hbc. destruct (Z_le_dec b K) as [HbK | HbK].
  - rewrite (Z.min_l b K) by lia. apply upto_app; lia.
  - rewrite (upto_empty b) by lia. rewrite app_nil_r.
    now rewrite !Z.min_r by lia.
Qed.

Lemma upto_range K : upto 0 K = range K.
Proof.
  unfold upto, range. rewrite Z.sub_0_r. apply map_ext. intros k. lia.
Qed.

Lemma with_marks_nil p : with_marks p [] = p.
Proof. destruct p. unfold with_marks. cbn. now rewrite app_nil_r. Qed.

Lemma add_mark_with_marks m p ms :
  with_marks (add_mark m p) ms = with_marks p (m :: ms).
Proof. unfold with_marks, add_mark. cbn. now rewrite <- app_assoc. Qed.

Lemma with_marks_app p ms1 ms2 :
  with_marks (with_marks p ms1) ms2 = with_marks p (ms1 ++ ms2).
Proof. unfold with_marks. cbn. now rewrite <- app_assoc. Qed.

Lemma pnos_of_app ms1 ms2 : pnos_of (ms1 ++ ms2) = pnos_of ms1 ++ pnos_of ms2.
Proof. unfold pnos_of. apply flat_map_app. Qed.

Lemma update_nth_last d p f :
  update_nth (d ++ [p]) (List.length d) f = d ++ [f p].
Proof. induction d as [| q d IH]; cbn; [reflexivity | now rewrite IH]. Qed.

(** With the grid sizes at least 1 and a first page of a size that is
    not zero, the layout is computed without error: it is the sheet of
    the orientation and the size of the first page times the scale
    factor. *)
Lemma nup_geometry_ok fl n_cols n_rows orientation p :
  1 <= n_cols -> 1 <= n_rows ->
  feqb (frect_width fl (page_frect fl p)) (of_int fl 0) = false ->
  feqb (frect_height fl (page_frect fl p)) (of_int fl 0) = false ->
  nup_geometry fl n_cols n_rows orientation (page_frect fl p)
  = Ok (mkLayout fl (fst (sheet_size orientation)) (snd (sheet_size orientation))
          (placed_width fl orientation n_cols n_rows p)
          (placed_height fl orientation n_cols n_rows p)).
Proof.
  intros Hc Hr Hw Hh.
  unfold nup_geometry, placed_width, placed_height, nup_scale, cell_extent,
    sheet_size, int_div, float_truediv.
  destruct (n_cols =? 0) eqn:Ec; [apply Z.eqb_eq in Ec; lia |].
  destruct (n_rows =? 0) eqn:Er; [apply Z.eqb_eq in Er; lia |].
  destruct (String.eqb (lower orientation) "landscape");
    cbn [rbind fst snd]; rewrite Hw; cbn [rbind]; rewrite Hh; reflexivity.
Qed.

Section NupLoops.

Variable fl : float_ops.
Variable src : document.
Variable lay : nup_layout fl.
Variables n_cols n_rows : Z.
Variable orientation : string.

Hypothesis src_contents : Forall (fun p => has_contents p = true) src.
Hypothesis accepted :
  grid_accepted fl (scaled_width lay) (scaled_height lay) n_cols n_rows = true.
Hypothesis sheet_of_layout :
  (page_width_total lay, page_height_total lay) = sheet_size orientation.
Hypothesis cols_nonneg : 0 <= n_cols.
Hypothesis rows_nonneg : 0 <= n_rows.

Let placed_here : mark -> Prop :=
  placed fl (scaled_width lay) (scaled_height lay) n_cols n_rows.

Lemma cell_accepted row col :
  0 <= row < n_rows -> 0 <= col < n_cols ->
  (rect_is_empty fl (nup_target fl lay row col)
   || rect_is_infinite fl (nup_target fl lay row col))%bool = false.
Proof.
  intros Hr Hc. pose proof accepted as H. unfold grid_accepted in H.
  rewrite forallb_forall in H.
  specialize (H row (proj2 (range_In _ _) Hr)).
  rewrite forallb_forall in H.
  specialize (H col (proj2 (range_In _ _) Hc)).
  unfold rect_accepted in H. apply negb_true_iff in H. exact H.
Qed.

Lemma show_pdf_page_ok d0 sh row col pno :
  0 <= row < n_rows -> 0 <= col < n_cols -> 0 <= pno < len src ->
  show_pdf_page fl (d0 ++ [sh]) (List.length d0) (nup_target fl lay row col)
    src pno
  = Ok (d0 ++ [add_mark
                 (PageMark
                    (rect_to_Q fl (grid_rect fl (scaled_width lay)
                                     (scaled_height lay) row col)) pno) sh]).
Proof.
  intros Hr Hc Hp. unfold show_pdf_page.
  rewrite (cell_accepted row col Hr Hc).
  destruct (load_page_in src pno Hp) as (p & Hnth & ->). cbn [rbind].
  pose proof src_contents as Hall. rewrite Forall_forall in Hall.
  rewrite (Hall p (nth_error_In _ _ Hnth)). cbn [negb].
  now rewrite update_nth_last.
Qed.

(** One row of the grid: the cells from column [s] on. *)
Lemma nup_cols d0 i row n :
  0 <= i -> 0 <= row < n_rows ->
  forall s sh,
    Z.of_nat (s + n) <= n_cols ->
    exists ms,
      for_break (map Z.of_nat (seq s n)) (d0 ++ [sh])
        (nup_place fl src lay n_cols i (List.length d0) row)
      = Ok (d0 ++ [with_marks sh ms])
      /\ Forall placed_here ms
      /\ pnos_of ms
         = upto (i + row * n_cols + Z.of_nat s)
                (Z.min (i + row * n_cols + Z.of_nat (s + n)) (len src)).
Proof.
  intros Hi Hrow. induction n as [| n IH]; intros s sh Hs.
  - exists []. rewrite with_marks_nil.
    split; [reflexivity | split; [constructor |]].
    rewrite upto_empty by lia. reflexivity.
  - cbn [seq map for_break]. unfold nup_place at 1. cbv zeta.
    destruct (i + row * n_cols + Z.of_nat s >=? len src) eqn:E.
    + cbn [rbind]. exists []. rewrite with_marks_nil.
      split; [reflexivity | split; [constructor |]].
      rewrite Z.geb_leb in E. apply Z.leb_le in E.
      rewrite upto_empty by lia. reflexivity.
    + rewrite Z.geb_leb in E. apply Z.leb_gt in E.
      rewrite show_pdf_page_ok by nia. cbn [rbind].
      match goal with
      | |- context [add_mark ?m sh] =>
          destruct (IH (S s) (add_mark m sh) ltac:(lia))
            as (ms & Hrun & Hpl & Hpn);
          exists (m :: ms)
      end.
      rewrite Hrun, add_mark_with_marks.
      split; [reflexivity | split].
      * constructor; [| exact Hpl].
        exists row, (Z.of_nat s), (i + row * n_cols + Z.of_nat s).
        split; [lia | split; [lia | reflexivity]].
      * change (pnos_of (?m :: ms)) with (pnos_of [m] ++ pnos_of ms).
        cbn [pnos_of flat_map app]. rewrite Hpn.
        rewrite (upto_cons (i + row * n_cols + Z.of_nat s)) by lia.
        do 2 f_equal; lia.
Qed.

(** The rows of the grid from row [s] on. *)
Lemma nup_rows d0 i n :
  0 <= i ->
  forall s sh,
    Z.of_nat (s + n) <= n_rows ->
    exists ms,
      rfold (fun d row =>
               for_break (range n_cols) d
                 (nup_place fl src lay n_cols i (List.length d0) row))
            (map Z.of_nat (seq s n)) (d0 ++ [sh])
      = Ok (d0 ++ [with_marks sh ms])
      /\ Forall placed_here ms
      /\ pnos_of ms
         = upto (i + Z.of_nat s * n_cols)
                (Z.min (i + Z.of_nat (s + n) * n_cols) (len src)).
Proof.
  intros Hi. induction n as [| n IH]; intros s sh Hs.
  - exists []. rewrite with_marks_nil.
    split; [reflexivity | split; [constructor |]].
    rewrite upto_empty by lia. reflexivity.
  - cbn [seq map rfold]. cbn beta.
    destruct (nup_cols d0 i (Z.of_nat s) (Z.to_nat n_cols) Hi ltac:(lia)
                O sh ltac:(lia)) as (ms1 & Hcols & Hpl1 & Hpn1).
    change (map Z.of_nat (seq 0 (Z.to_nat n_cols))) with (range n_cols)
      in Hcols.
    destruct (IH (S s) (with_marks sh ms1) ltac:(lia))
      as (ms2 & Hrun & Hpl2 & Hpn2).
    exists (ms1 ++ ms2). unfold document in *.
    rewrite Hcols. cbn [rbind]. rewrite Hrun, with_marks_app.
    split; [reflexivity | split].
    + apply Forall_app. split; assumption.
    + rewrite pnos_of_app, Hpn1, Hpn2.
      replace (i + Z.of_nat s * n_cols + Z.of_nat 0)
        with (i + Z.of_nat s * n_cols) by lia.
      replace (i + Z.of_nat s * n_cols + Z.of_nat (0 + Z.to_nat n_cols))
        with (i + Z.of_nat (S s) * n_cols) by lia.
      replace (Z.of_nat (S s + n)) with (Z.of_nat (s + S n)) by lia.
      apply upto_min_app; nia.
Qed.

(** A sheet is filled with the source pages from [i] on, as many as the
    grid has cells, or as are left. *)
Lemma nup_fill_ok d0 sh i :
  0 <= i ->
  exists ms,
    nup_fill fl src (d0 ++ [sh]) lay n_cols n_rows i
    = Ok (d0 ++ [with_marks sh ms])
    /\ Forall placed_here ms
    /\ pnos_of ms = upto i (Z.min (i + n_cols * n_rows) (len src)).
Proof.
  intros Hi. unfold nup_fill.
  rewrite length_app. cbn [List.length]. rewrite Nat.add_1_r. cbn [Nat.pred].
  destruct (nup_rows d0 i (Z.to_nat n_rows) Hi O sh ltac:(lia))
    as (ms & Hrun & Hpl & Hpn).
  change (map Z.of_nat (seq 0 (Z.to_nat n_rows))) with (range n_rows) in Hrun.
  exists ms. split; [exact Hrun | split; [exact Hpl |]].
  rewrite Hpn. do 2 f_equal; [lia |]. f_equal. lia.
Qed.

(** The sheets made for the starts [starts], after the sheets [doc]. *)
Lemma nup_sheets starts :
  Forall (fun i => 0 <= i) starts ->
  forall doc,
    exists sheets,
      rfold (fun doc i =>
               nup_fill fl src
                 (new_page doc (Z.to_pos (page_width_total lay))
                               (Z.to_pos (page_height_total lay)))
                 lay n_cols n_rows i) starts doc
      = Ok (doc ++ sheets)
      /\ Forall (nup_sheet fl orientation (scaled_width lay)
                   (scaled_height lay) n_cols n_rows) sheets
      /\ map shown sheets
         = map (fun i => upto i (Z.min (i + n_cols * n_rows) (len src))) starts.
Proof.
  induction 1 as [| i starts Hi _ IH]; intros doc.
  - exists []. split; [cbn; now rewrite app_nil_r | split; [constructor |]].
    reflexivity.
  - cbn [rfold]. unfold new_page at 1.
    match goal with
    | |- context [nup_fill fl src (doc ++ [?blank]) lay n_cols n_rows i] =>
        destruct (nup_fill_ok doc blank i Hi) as (ms & Hfill & Hpl & Hpn);
        set (sheet := with_marks blank ms) in *
    end.
    rewrite Hfill. cbn [rbind].
    destruct (IH (doc ++ [sheet])) as (sheets & Hrun & Hall & Hmap).
    exists (sheet :: sheets). split; [| split].
    + rewrite Hrun, <- app_assoc. reflexivity.
    + constructor; [| exact Hall].
      unfold nup_sheet, sheet, with_marks.
      cbn [page_body page_width page_height page_rotation page_marks app].
      split; [reflexivity | split; [| split; [reflexivity | exact Hpl]]].
      pose proof sheet_of_layout as Hs. unfold sheet_size in Hs.
      destruct (String.eqb (lower orientation) "landscape");
        injection Hs as -> ->; reflexivity.
    + cbn [map]. rewrite Hmap. f_equal. exact Hpn.
Qed.

End NupLoops.

Lemma sheets_concat P K m :
  0 <= P ->
  List.concat (map (fun k => upto (Z.of_nat k * P)
                               (Z.min (Z.of_nat k * P + P) K)) (seq 0 m))
  = upto 0 (Z.min (Z.of_nat m * P) K).
Proof.
  intros HP. induction m as [| m IH].
  - cbn [seq map List.concat Z.of_nat Z.mul].
    destruct (Z_le_dec 0 K); [now rewrite Z.min_l by lia |].
    now rewrite upto_empty by lia.
  - rewrite seq_S, map_app, concat_app, IH.
    cbn [Nat.add map List.concat]. rewrite app_nil_r.
    replace (Z.of_nat m * P + P) with (Z.of_nat (S m) * P) by lia.
    apply upto_min_app; nia.
Qed.

(** What [create_nup] does when the library accepts all it is asked:
    the sheets saved, what they carry and which source pages they
    show. *)
Lemma create_nup_run fl dk input output n_cols n_rows orientation p0 rest :
  lookup dk input = Some (p0 :: rest) ->
  1 <= n_cols -> 1 <= n_rows ->
  Forall (fun p => has_contents p = true) (p0 :: rest) ->
  feqb (frect_width fl (page_frect fl p0)) (of_int fl 0) = false ->
  feqb (frect_height fl (page_frect fl p0)) (of_int fl 0) = false ->
  grid_accepted fl (placed_width fl orientation n_cols n_rows p0)
    (placed_height fl orientation n_cols n_rows p0) n_cols n_rows = true ->
  exists doc,
    run (create_nup fl input output n_cols n_rows orientation) dk
    = ([EvOpen input; EvSave output doc plain_save], Ok tt)
    /\ Forall (nup_sheet fl orientation
                 (placed_width fl orientation n_cols n_rows p0)
                 (placed_height fl orientation n_cols n_rows p0)
                 n_cols n_rows) doc
    /\ map shown doc
       = map (fun k => upto (Z.of_nat k * (n_cols * n_rows))
                         (Z.min (Z.of_nat k * (n_cols * n_rows)
                                 + n_cols * n_rows)
                                (len (p0 :: rest))))
             (seq 0 (Z.to_nat (ceil_div (len (p0 :: rest)) (n_cols * n_rows)))).
Proof.
  intros Hsrc Hc Hr Hcont Hw Hh Hacc.
  set (src := p0 :: rest) in *.
  set (P := n_cols * n_rows).
  set (lay := mkLayout fl (fst (sheet_size orientation))
                (snd (sheet_size orientation))
                (placed_width fl orientation n_cols n_rows p0)
                (placed_height fl orientation n_cols n_rows p0)).
  assert (HP : 1 <= P) by (unfold P; nia).
  pose proof (len_nonneg src) as HK.
  assert (HK1 : 1 <= len src) by (unfold src, len; cbn [List.length]; lia).
  pose proof (ceil_div_bounds (len src) P HP) as Hceil.
  pose proof (ceil_div_nonneg (len src) P HK HP) as Hpos.
  set (n := Z.to_nat (ceil_div (len src) P)).
  assert (Hn : (1 <= n)%nat) by (unfold n; nia).
  assert (Hrange : range3 0 (len src) P
                   = Ok (map (fun i => 0 + Z.of_nat i * P) (seq 0 n))).
  { unfold range3.
    destruct (P =? 0) eqn:E; [apply Z.eqb_eq in E; lia |].
    now rewrite (range_len_ceil (len src) P HK HP). }
  destruct (nup_sheets fl src lay n_cols n_rows orientation Hcont Hacc
              ltac:(unfold lay; cbn; now destruct (sheet_size orientation))
              ltac:(lia) ltac:(lia)
              (map (fun i => 0 + Z.of_nat i * P) (seq 0 n))
              ltac:(apply Forall_forall; intros i Hi;
                    apply in_map_iff in Hi; destruct Hi as (k & <- & _); nia)
              []) as (doc & Hdoc & Hall & Hshown).
  cbn [app] in Hdoc. rewrite map_map in Hshown. fold P in Hshown.
  assert (Hlen : List.length doc = n).
  { rewrite <- (length_map shown), Hshown, length_map. apply length_seq. }
  exists doc. split; [| split].
  - unfold create_nup. step_run.
    rewrite (fitz_open_found dk [] input _ Hsrc). cbn [app].
    rewrite run_bind. unfold lift at 1.
    change (load_page src 0) with (Ok p0 : result page).
    cbn beta iota. rewrite run_bind. unfold lift at 1.
    rewrite (nup_geometry_ok fl n_cols n_rows orientation p0 Hc Hr Hw Hh).
    fold lay. cbn beta iota. rewrite run_bind. unfold lift at 1. fold P.
    rewrite Hrange. cbn beta iota. rewrite run_bind. unfold lift at 1.
    rewrite Hdoc. cbn beta iota.
    apply fitz_save_nonempty. intros ->. cbn in Hlen. lia.
  - exact Hall.
  - rewrite Hshown. apply map_ext. intros k. now rewrite Z.add_0_l.
Qed.

(** C10: for an input of K >= 1 pages, each with content, and a grid of
    [n_cols] by [n_rows] cells, both at least 1, whose rectangles the
    library accepts, [create_nup] saves a document of
    [ceil(K / (n_cols * n_rows))] pages; each of them has the A4 size the
    orientation selects, and every source page placed on it sits in a
    rectangle of the grid whose size is the size of the first source
    page's rectangle times one scale factor, the smaller of the ratios
    of the cell to that rectangle.  On an input without pages the call
    fails at [src[0]], and when the first rectangle is refused it fails
    at the first placement: in both cases nothing is written. *)
Theorem create_nup_sheets fl :
  (forall dk input output n_cols n_rows orientation p0 rest,
      lookup dk input = Some (p0 :: rest) ->
      1 <= n_cols -> 1 <= n_rows ->
      Forall (fun p => has_contents p = true) (p0 :: rest) ->
      feqb (frect_width fl (page_frect fl p0)) (of_int fl 0) = false ->
      feqb (frect_height fl (page_frect fl p0)) (of_int fl 0) = false ->
      grid_accepted fl (placed_width fl orientation n_cols n_rows p0)
        (placed_height fl orientation n_cols n_rows p0) n_cols n_rows = true ->
      exists doc,
        run (create_nup fl input output n_cols n_rows orientation) dk
        = ([EvOpen input; EvSave output doc plain_save], Ok tt)
        /\ len doc = ceil_div (len (p0 :: rest)) (n_cols * n_rows)
        /\ Forall (nup_sheet fl orientation
                     (placed_width fl orientation n_cols n_rows p0)
                     (placed_height fl orientation n_cols n_rows p0)
                     n_cols n_rows) doc)
  /\ (forall dk input output n_cols n_rows orientation,
         lookup dk input = Some [] ->
         run (create_nup fl input output n_cols n_rows orientation) dk
         = ([EvOpen input], Raise (IndexError "page 0 not in document")))
  /\ (forall dk input output n_cols n_rows orientation p0 rest,
         lookup dk input = Some (p0 :: rest) ->
         1 <= n_cols -> 1 <= n_rows ->
         feqb (frect_width fl (page_frect fl p0)) (of_int fl 0) = false ->
         feqb (frect_height fl (page_frect fl p0)) (of_int fl 0) = false ->
         rect_accepted fl
           (grid_rect fl (placed_width fl orientation n_cols n_rows p0)
              (placed_height fl orientation n_cols n_rows p0) 0 0) = false ->
         run (create_nup fl input output n_cols n_rows orientation) dk
         = ([EvOpen input],
            Raise (ValueError "rect must be finite and not empty"))).
Proof.
  split; [| split].
  - intros dk input output n_cols n_rows orientation p0 rest
      Hsrc Hc Hr Hcont Hw Hh Hacc.
    destruct (create_nup_run fl dk input output n_cols n_rows orientation
                p0 rest Hsrc Hc Hr Hcont Hw Hh Hacc)
      as (doc & Hrun & Hall & Hshown).
    exists doc. split; [exact Hrun | split; [| exact Hall]].
    assert (HP : 1 <= n_cols * n_rows) by nia.
    pose proof (ceil_div_nonneg (len (p0 :: rest)) (n_cols * n_rows)
                  (len_nonneg _) HP) as Hpos.
    unfold len at 1.
    rewrite <- (length_map shown), Hshown, length_map, length_seq. lia.
  - intros dk input output n_cols n_rows orientation Hsrc.
    unfold create_nup. step_run.
    rewrite (fitz_open_found dk [] input _ Hsrc). reflexivity.
  - intros dk input output n_cols n_rows orientation p0 rest
      Hsrc Hc Hr Hw Hh Hrej.
    set (src := p0 :: rest) in *.
    assert (HP : 1 <= n_cols * n_rows) by nia.
    assert (HK1 : 1 <= len src) by (unfold src, len; cbn [List.length]; lia).
    assert (Hrange : exists tl, range3 0 (len src) (n_cols * n_rows)
                                = Ok (0 :: tl)).
    { unfold range3.
      destruct (n_cols * n_rows =? 0) eqn:E; [apply Z.eqb_eq in E; lia |].
      rewrite (range_len_ceil (len src) _ (len_nonneg src) HP).
      pose proof (ceil_div_bounds (len src) _ HP).
      replace (Z.to_nat (ceil_div (len src) (n_cols * n_rows)))
        with (S (Z.to_nat (ceil_div (len src) (n_cols * n_rows) - 1))) by nia.
      cbn [seq map]. eauto. }
    destruct Hrange as [starts Hrange].
    destruct (range_first n_cols Hc) as [cols Hcols].
    destruct (range_first n_rows Hr) as [rows Hrows].
    unfold create_nup. step_run.
    rewrite (fitz_open_found dk [] input _ Hsrc). cbn [app].
    rewrite run_bind. unfold lift at 1.
    change (load_page src 0) with (Ok p0 : result page).
    cbn beta iota. rewrite run_bind. unfold lift at 1.
    rewrite (nup_geometry_ok fl n_cols n_rows orientation p0 Hc Hr Hw Hh).
    cbn beta iota. rewrite run_bind. unfold lift at 1.
    rewrite Hrange. cbn beta iota. rewrite run_bind. unfold lift at 1.
    cbn [rfold]. unfold nup_fill at 1. rewrite Hrows, Hcols.
    cbn [rfold for_break]. unfold nup_place at 1. cbv zeta.
    replace (0 + 0 * n_cols + 0) with 0 by lia.
    destruct (0 >=? len src) eqn:E;
      [rewrite Z.geb_leb in E; apply Z.leb_le in E; lia |].
    unfold show_pdf_page at 1.
    unfold rect_accepted in Hrej. apply negb_false_iff in Hrej.
    change (nup_target fl _ 0 0)
      with (grid_rect fl (placed_width fl orientation n_cols n_rows p0)
              (placed_height fl orientation n_cols n_rows p0) 0 0).
    rewrite Hrej. reflexivity.
Qed.

Lemma create_nup_sheets_witness :
  exists doc,
    run (create_nup binary64 "in/report.pdf" "nup.pdf" 2 2 "landscape")
        sample_disk
    = ([EvOpen "in/report.pdf"; EvSave "nup.pdf" doc plain_save], Ok tt)
    /\ len doc = ceil_div (len (sample 5)) (2 * 2)
    /\ Forall (nup_sheet binary64 "landscape"
                 (placed_width binary64 "landscape" 2 2 (a4 1))
                 (placed_height binary64 "landscape" 2 2 (a4 1)) 2 2) doc.
Proof.
  apply (proj1 (create_nup_sheets binary64) sample_disk "in/report.pdf"
           "nup.pdf" 2 2 "landscape" (a4 1) (map a4 (seq 2 4))).
  - reflexivity.
  - lia.
  - lia.
  - repeat constructor.
  - vm_compute. reflexivity.
  - vm_compute. reflexivity.
  - vm_compute. reflexivity.
Defined.

(** The claim as the specification words it, for every grid of at least
    one column and one row and every input with a page, fails in
    CPython's arithmetic from 57 columns on (on a portrait sheet
    [595 - 40 - 56 * 10] is negative, and so are the scale factor and
    the width of the rectangles), and on a source page without content:
    [show_pdf_page] refuses, and nothing is written. *)
Lemma create_nup_refused :
  run (create_nup binary64 "in/report.pdf" "nup.pdf" 57 1 "portrait")
      sample_disk
  = ([EvOpen "in/report.pdf"],
     Raise (ValueError "rect must be finite and not empty"))
  /\ run (create_nup binary64 "blank.pdf" "nup.pdf" 1 1 "portrait") sample_disk
     = ([EvOpen "blank.pdf"],
        Raise (ValueError "nothing to show - source page empty")).
Proof. split; vm_compute; reflexivity. Qed.

(** ** Failures and the files already written *)

Lemma saved_app t1 t2 : saved (t1 ++ t2) = saved t1 ++ saved t2.
Proof.
  induction t1 as [| [p | p | p d o] t1 IH]; cbn; [reflexivity | auto ..].
  now rewrite IH.
Qed.

Lemma writes_nothing_ret {A} (a : A) : writes_nothing (ret a).
Proof. intros dk t. reflexivity. Qed.

Lemma writes_nothing_lift {A} (r : result A) : writes_nothing (lift r).
Proof. intros dk t. reflexivity. Qed.

Lemma writes_nothing_open path : writes_nothing (fitz_open path).
Proof.
  intros dk t. destruct (fitz_open_trace dk t path) as [r ->].
  cbn [fst]. rewrite saved_app. cbn. apply app_nil_r.
Qed.

Lemma writes_nothing_bind {A B} (c : M A) (k : A -> M B) :
  writes_nothing c -> (forall a, writes_nothing (k a)) ->
  writes_nothing (bind c k).
Proof.
  intros Hc Hk dk t. rewrite run_bind. specialize (Hc dk t).
  destruct (c dk t) as [t' [a | e]]; cbn [fst] in *.
  - now rewrite Hk.
  - exact Hc.
Qed.

Lemma writes_nothing_for_each {A S} (xs : list A) (body : S -> A -> M S) :
  (forall s x, writes_nothing (body s x)) ->
  forall s, writes_nothing (for_each xs s body).
Proof.
  intros Hbody. induction xs as [| x xs IH]; intros s; cbn [for_each].
  - apply writes_nothing_ret.
  - apply writes_nothing_bind; auto.
Qed.

Lemma fails_clean_raise {A} e : fails_clean (@raise A e).
Proof. intros dk t t' e' Ht H. injection H as <- _. exact Ht. Qed.

Lemma fails_clean_save d path opts : fails_clean (fitz_save d path opts).
Proof.
  intros dk t t' e Ht H.
  destruct d; [injection H as <- _; exact Ht | discriminate].
Qed.

Lemma fails_clean_bind {A B} (c : M A) (k : A -> M B) :
  writes_nothing c -> (forall a, fails_clean (k a)) ->
  fails_clean (bind c k).
Proof.
  intros Hc Hk dk t t' e Ht. rewrite run_bind. specialize (Hc dk t).
  destruct (c dk t) as [t1 [a | e1]]; cbn [fst] in Hc; intros H.
  - apply (Hk a dk t1 t' e); [congruence | exact H].
  - injection H as <- _. congruence.
Qed.

Create HintDb quiet.

#[local] Hint Resolve writes_nothing_ret writes_nothing_lift
  writes_nothing_open : quiet.

Ltac clean :=
  repeat first
    [ apply fails_clean_raise
    | apply fails_clean_save
    | apply fails_clean_bind; [auto with quiet | intro] ].

Lemma fails_clean_run {A} (c : M A) dk t e :
  fails_clean c -> run c dk = (t, Raise e) -> saved t = [].
Proof. intros Hc H. exact (Hc dk [] t e eq_refl H). Qed.

(** The functions that save once, at their end, leave nothing behind
    when they raise. *)
Lemma rotate_pages_fails_clean input output rotation pages :
  fails_clean (rotate_pages input output rotation pages).
Proof.
  unfold rotate_pages. destruct (negb (mem rotation rotations)); clean.
Qed.

Lemma delete_pages_fails_clean input output pages_to_delete :
  fails_clean (delete_pages input output pages_to_delete).
Proof. unfold delete_pages. clean. Qed.

Lemma compress_pdf_fails_clean input output level :
  fails_clean (compress_pdf input output level).
Proof.
  unfold compress_pdf. destruct (compression_settings level); clean.
Qed.

Lemma merge_pdfs_fails_clean inputs output :
  fails_clean (merge_pdfs inputs output).
Proof.
  unfold merge_pdfs. apply fails_clean_bind; [| intro; clean].
  apply writes_nothing_for_each. intros doc path.
  apply writes_nothing_bind; auto with quiet.
Qed.

Lemma create_nup_fails_clean fl input output n_cols n_rows orientation :
  fails_clean (create_nup fl input output n_cols n_rows orientation).
Proof. unfold create_nup. clean. Qed.

Lemma add_page_numbers_fails_clean format input output position font_size
  color format_string start_number pages :
  fails_clean (add_page_numbers format input output position font_size color
                 format_string start_number pages).
Proof. unfold add_page_numbers. clean. Qed.

(** [split_pdf] checks each range when its turn comes, after the files
    of the ranges before it have been saved: a valid first range
    followed by an invalid one leaves the first file behind. *)
Lemma split_pdf_range_second_invalid dk input folder pages_per_split src
  start1 end1 start2 end2 ranges :
  lookup dk input = Some src ->
  0 <= start1 -> start1 <= end1 -> end1 < len src ->
  start2 < 0 \/ len src <= end2 ->
  run (split_pdf input folder "range" pages_per_split
         (Some ((start1, end1) :: (start2, end2) :: ranges))) dk
  = ([EvOpen input; EvMakedirs folder;
      EvSave (out_path folder input "range" 1) (slice src start1 end1)
        plain_save],
     Raise (invalid_range start2 end2 (len src))).
Proof.
  intros Hsrc H0 H1 H2 H3. unfold split_pdf. step_run.
  rewrite (fitz_open_found dk [] input _ Hsrc).
  rewrite run_bind. unfold makedirs, emit.
  cbn [app String.eqb Ascii.eqb Bool.eqb enumerate for_each].
  cbv zeta. rewrite run_bind.
  assert (E1 : (start1 <? 0) = false) by (apply Z.ltb_ge; lia).
  assert (E2 : (end1 >=? len src) = false)
    by (rewrite Z.geb_leb; apply Z.leb_gt; lia).
  assert (E3 : ((start2 <? 0) || (end2 >=? len src))%bool = true).
  { apply orb_true_iff. destruct H3 as [H3 | H3].
    - left. apply Z.ltb_lt. lia.
    - right. rewrite Z.geb_leb. apply Z.leb_le. lia. }
  rewrite E1, E2. cbn [orb].
  rewrite run_bind. unfold lift at 1.
  rewrite insert_pdf_range by lia. cbn beta iota. cbn [app].
  rewrite run_bind, fitz_save_nonempty by (apply slice_nonempty; lia).
  cbn beta iota. unfold ret at 1. rewrite run_bind, E3. reflexivity.
Qed.


(** C1: [split_pdf] in 'range' mode, on a 5-page document with the
    ranges [(0, 0)] and [(5, 9)], saves the file of the first range and
    then raises on the second: one output file is on disk at the moment
    of the failure, against the policy that a failure leaves none. *)
Theorem split_pdf_range_partial_write :
  run (split_pdf "in/report.pdf" "out" "range" 1 (Some [(0, 0); (5, 9)]))
      sample_disk
  = ([EvOpen "in/report.pdf"; EvMakedirs "out";
      EvSave "out/report_range_1.pdf" [a4 1] plain_save],
     Raise (ValueError "Invalid range (5, 9). PDF has 5 pages (0-4)"))
  /\ saved (fst (run (split_pdf "in/report.pdf" "out" "range" 1
                        (Some [(0, 0); (5, 9)])) sample_disk))
     = [("out/report_range_1.pdf", [a4 1])].
Proof. split; vm_compute; reflexivity. Qed.

(** ** Deleting pages *)

(** On any 5-page document, deleting pages 1 and 3 leaves pages 2, 4
    and 5 in their order. *)
Lemma delete_pages_one_and_three dk input output p1 p2 p3 p4 p5 :
  lookup dk input = Some [p1; p2; p3; p4; p5] ->
  run (delete_pages input output [1; 3]) dk
  = ([EvOpen input; EvSave output [p2; p4; p5] plain_save], Ok tt).
Proof.
  intros Hdoc. unfold delete_pages. step_run.
  now rewrite (fitz_open_found dk [] input _ Hdoc).
Qed.

(** C3: on any 5-page document [delete_pages] with [[1, 3]] saves pages
    2, 4, 5 in their order; with the list [[5, 5]], whose numbers all lie
    in 1..5, it raises: the validation passes, page 5 is deleted and the
    second deletion finds no page 5 any more.  With [[3, 3]] it deletes
    pages 3 and 4. *)
Theorem delete_pages_five_pages dk input output p1 p2 p3 p4 p5 :
  lookup dk input = Some [p1; p2; p3; p4; p5] ->
  run (delete_pages input output [1; 3]) dk
  = ([EvOpen input; EvSave output [p2; p4; p5] plain_save], Ok tt)
  /\ Forall (fun p => 1 <= p <= len [p1; p2; p3; p4; p5]) [5; 5]
  /\ run (delete_pages input output [5; 5]) dk
     = ([EvOpen input], Raise (ValueError "bad page number(s)"))
  /\ run (delete_pages input output [3; 3]) dk
     = ([EvOpen input; EvSave output [p1; p2; p5] plain_save], Ok tt).
Proof.
  intros Hdoc. split; [| split; [| split]].
  - exact (delete_pages_one_and_three dk input output p1 p2 p3 p4 p5 Hdoc).
  - repeat constructor; cbn; lia.
  - unfold delete_pages. step_run.
    now rewrite (fitz_open_found dk [] input _ Hdoc).
  - unfold delete_pages. step_run.
    now rewrite (fitz_open_found dk [] input _ Hdoc).
Qed.

Lemma delete_pages_five_pages_witness :
  run (delete_pages "in/report.pdf" "out.pdf" [1; 3]) sample_disk
  = ([EvOpen "in/report.pdf"; EvSave "out.pdf" [a4 2; a4 4; a4 5] plain_save],
     Ok tt)
  /\ Forall (fun p => 1 <= p <= len (sample 5)) [5; 5]
  /\ run (delete_pages "in/report.pdf" "out.pdf" [5; 5]) sample_disk
     = ([EvOpen "in/report.pdf"], Raise (ValueError "bad page number(s)"))
  /\ run (delete_pages "in/report.pdf" "out.pdf" [3; 3]) sample_disk
     = ([EvOpen "in/report.pdf"; EvSave "out.pdf" [a4 1; a4 2; a4 5] plain_save],
        Ok tt).
Proof.
  apply (delete_pages_five_pages sample_disk "in/report.pdf" "out.pdf"
           (a4 1) (a4 2) (a4 3) (a4 4) (a4 5)).
  reflexivity.
Defined.

(** *** Lists without repetition

    What [delete_pages] does when no number is given twice: it saves the
    pages whose number is not in the list, if one is left. *)

Lemma insert_desc_In x l z : In z (insert_desc x l) <-> z = x \/ In z l.
Proof.
  induction l as [| y l IH]; cbn; [intuition |].
  destruct (y <=? x); cbn; [intuition | rewrite IH; intuition].
Qed.

Lemma sorted_reverse_In l z : In z (sorted_reverse l) <-> In z l.
Proof.
  induction l as [| x l IH]; cbn; [reflexivity |].
  rewrite insert_desc_In, IH. intuition.
Qed.

Lemma insert_desc_sorted x l :
  StronglySorted Z.gt l -> ~ In x l -> StronglySorted Z.gt (insert_desc x l).
Proof.
  induction 1 as [| y l Hl IH Hy]; intros Hx; cbn.
  - repeat constructor.
  - destruct (y <=? x) eqn:E.
    + apply Z.leb_le in E.
      assert (x > y) by (cbn in Hx; lia).
      constructor; [now constructor |].
      constructor; [assumption |].
      eapply Forall_impl; [| exact Hy]. cbn. intros z Hz. lia.
    + apply Z.leb_gt in E.
      constructor; [apply IH; cbn in Hx; tauto |].
      apply Forall_forall. intros z Hz. apply insert_desc_In in Hz.
      destruct Hz as [-> | Hz]; [lia |].
      rewrite Forall_forall in Hy. now apply Hy.
Qed.

Lemma sorted_reverse_sorted l :
  NoDup l -> StronglySorted Z.gt (sorted_reverse l).
Proof.
  induction 1 as [| x l Hx _ IH]; cbn; [constructor |].
  apply insert_desc_sorted; [exact IH |].
  now rewrite sorted_reverse_In.
Qed.

Lemma validate_pages_in nums total :
  Forall (fun n => 0 <= n < total) nums -> validate_pages nums total = Ok tt.
Proof.
  unfold validate_pages. induction 1 as [| n nums Hn _ IH]; [reflexivity |].
  cbn [rfold].
  destruct (n <? 0) eqn:E1; [apply Z.ltb_lt in E1; lia |].
  destruct (n >=? total) eqn:E2; [apply Z.geb_le in E2; lia |].
  cbn [orb rbind]. exact IH.
Qed.

Lemma enumerate_app {A} (xs ys : list A) s :
  enumerate (xs ++ ys) s
  = enumerate xs s ++ enumerate ys (s + Z.of_nat (List.length xs)).
Proof.
  revert s. induction xs as [| x xs IH]; intros s; cbn [app enumerate].
  - cbn. now rewrite Z.add_0_r.
  - rewrite IH. cbn [List.length]. do 3 f_equal. lia.
Qed.

Lemma enumerate_bounds {A} (xs : list A) s i x :
  In (i, x) (enumerate xs s) -> s <= i < s + Z.of_nat (List.length xs).
Proof.
  revert s. induction xs as [| y xs IH]; intros s; cbn; [tauto |].
  intros [E | H]; [injection E as <- _; lia |].
  apply IH in H. lia.
Qed.

Lemma mem_false x xs : ~ In x xs -> mem x xs = false.
Proof.
  intros H. destruct (mem x xs) eqn:E; [| reflexivity].
  apply mem_In in E. contradiction.
Qed.

Lemma without_from_app s d1 d2 nums :
  without_from s (d1 ++ d2) nums
  = without_from s d1 nums ++ without_from (s + len d1) d2 nums.
Proof.
  unfold without_from, len. now rewrite enumerate_app, filter_app, map_app.
Qed.

(** Numbers outside the numbering of [d] select nothing in it. *)
Lemma without_from_outside s d nums :
  Forall (fun n => n < s \/ s + len d <= n) nums ->
  without_from s d nums = d.
Proof.
  intros Hout. unfold without_from.
  rewrite forallb_filter_id.
  - revert s Hout. induction d as [| p d IH]; intros s Hout; [reflexivity |].
    cbn [enumerate map snd]. f_equal. apply IH.
    eapply Forall_impl; [| exact Hout].
    unfold len. cbn [List.length]. intros n Hn. lia.
  - apply forallb_forall. intros [i p] Hip. cbn [fst].
    apply enumerate_bounds in Hip.
    rewrite mem_false; [reflexivity |].
    intros Hin. rewrite Forall_forall in Hout.
    specialize (Hout i Hin). unfold len in Hout. lia.
Qed.

Lemma without_from_cons_outside s d a nums :
  a < s \/ s + len d <= a ->
  without_from s d (a :: nums) = without_from s d nums.
Proof.
  intros Ha. unfold without_from. f_equal.
  apply filter_ext_in. intros [i p] Hip. cbn [fst].
  apply enumerate_bounds in Hip. unfold mem. cbn [existsb].
  replace (i =? a) with false; [reflexivity |].
  symmetry. apply Z.eqb_neq. unfold len in Ha. lia.
Qed.

Lemma without_from_single s p a nums :
  without_from s [p] (s :: nums) = [] /\
  (a <> s -> ~ In s nums -> without_from s [p] (a :: nums) = [p]).
Proof.
  unfold without_from. cbn [enumerate filter fst]. split.
  - unfold mem. cbn [existsb]. now rewrite Z.eqb_refl.
  - intros Ha Hs.
    rewrite mem_false; [reflexivity |].
    cbn [In]. intros [E | E]; [congruence | contradiction].
Qed.

(** Deleting the page with the greatest number of the list. *)
Lemma delete_greatest d a rest :
  0 <= a < len d ->
  Forall (fun n => a > n) rest ->
  exists d1,
    delete_page d a = Ok d1
    /\ len d1 = len d - 1
    /\ without_from 0 d1 rest = without_from 0 d (a :: rest).
Proof.
  intros Ha Hrest. unfold delete_page, in_doc.
  destruct (0 <=? a) eqn:E1; [| apply Z.leb_gt in E1; lia].
  destruct (a <? len d) eqn:E2; [| apply Z.ltb_ge in E2; lia].
  cbn [andb]. eexists. split; [reflexivity |].
  destruct (load_page_in d a Ha) as (p & Hp & _).
  apply nth_error_split in Hp. destruct Hp as (pre & post & -> & Hlen).
  assert (Hpre : len pre = a) by (unfold len; lia).
  rewrite <- Hlen.
  rewrite firstn_app, firstn_all, Nat.sub_diag. cbn [firstn].
  rewrite app_nil_r.
  change (pre ++ p :: post) with (pre ++ [p] ++ post).
  rewrite skipn_app, skipn_all2 by lia.
  replace (S (List.length pre) - List.length pre)%nat with 1%nat by lia.
  cbn [skipn app].
  split; [rewrite !len_app; unfold len; cbn [List.length]; lia |].
  change (pre ++ p :: post) with (pre ++ [p] ++ post).
  rewrite !without_from_app, Hpre, Z.add_0_l.
  rewrite (without_from_cons_outside 0 pre a rest) by lia.
  rewrite (proj1 (without_from_single a p a rest)).
  rewrite (without_from_outside a post rest)
    by (eapply Forall_impl; [| exact Hrest]; cbn; intros; lia).
  rewrite (without_from_outside (a + len [p]) post (a :: rest)).
  - reflexivity.
  - constructor; [unfold len; cbn; lia |].
    eapply Forall_impl; [| exact Hrest]. cbn. intros. lia.
Qed.

Lemma delete_descending nums :
  StronglySorted Z.gt nums ->
  forall d,
    Forall (fun n => 0 <= n < len d) nums ->
    rfold delete_page nums d = Ok (without_from 0 d nums).
Proof.
  induction 1 as [| a rest Hrest IH Ha]; intros d Hvalid.
  - cbn [rfold]. now rewrite without_from_outside by constructor.
  - inversion Hvalid as [| ? ? Hin Hvalid']; subst.
    cbn [rfold].
    destruct (delete_greatest d a rest Hin Ha) as (d1 & -> & Hlen & <-).
    cbn [rbind]. apply IH.
    rewrite Forall_forall in *. intros n Hn.
    specialize (Hvalid' n Hn). specialize (Ha n Hn). lia.
Qed.

Lemma without_from_same_numbers s d l1 l2 :
  (forall n, In n l1 <-> In n l2) ->
  without_from s d l1 = without_from s d l2.
Proof.
  intros H. unfold without_from. f_equal. apply filter_ext.
  intros [i p]. cbn [fst]. f_equal.
  destruct (mem i l2) eqn:E.
  - apply mem_In. apply H. now apply mem_In.
  - apply mem_false. intros Hin. apply H in Hin. apply mem_In in Hin.
    congruence.
Qed.

Lemma without_from_shift s d l :
  without_from s d (map (fun p => p - 1) l) = without_from (s + 1) d l.
Proof.
  unfold without_from. revert s.
  induction d as [| p d IH]; intros s; [reflexivity |].
  cbn [enumerate filter fst].
  assert (E : mem s (map (fun p => p - 1) l) = mem (s + 1) l).
  { destruct (mem (s + 1) l) eqn:E.
    - apply mem_In. apply mem_In in E. apply in_map_iff.
      exists (s + 1). split; [lia | exact E].
    - apply mem_false. intros Hin. apply in_map_iff in Hin.
      destruct Hin as (q & Hq & Hin).
      replace q with (s + 1) in Hin by lia.
      apply mem_In in Hin. congruence. }
  rewrite E. destruct (mem (s + 1) l); cbn [negb map snd]; now rewrite IH.
Qed.

(** For distinct page numbers, all in the document, [delete_pages]
    hands [save] the pages that are not listed, in their order. *)
Lemma delete_pages_distinct dk input output l doc :
  lookup dk input = Some doc ->
  NoDup l ->
  Forall (fun p => 1 <= p <= len doc) l ->
  run (delete_pages input output l) dk
  = fitz_save (without_from 1 doc l) output plain_save dk [EvOpen input].
Proof.
  intros Hdoc Hnodup Hvalid.
  set (nums := sorted_reverse (map (fun p => p - 1) l)).
  assert (Hsorted : StronglySorted Z.gt nums).
  { apply sorted_reverse_sorted. apply Injective_map_NoDup; [| exact Hnodup].
    intros x y H. lia. }
  assert (Hin : Forall (fun n => 0 <= n < len doc) nums).
  { apply Forall_forall. intros n Hn. unfold nums in Hn.
    apply (proj1 (sorted_reverse_In _ _)) in Hn.
    apply in_map_iff in Hn. destruct Hn as (q & <- & Hq).
    rewrite Forall_forall in Hvalid. specialize (Hvalid q Hq). lia. }
  unfold delete_pages. step_run.
  rewrite (fitz_open_found dk [] input _ Hdoc). cbn [app].
  fold nums. cbv zeta. rewrite run_bind. unfold lift at 1.
  rewrite (validate_pages_in nums (len doc) Hin). cbn beta iota.
  rewrite run_bind. unfold lift at 1.
  rewrite (delete_descending nums Hsorted doc Hin).
  unfold nums.
  rewrite (without_from_same_numbers 0 doc _ (map (fun p => p - 1) l)
             (sorted_reverse_In _)).
  rewrite without_from_shift. reflexivity.
Qed.

(** * Further properties of the module *)

(** ** All or nothing *)

Lemma saves_once_raise {A} path e : saves_once path (@raise A e).
Proof. intros dk t Ht. exact Ht. Qed.

Lemma saves_once_save d path opts : saves_once path (fitz_save d path opts).
Proof.
  intros dk t Ht. destruct d as [| p d]; [exact Ht |].
  unfold fitz_save, emit. exists (p :: d).
  rewrite saved_app, Ht. reflexivity.
Qed.

Lemma saves_once_bind {A B} path (c : M A) (k : A -> M B) :
  writes_nothing c -> (forall a, saves_once path (k a)) ->
  saves_once path (bind c k).
Proof.
  intros Hc Hk dk t Ht. rewrite run_bind. specialize (Hc dk t).
  destruct (c dk t) as [t1 [a | e]]; cbn [fst] in Hc.
  - apply Hk. congruence.
  - congruence.
Qed.

Ltac one_save :=
  repeat first
    [ apply saves_once_raise
    | apply saves_once_save
    | apply saves_once_bind; [auto with quiet | intro] ].

Lemma saves_once_run {A} path (c : M A) dk :
  saves_once path c ->
  match run c dk with
  | (t, Ok _) => exists d, saved t = [(path, d)]
  | (t, Raise _) => saved t = []
  end.
Proof. intros H. exact (H dk [] eq_refl). Qed.

(** X1: each of [create_nup], [merge_pdfs], [delete_pages],
    [rotate_pages], [compress_pdf] and [add_page_numbers] is all or
    nothing on the disk: when the call returns it has saved exactly one
    file, at [output_pdf]; when it raises, for whatever reason, it has
    saved none. *)
Theorem single_save_all_or_nothing :
  (forall fl input output n_cols n_rows orientation dk,
      match run (create_nup fl input output n_cols n_rows orientation) dk with
      | (t, Ok _) => exists d, saved t = [(output, d)]
      | (t, Raise _) => saved t = []
      end)
  /\ (forall inputs output dk,
      match run (merge_pdfs inputs output) dk with
      | (t, Ok _) => exists d, saved t = [(output, d)]
      | (t, Raise _) => saved t = []
      end)
  /\ (forall input output pages_to_delete dk,
      match run (delete_pages input output pages_to_delete) dk with
      | (t, Ok _) => exists d, saved t = [(output, d)]
      | (t, Raise _) => saved t = []
      end)
  /\ (forall input output rotation pages dk,
      match run (rotate_pages input output rotation pages) dk with
      | (t, Ok _) => exists d, saved t = [(output, d)]
      | (t, Raise _) => saved t = []
      end)
  /\ (forall input output level dk,
      match run (compress_pdf input output level) dk with
      | (t, Ok _) => exists d, saved t = [(output, d)]
      | (t, Raise _) => saved t = []
      end)
  /\ (forall format input output position font_size color format_string
             start_number pages dk,
      match run (add_page_numbers format input output position font_size
                   color format_string start_number pages) dk with
      | (t, Ok _) => exists d, saved t = [(output, d)]
      | (t, Raise _) => saved t = []
      end).
Proof.
  repeat split; intros; apply saves_once_run.
  - unfold create_nup. one_save.
  - unfold merge_pdfs. apply saves_once_bind; [| intro; one_save].
    apply writes_nothing_for_each. intros doc path.
    apply writes_nothing_bind; auto with quiet.
  - unfold delete_pages. one_save.
  - unfold rotate_pages. destruct (negb (mem rotation rotations)); one_save.
  - unfold compress_pdf. destruct (compression_settings level); one_save.
  - unfold add_page_numbers. one_save.
Qed.

(** ** Page numbers that are not in the document *)

Lemma validate_pages_first_invalid good n rest total :
  Forall (fun m => 0 <= m < total) good ->
  n < 0 \/ total <= n ->
  validate_pages (good ++ n :: rest) total
  = Raise (invalid_page_number n total).
Proof.
  unfold validate_pages. intros Hgood Hn.
  induction Hgood as [| m good Hm _ IH]; cbn [app rfold].
  - replace ((n <? 0) || (n >=? total))%bool with true; [reflexivity |].
    symmetry. apply orb_true_iff. destruct Hn as [Hn | Hn].
    + left. apply Z.ltb_lt. lia.
    + right. rewrite Z.geb_leb. apply Z.leb_le. lia.
  - destruct (m <? 0) eqn:E1; [apply Z.ltb_lt in E1; lia |].
    destruct (m >=? total) eqn:E2; [apply Z.geb_le in E2; lia |].
    cbn [orb rbind]. exact IH.
Qed.

(** The message shows the number as the caller gave it. *)
Lemma invalid_page_number_message p total :
  invalid_page_number (p - 1) total
  = ValueError ("Invalid page number: " ++ str p ++ ". PDF has "
                ++ str total ++ " pages").
Proof.
  unfold invalid_page_number. now replace (p - 1 + 1) with p by lia.
Qed.

Lemma zero_based_first_invalid good p rest total :
  Forall (fun q => 1 <= q <= total) good ->
  p < 1 \/ total < p ->
  rbind (zero_based (PagesList (good ++ p :: rest))) (fun nums =>
    rbind (validate_pages nums total) (fun _ => Ok nums))
  = Raise (ValueError ("Invalid page number: " ++ str p ++ ". PDF has "
                       ++ str total ++ " pages")).
Proof.
  intros Hgood Hp. cbn [zero_based rbind]. rewrite map_app. cbn [map].
  rewrite validate_pages_first_invalid.
  - cbn [rbind]. now rewrite invalid_page_number_message.
  - rewrite Forall_map. eapply Forall_impl; [| exact Hgood].
    cbn. intros q Hq. lia.
  - lia.
Qed.

(** X2: when the explicit list of pages given to [rotate_pages] or to
    [add_page_numbers] holds a number outside [1..len(doc)], the call
    raises a [ValueError] that names the first such number of the list,
    as given, and the page count; the input has been opened and nothing
    is saved. *)
Theorem explicit_pages_first_invalid
  format dk input output rotation position font_size color format_string
  start_number doc good p rest :
  lookup dk input = Some doc ->
  In rotation rotations ->
  Forall (fun q => 1 <= q <= len doc) good ->
  p < 1 \/ len doc < p ->
  run (rotate_pages input output rotation (PagesList (good ++ p :: rest))) dk
  = ([EvOpen input],
     Raise (ValueError ("Invalid page number: " ++ str p ++ ". PDF has "
                        ++ str (len doc) ++ " pages")))
  /\ run (add_page_numbers format input output position font_size color
            format_string start_number (PagesList (good ++ p :: rest))) dk
     = ([EvOpen input],
        Raise (ValueError ("Invalid page number: " ++ str p ++ ". PDF has "
                           ++ str (len doc) ++ " pages"))).
Proof.
  intros Hdoc Hrot Hgood Hp. split.
  - apply mem_In in Hrot. unfold rotate_pages. rewrite Hrot. cbn [negb].
    step_run. rewrite (fitz_open_found dk [] input _ Hdoc). cbn [app].
    rewrite run_bind. unfold lift at 1, rotate_selection.
    cbn [is_keyword].
    now rewrite (zero_based_first_invalid good p rest (len doc) Hgood Hp).
  - unfold add_page_numbers. step_run.
    rewrite (fitz_open_found dk [] input _ Hdoc). cbn [app].
    rewrite run_bind. unfold lift at 1, number_selection.
    cbn [is_keyword].
    now rewrite (zero_based_first_invalid good p rest (len doc) Hgood Hp).
Qed.

Lemma explicit_pages_first_invalid_witness :
  run (rotate_pages "in/report.pdf" "out.pdf" 90 (PagesList [2; 7; 9]))
      sample_disk
  = ([EvOpen "in/report.pdf"],
     Raise (ValueError "Invalid page number: 7. PDF has 5 pages"))
  /\ run (add_page_numbers simple_format "in/report.pdf" "out.pdf"
            "top-left" 10 (0, 0, 0)%Q "{page}" 1 (PagesList [2; 7; 9]))
         sample_disk
     = ([EvOpen "in/report.pdf"],
        Raise (ValueError "Invalid page number: 7. PDF has 5 pages")).
Proof.
  apply (explicit_pages_first_invalid simple_format sample_disk
           "in/report.pdf" "out.pdf" 90 "top-left" 10 (0, 0, 0)%Q "{page}" 1
           (sample 5) [2] 7 [9]).
  - reflexivity.
  - cbn. tauto.
  - repeat constructor; cbn; lia.
  - right. cbn. lia.
Defined.

Lemma insert_desc_sorted_ge x l :
  StronglySorted Z.ge l -> StronglySorted Z.ge (insert_desc x l).
Proof.
  induction 1 as [| y l Hl IH Hy]; cbn.
  - repeat constructor.
  - destruct (y <=? x) eqn:E.
    + apply Z.leb_le in E.
      constructor; [now constructor |].
      constructor; [lia |].
      eapply Forall_impl; [| exact Hy]. cbn. intros z Hz. lia.
    + apply Z.leb_gt in E.
      constructor; [exact IH |].
      apply Forall_forall. intros z Hz. apply insert_desc_In in Hz.
      destruct Hz as [-> | Hz]; [lia |].
      rewrite Forall_forall in Hy. now apply Hy.
Qed.

Lemma sorted_reverse_sorted_ge l : StronglySorted Z.ge (sorted_reverse l).
Proof.
  induction l as [| x l IH]; cbn; [constructor |].
  now apply insert_desc_sorted_ge.
Qed.

Lemma sorted_suffix (good rest : list Z) :
  StronglySorted Z.ge (good ++ rest) -> StronglySorted Z.ge rest.
Proof.
  induction good as [| m good IH]; cbn; [trivial |].
  intros H. apply StronglySorted_inv in H. tauto.
Qed.

(** The first number out of range of a list that holds one. *)
Lemma first_invalid total nums :
  Exists (fun n => n < 0 \/ total <= n) nums ->
  exists good n rest,
    nums = good ++ n :: rest
    /\ Forall (fun m => 0 <= m < total) good
    /\ (n < 0 \/ total <= n).
Proof.
  induction nums as [| m nums IH]; intros H; [inversion H |].
  destruct (Z_lt_dec m 0) as [Hneg | Hpos].
  - exists [], m, nums. repeat split; auto.
  - destruct (Z_le_dec total m) as [Hbig | Hsmall].
    + exists [], m, nums. repeat split; auto.
    + inversion H as [? ? Hm | ? ? Hrest]; subst; [lia |].
      destruct (IH Hrest) as (good & n & rest & -> & Hgood & Hn).
      exists (m :: good), n, rest. repeat split; auto.
      constructor; [lia | exact Hgood].
Qed.

(** X3: when [pages_to_delete] holds a number outside [1..len(doc)],
    [delete_pages] raises a [ValueError] that names the greatest of the
    numbers out of range (the list is checked in descending order); no
    page is deleted and nothing is saved. *)
Theorem delete_pages_invalid_number dk input output l doc :
  lookup dk input = Some doc ->
  Exists (fun p => p < 1 \/ len doc < p) l ->
  exists p,
    In p l
    /\ (p < 1 \/ len doc < p)
    /\ (forall q, In q l -> q < 1 \/ len doc < q -> q <= p)
    /\ run (delete_pages input output l) dk
       = ([EvOpen input],
          Raise (ValueError ("Invalid page number: " ++ str p ++ ". PDF has "
                             ++ str (len doc) ++ " pages"))).
Proof.
  intros Hdoc Hbad.
  set (nums := sorted_reverse (map (fun p => p - 1) l)).
  assert (Hex : Exists (fun n => n < 0 \/ len doc <= n) nums).
  { apply Exists_exists in Hbad. destruct Hbad as (q & Hq & Hout).
    apply Exists_exists. exists (q - 1). split; [| lia].
    apply sorted_reverse_In. apply in_map_iff. eauto. }
  destruct (first_invalid (len doc) nums Hex)
    as (good & n & rest & Hnums & Hgood & Hn).
  pose proof (sorted_reverse_sorted_ge (map (fun p => p - 1) l)) as Hsorted.
  fold nums in Hsorted. rewrite Hnums in Hsorted.
  assert (Hin : In n nums) by (rewrite Hnums; apply in_elt).
  apply (proj1 (sorted_reverse_In _ _)) in Hin.
  apply in_map_iff in Hin. destruct Hin as (p & Hpn & Hp).
  exists p. split; [exact Hp | split; [lia | split]].
  - intros q Hq Hout.
    assert (Hq' : In (q - 1) nums)
      by (apply sorted_reverse_In, in_map_iff; eauto).
    rewrite Hnums in Hq'. apply in_app_or in Hq'.
    destruct Hq' as [Hq' | Hq'].
    + rewrite Forall_forall in Hgood. specialize (Hgood _ Hq'). lia.
    + apply sorted_suffix in Hsorted.
      apply StronglySorted_inv in Hsorted. destruct Hsorted as [_ Hle].
      destruct Hq' as [E | Hq']; [lia |].
      rewrite Forall_forall in Hle. specialize (Hle _ Hq'). lia.
  - unfold delete_pages. step_run.
    rewrite (fitz_open_found dk [] input _ Hdoc). cbn [app].
    fold nums. cbv zeta. rewrite run_bind. unfold lift at 1.
    rewrite Hnums, (validate_pages_first_invalid good n rest (len doc) Hgood Hn).
    subst n. now rewrite invalid_page_number_message.
Qed.

Lemma delete_pages_invalid_number_witness :
  exists p,
    In p [2; 9; 0; 7]
    /\ (p < 1 \/ len (sample 5) < p)
    /\ (forall q, In q [2; 9; 0; 7] -> q < 1 \/ len (sample 5) < q -> q <= p)
    /\ run (delete_pages "in/report.pdf" "out.pdf" [2; 9; 0; 7]) sample_disk
       = ([EvOpen "in/report.pdf"],
          Raise (ValueError ("Invalid page number: " ++ str p ++ ". PDF has "
                             ++ str (len (sample 5)) ++ " pages"))).
Proof.
  apply (delete_pages_invalid_number sample_disk "in/report.pdf" "out.pdf"
           [2; 9; 0; 7] (sample 5)).
  - reflexivity.
  - apply Exists_cons_tl, Exists_cons_hd. right. cbn. lia.
Defined.

(** ** Which pages are rotated *)

Lemma set_rotation_twice r p :
  set_rotation r (set_rotation r p) = set_rotation r p.
Proof. reflexivity. Qed.

Lemma enumerate_snd {A} (xs : list A) s : map snd (enumerate xs s) = xs.
Proof.
  revert s. induction xs as [| x xs IH]; intros s; cbn; [| rewrite IH];
    reflexivity.
Qed.

Lemma rotate_where_nil r s d : rotate_where r [] s d = d.
Proof. unfold rotate_where. cbn [mem existsb]. apply enumerate_snd. Qed.

Lemma rotate_where_length r sel s d :
  List.length (rotate_where r sel s d) = List.length d.
Proof. unfold rotate_where. now rewrite length_map, enumerate_length. Qed.

Lemma rotate_where_nth r sel s d j p :
  nth_error d j = Some p ->
  nth_error (rotate_where r sel s d) j
  = Some (if mem (s + Z.of_nat j) sel then set_rotation r p else p).
Proof.
  intros H. unfold rotate_where.
  now rewrite nth_error_map, (enumerate_nth d s j p H).
Qed.

Lemma rotate_where_outside r a sel s d :
  a < s \/ s + len d <= a ->
  rotate_where r (a :: sel) s d = rotate_where r sel s d.
Proof.
  intros Ha. unfold rotate_where. apply map_ext_in.
  intros [i p] Hip. cbn [fst snd]. apply enumerate_bounds in Hip.
  unfold mem. cbn [existsb].
  replace (i =? a) with false; [reflexivity |].
  symmetry. apply Z.eqb_neq. unfold len in Ha. lia.
Qed.

Lemma rotate_where_update r sel d :
  forall s n,
    (n < List.length d)%nat ->
    rotate_where r sel s (update_nth d n (set_rotation r))
    = rotate_where r (s + Z.of_nat n :: sel) s d.
Proof.
  induction d as [| p d IH]; intros s n Hn; [cbn in Hn; lia |].
  destruct n as [| n].
  - cbn [update_nth]. unfold rotate_where at 1 2.
    cbn [enumerate map fst snd].
    fold (rotate_where r sel (s + 1) d).
    fold (rotate_where r (s + Z.of_nat 0 :: sel) (s + 1) d).
    rewrite rotate_where_outside by lia.
    f_equal. unfold mem at 2. cbn [existsb].
    replace (s =? s + Z.of_nat 0) with true
      by (symmetry; apply Z.eqb_eq; lia).
    cbn [orb]. destruct (mem s sel); reflexivity.
  - cbn [update_nth]. unfold rotate_where at 1 2.
    cbn [enumerate map fst snd].
    fold (rotate_where r sel (s + 1) (update_nth d n (set_rotation r))).
    fold (rotate_where r (s + Z.of_nat (S n) :: sel) (s + 1) d).
    rewrite IH by (cbn in Hn; lia).
    replace (s + 1 + Z.of_nat n) with (s + Z.of_nat (S n)) by lia.
    f_equal. unfold mem at 2. cbn [existsb].
    replace (s =? s + Z.of_nat (S n)) with false
      by (symmetry; apply Z.eqb_neq; lia).
    reflexivity.
Qed.

Lemma rotate_loop r sel :
  forall d,
    Forall (fun i => 0 <= i < len d) sel ->
    rfold (fun d page_num => with_page d page_num (set_rotation r)) sel d
    = Ok (rotate_where r sel 0 d).
Proof.
  induction sel as [| i sel IH]; intros d Hsel.
  - cbn [rfold]. now rewrite rotate_where_nil.
  - inversion Hsel as [| ? ? Hi Hsel']; subst.
    cbn [rfold]. rewrite with_page_in by exact Hi. cbn [rbind].
    rewrite IH.
    + rewrite rotate_where_update by (unfold len in Hi; lia).
      do 3 f_equal. lia.
    + unfold len. rewrite update_nth_length. exact Hsel'.
Qed.

Lemma rotate_pages_selected dk input output rotation pages doc sel :
  lookup dk input = Some doc ->
  doc <> [] ->
  In rotation rotations ->
  rotate_selection pages (len doc) = Ok sel ->
  Forall (fun i => 0 <= i < len doc) sel ->
  run (rotate_pages input output rotation pages) dk
  = ([EvOpen input; EvSave output (rotate_where rotation sel 0 doc) plain_save],
     Ok tt).
Proof.
  intros Hdoc Hne Hrot Hsel Hin. apply mem_In in Hrot.
  unfold rotate_pages. rewrite Hrot. cbn [negb].
  step_run. rewrite (fitz_open_found dk [] input _ Hdoc). cbn [app].
  rewrite run_bind. unfold lift at 1. rewrite Hsel. cbn beta iota.
  rewrite run_bind. unfold lift at 1.
  rewrite (rotate_loop rotation sel doc Hin). cbn beta iota.
  apply (fitz_save_nonempty _ output plain_save dk [EvOpen input]).
  exact (same_length_nonempty doc _ (rotate_where_length _ _ _ _) Hne).
Qed.

(** X4: with [pages='all'] and an accepted angle, [rotate_pages] saves
    an input that has a page with every page set to that angle, and
    nothing else changed. *)
Theorem rotate_pages_all dk input output rotation doc :
  lookup dk input = Some doc ->
  doc <> [] ->
  In rotation rotations ->
  run (rotate_pages input output rotation (PagesStr "all")) dk
  = ([EvOpen input; EvSave output (map (set_rotation rotation) doc) plain_save],
     Ok tt).
Proof.
  intros Hdoc Hne Hrot.
  assert (E : rotate_where rotation (range (len doc)) 0 doc
              = map (set_rotation rotation) doc).
  { unfold rotate_where.
    rewrite <- (enumerate_snd doc 0) at 2. rewrite map_map.
    apply map_ext_in. intros [i p] Hip. cbn [fst snd].
    apply enumerate_bounds in Hip.
    replace (mem i (range (len doc))) with true; [reflexivity |].
    symmetry. apply mem_In, range_In. unfold len. lia. }
  rewrite <- E. apply rotate_pages_selected; auto.
  apply Forall_forall. intros i Hi. now apply range_In.
Qed.

Lemma rotate_pages_all_witness :
  run (rotate_pages "a.pdf" "out.pdf" 180 (PagesStr "all")) sample_disk
  = ([EvOpen "a.pdf";
      EvSave "out.pdf" (map (set_rotation 180) (sample 2)) plain_save], Ok tt).
Proof.
  apply (rotate_pages_all sample_disk "a.pdf" "out.pdf" 180 (sample 2)).
  - reflexivity.
  - discriminate.
  - cbn. tauto.
Defined.

Lemma mem_filter f i xs : mem i (filter f xs) = (mem i xs && f i)%bool.
Proof.
  induction xs as [| x xs IH]; [reflexivity |].
  cbn [filter]. unfold mem in *. destruct (f x) eqn:Ef; cbn [existsb].
  - rewrite IH. destruct (i =? x) eqn:E; cbn [orb andb]; [| reflexivity].
    apply Z.eqb_eq in E. subst x. rewrite Ef.
    now destruct (existsb (Z.eqb i) xs).
  - rewrite IH. destruct (i =? x) eqn:E; cbn [orb andb]; [| reflexivity].
    apply Z.eqb_eq in E. subst x. rewrite Ef.
    now rewrite !andb_false_r.
Qed.

(** X5: with [pages='even'] (resp. ['odd']) [rotate_pages] saves, for a
    document of any number of pages but none, the input in which exactly
    the pages with an even (resp. odd) 1-based number are set to the
    angle; the others are the input's. *)
Theorem rotate_pages_parity dk input output rotation doc :
  lookup dk input = Some doc ->
  doc <> [] ->
  In rotation rotations ->
  exists evens odds,
    run (rotate_pages input output rotation (PagesStr "even")) dk
    = ([EvOpen input; EvSave output evens plain_save], Ok tt)
    /\ run (rotate_pages input output rotation (PagesStr "odd")) dk
       = ([EvOpen input; EvSave output odds plain_save], Ok tt)
    /\ List.length evens = List.length doc
    /\ List.length odds = List.length doc
    /\ forall j p, nth_error doc j = Some p ->
         nth_error evens j
         = Some (if (Z.of_nat j + 1) mod 2 =? 0
                 then set_rotation rotation p else p)
         /\ nth_error odds j
            = Some (if (Z.of_nat j + 1) mod 2 =? 1
                    then set_rotation rotation p else p).
Proof.
  intros Hdoc Hne Hrot.
  set (evens := filter (fun i => (i + 1) mod 2 =? 0) (range (len doc))).
  set (odds := filter (fun i => (i + 1) mod 2 =? 1) (range (len doc))).
  assert (Hin : forall f, Forall (fun i => 0 <= i < len doc)
                                 (filter f (range (len doc)))).
  { intros f. apply Forall_forall. intros i Hi.
    apply filter_In in Hi. now apply range_In. }
  exists (rotate_where rotation evens 0 doc),
         (rotate_where rotation odds 0 doc).
  split; [| split; [| split; [| split]]].
  - apply rotate_pages_selected;
      [exact Hdoc | exact Hne | exact Hrot | reflexivity | apply Hin].
  - apply rotate_pages_selected;
      [exact Hdoc | exact Hne | exact Hrot | reflexivity | apply Hin].
  - apply rotate_where_length.
  - apply rotate_where_length.
  - intros j p Hj.
    assert (Hmem : mem (0 + Z.of_nat j) (range (len doc)) = true).
    { apply mem_In, range_In.
      assert (j < List.length doc)%nat
        by (apply nth_error_Some; congruence).
      unfold len. lia. }
    rewrite !(rotate_where_nth _ _ _ _ _ _ Hj).
    unfold evens, odds. rewrite !mem_filter, Hmem. cbn [andb].
    now rewrite Z.add_0_l.
Qed.

Lemma rotate_pages_parity_witness :
  exists evens odds,
    run (rotate_pages "in/report.pdf" "out.pdf" 90 (PagesStr "even"))
        sample_disk
    = ([EvOpen "in/report.pdf"; EvSave "out.pdf" evens plain_save], Ok tt)
    /\ run (rotate_pages "in/report.pdf" "out.pdf" 90 (PagesStr "odd"))
           sample_disk
       = ([EvOpen "in/report.pdf"; EvSave "out.pdf" odds plain_save], Ok tt)
    /\ List.length evens = List.length (sample 5)
    /\ List.length odds = List.length (sample 5)
    /\ forall j p, nth_error (sample 5) j = Some p ->
         nth_error evens j
         = Some (if (Z.of_nat j + 1) mod 2 =? 0 then set_rotation 90 p else p)
         /\ nth_error odds j
            = Some (if (Z.of_nat j + 1) mod 2 =? 1
                    then set_rotation 90 p else p).
Proof.
  apply (rotate_pages_parity sample_disk "in/report.pdf" "out.pdf" 90
           (sample 5)).
  - reflexivity.
  - discriminate.
  - cbn. tauto.
Defined.

Lemma mem_zero_based i l : mem i (map (fun p => p - 1) l) = mem (i + 1) l.
Proof.
  unfold mem. induction l as [| q l IH]; [reflexivity |].
  cbn [map existsb]. rewrite IH. f_equal.
  destruct (i + 1 =? q) eqn:E.
  - apply Z.eqb_eq. apply Z.eqb_eq in E. lia.
  - apply Z.eqb_neq. apply Z.eqb_neq in E. lia.
Qed.

(** X6: with an explicit list of page numbers, all in [1..len(doc)],
    [rotate_pages] saves an input that has a page with exactly the
    listed pages set to the angle; a number listed twice has the effect
    of one. *)
Theorem rotate_pages_listed dk input output rotation l doc :
  lookup dk input = Some doc ->
  doc <> [] ->
  In rotation rotations ->
  Forall (fun p => 1 <= p <= len doc) l ->
  exists out,
    run (rotate_pages input output rotation (PagesList l)) dk
    = ([EvOpen input; EvSave output out plain_save], Ok tt)
    /\ List.length out = List.length doc
    /\ forall j p, nth_error doc j = Some p ->
         nth_error out j
         = Some (if mem (Z.of_nat j + 1) l then set_rotation rotation p else p).
Proof.
  intros Hdoc Hne Hrot Hvalid.
  exists (rotate_where rotation (map (fun p => p - 1) l) 0 doc).
  split; [| split].
  - apply rotate_pages_selected; auto.
    + unfold rotate_selection. cbn [is_keyword zero_based rbind].
      now rewrite (validate_pages_ok l (len doc) Hvalid).
    + rewrite Forall_map. eapply Forall_impl; [| exact Hvalid].
      cbn. intros q Hq. lia.
  - apply rotate_where_length.
  - intros j p Hj. rewrite (rotate_where_nth _ _ _ _ _ _ Hj).
    now rewrite mem_zero_based, Z.add_0_l.
Qed.

Lemma rotate_pages_listed_witness :
  exists out,
    run (rotate_pages "in/report.pdf" "out.pdf" 270 (PagesList [4; 1; 4]))
        sample_disk
    = ([EvOpen "in/report.pdf"; EvSave "out.pdf" out plain_save], Ok tt)
    /\ List.length out = List.length (sample 5)
    /\ forall j p, nth_error (sample 5) j = Some p ->
         nth_error out j
         = Some (if mem (Z.of_nat j + 1) [4; 1; 4]
                 then set_rotation 270 p else p).
Proof.
  apply (rotate_pages_listed sample_disk "in/report.pdf" "out.pdf" 270
           [4; 1; 4] (sample 5)).
  - reflexivity.
  - discriminate.
  - cbn. tauto.
  - repeat constructor; cbn; lia.
Defined.

(** ** Parameters rejected by [compress_pdf] and [split_pdf] *)

Lemma compression_settings_known level :
  compression_settings level <> None <-> In level ["low"; "medium"; "high"].
Proof.
  unfold compression_settings. cbn [In].
  destruct (String.eqb_spec level "low") as [-> | H1];
    [split; [auto | discriminate] |].
  destruct (String.eqb_spec level "medium") as [-> | H2];
    [split; [auto | discriminate] |].
  destruct (String.eqb_spec level "high") as [-> | H3];
    [split; [auto | discriminate] |].
  split; [congruence |].
  intros [E | [E | [E | []]]]; congruence.
Qed.

(** X7: [compress_pdf] raises its [ValueError] before any effect (the
    input is not even opened) exactly when the level is none of 'low',
    'medium', 'high'; the test is case sensitive. *)
Theorem compress_pdf_rejects_level :
  (forall dk input output level,
      (exists msg, run (compress_pdf input output level) dk
                   = ([], Raise (ValueError msg)))
      <-> ~ In level ["low"; "medium"; "high"]) /\
  (forall dk input output,
      run (compress_pdf input output "High") dk
      = ([], Raise (ValueError
                      "compression_level must be 'low', 'medium', or 'high'"))).
Proof.
  split; [| reflexivity].
  intros dk input output level.
  rewrite <- compression_settings_known. unfold compress_pdf.
  destruct (compression_settings level) as [settings |].
  - split; [| intros H; exfalso; apply H; discriminate].
    intros [msg Hrun] _. unfold run in Hrun. rewrite run_bind in Hrun.
    destruct (fitz_open_trace dk [] input) as [r Hr]. rewrite Hr in Hrun.
    destruct r as [[| p d] | e]; discriminate.
  - split; [intros _ H; now apply H | intros _; eexists; reflexivity].
Qed.

(** X8: [split_pdf] finds its parameter errors only after it has opened
    the input and created the output folder: an unknown mode, and a
    'range' mode without ranges ([None] or the empty list), raise a
    [ValueError] with the folder created and no file saved. *)
Theorem split_pdf_rejects_late dk input folder pages_per_split src :
  lookup dk input = Some src ->
  (forall mode page_ranges,
      ~ In mode ["pages"; "chunks"; "range"] ->
      run (split_pdf input folder mode pages_per_split page_ranges) dk
      = ([EvOpen input; EvMakedirs folder],
         Raise (ValueError ("Invalid mode '" ++ mode
                            ++ "'. Must be 'pages', 'chunks', or 'range'"))))
  /\ (forall page_ranges,
         page_ranges = None \/ page_ranges = Some [] ->
         run (split_pdf input folder "range" pages_per_split page_ranges) dk
         = ([EvOpen input; EvMakedirs folder],
            Raise (ValueError
                     "page_ranges must be provided when mode='range'"))).
Proof.
  intros Hsrc. split.
  - intros mode page_ranges Hmode. cbn [In] in Hmode.
    unfold split_pdf, run. step_run.
    rewrite (fitz_open_found dk [] input _ Hsrc). cbn [app].
    rewrite run_bind. unfold makedirs, emit. cbn [app].
    destruct (String.eqb_spec mode "pages") as [-> | _]; [tauto |].
    destruct (String.eqb_spec mode "chunks") as [-> | _]; [tauto |].
    destruct (String.eqb_spec mode "range") as [-> | _]; [tauto |].
    reflexivity.
  - intros page_ranges Hnone.
    unfold split_pdf, run. step_run.
    rewrite (fitz_open_found dk [] input _ Hsrc). cbn [app].
    rewrite run_bind. unfold makedirs, emit.
    destruct Hnone as [-> | ->]; reflexivity.
Qed.

Lemma split_pdf_rejects_late_witness :
  (forall mode page_ranges,
      ~ In mode ["pages"; "chunks"; "range"] ->
      run (split_pdf "in/report.pdf" "out" mode 1 page_ranges) sample_disk
      = ([EvOpen "in/report.pdf"; EvMakedirs "out"],
         Raise (ValueError ("Invalid mode '" ++ mode
                            ++ "'. Must be 'pages', 'chunks', or 'range'"))))
  /\ (forall page_ranges,
         page_ranges = None \/ page_ranges = Some [] ->
         run (split_pdf "in/report.pdf" "out" "range" 1 page_ranges) sample_disk
         = ([EvOpen "in/report.pdf"; EvMakedirs "out"],
            Raise (ValueError
                     "page_ranges must be provided when mode='range'"))).
Proof.
  apply (split_pdf_rejects_late sample_disk "in/report.pdf" "out" 1 (sample 5)).
  reflexivity.
Defined.

(** X9: in 'chunks' mode a chunk size of 0 makes [split_pdf] raise the
    [ValueError] of [range()] with no file saved, and a negative chunk
    size makes it return the empty list with no file saved: neither is
    reported as an invalid parameter. *)
Theorem split_pdf_chunks_bad_size dk input folder page_ranges src :
  lookup dk input = Some src ->
  run (split_pdf input folder "chunks" 0 page_ranges) dk
  = ([EvOpen input; EvMakedirs folder],
     Raise (ValueError "range() arg 3 must not be zero"))
  /\ forall size, size < 0 ->
       run (split_pdf input folder "chunks" size page_ranges) dk
       = ([EvOpen input; EvMakedirs folder], Ok []).
Proof.
  intros Hsrc. split.
  - unfold split_pdf, run. step_run.
    rewrite (fitz_open_found dk [] input _ Hsrc). cbn [app].
    rewrite run_bind. unfold makedirs, emit. reflexivity.
  - intros size Hsize.
    unfold split_pdf, run. step_run.
    rewrite (fitz_open_found dk [] input _ Hsrc). cbn [app].
    rewrite run_bind. unfold makedirs, emit.
    cbn [app String.eqb Ascii.eqb Bool.eqb].
    rewrite run_bind. unfold lift at 1, range3, range_len.
    destruct (size =? 0) eqn:E0; [apply Z.eqb_eq in E0; lia |].
    destruct (0 <? size) eqn:E1; [apply Z.ltb_lt in E1; lia |].
    destruct (size <? 0) eqn:E2; [| apply Z.ltb_ge in E2; lia].
    pose proof (len_nonneg src) as HK.
    destruct (len src <? 0) eqn:E3; [apply Z.ltb_lt in E3; lia |].
    reflexivity.
Qed.

Lemma split_pdf_chunks_bad_size_witness :
  run (split_pdf "in/report.pdf" "out" "chunks" 0 None) sample_disk
  = ([EvOpen "in/report.pdf"; EvMakedirs "out"],
     Raise (ValueError "range() arg 3 must not be zero"))
  /\ forall size, size < 0 ->
       run (split_pdf "in/report.pdf" "out" "chunks" size None) sample_disk
       = ([EvOpen "in/report.pdf"; EvMakedirs "out"], Ok []).
Proof.
  apply (split_pdf_chunks_bad_size sample_disk "in/report.pdf" "out" None
           (sample 5)).
  reflexivity.
Defined.

(** ** Splitting by ranges *)

Lemma for_each_app {A S} (xs ys : list A) (s : S) (body : S -> A -> M S) dk t :
  for_each (xs ++ ys) s body dk t
  = match for_each xs s body dk t with
    | (t', Ok s') => for_each ys s' body dk t'
    | (t', Raise e) => (t', Raise e)
    end.
Proof.
  revert s t. induction xs as [| x xs IH]; intros s t; [reflexivity |].
  cbn [app for_each]. rewrite !run_bind.
  destruct (body s x dk t) as [t1 [s1 | e]]; [apply IH | reflexivity].
Qed.

Lemma ranges_loop dk folder input src ranges :
  Forall (range_within (len src)) ranges ->
  forall first acc t,
    for_each (enumerate ranges first) acc
      (fun output_files ir =>
         let '(idx, (start, end_)) := ir in
         if ((start <? 0) || (end_ >=? len src))%bool
         then raise (invalid_range start end_ (len src))
         else
           output_doc <- lift (insert_pdf [] src start end_) ;;
           fitz_save output_doc
             (out_path folder input "range" idx) plain_save ;;;
           ret (output_files ++ [out_path folder input "range" idx]))
      dk t
    = (t ++ map save_event (range_files folder input src ranges first),
       Ok (acc ++ map fst (range_files folder input src ranges first))).
Proof.
  unfold range_files.
  induction 1 as [| [start end_] ranges (H0 & H1 & H2) _ IH];
    intros first acc t.
  - cbn. now rewrite !app_nil_r.
  - cbn [fst snd] in H0, H1, H2.
    cbn [enumerate for_each map fst snd]. rewrite run_bind.
    assert (E1 : (start <? 0) = false) by (apply Z.ltb_ge; lia).
    assert (E2 : (end_ >=? len src) = false)
      by (rewrite Z.geb_leb; apply Z.leb_gt; lia).
    rewrite E1, E2. cbn [orb].
    rewrite run_bind. unfold lift at 1.
    rewrite insert_pdf_range by lia. cbn beta iota. cbn [app].
    rewrite run_bind, fitz_save_nonempty by (apply slice_nonempty; lia).
    cbn beta iota. unfold ret at 1.
    rewrite IH.
    unfold save_event at 2. cbn [fst snd app].
    now rewrite <- !app_assoc.
Qed.

Lemma range_files_NoDup folder input src ranges first :
  NoDup (map fst (range_files folder input src ranges first)).
Proof.
  unfold range_files. rewrite map_map. cbn [fst].
  rewrite <- (map_map fst (out_path folder input "range")), enumerate_fst.
  rewrite map_map. apply out_paths_NoDup.
Qed.

Lemma split_pdf_range_run dk input folder pages_per_split src ranges :
  lookup dk input = Some src ->
  ranges <> [] ->
  run (split_pdf input folder "range" pages_per_split (Some ranges)) dk
  = for_each (enumerate ranges 1) []
      (fun output_files ir =>
         let '(idx, (start, end_)) := ir in
         if ((start <? 0) || (end_ >=? len src))%bool
         then raise (invalid_range start end_ (len src))
         else
           output_doc <- lift (insert_pdf [] src start end_) ;;
           fitz_save output_doc
             (out_path folder input "range" idx) plain_save ;;;
           ret (output_files ++ [out_path folder input "range" idx]))
      dk [EvOpen input; EvMakedirs folder].
Proof.
  intros Hsrc Hne. unfold split_pdf, run. step_run.
  rewrite (fitz_open_found dk [] input _ Hsrc). cbn [app].
  rewrite run_bind. unfold makedirs, emit.
  cbn [app String.eqb Ascii.eqb Bool.eqb].
  destruct ranges as [| r ranges]; [contradiction | reflexivity].
Qed.

(** X10: in 'range' mode, when every pair [(start, end)] satisfies
    [0 <= start <= end < len(doc)], [split_pdf] saves one file per pair,
    in list order and under distinct paths numbered from 1; the file of
    a pair holds the pages [start..end] (0-based, both included) of the
    input, and the paths are returned in that order. *)
Theorem split_pdf_ranges dk input folder pages_per_split src ranges :
  lookup dk input = Some src ->
  ranges <> [] ->
  Forall (range_within (len src)) ranges ->
  run (split_pdf input folder "range" pages_per_split (Some ranges)) dk
  = (EvOpen input :: EvMakedirs folder
       :: map save_event (range_files folder input src ranges 1),
     Ok (map fst (range_files folder input src ranges 1)))
  /\ NoDup (map fst (range_files folder input src ranges 1))
  /\ List.length (range_files folder input src ranges 1) = List.length ranges
  /\ forall i start end_,
       nth_error ranges i = Some (start, end_) ->
       nth_error (range_files folder input src ranges 1) i
       = Some (out_path folder input "range" (1 + Z.of_nat i),
               slice src start end_)
       /\ len (slice src start end_) = end_ - start + 1.
Proof.
  intros Hsrc Hne Hvalid. split; [| split; [| split]].
  - rewrite (split_pdf_range_run dk input folder pages_per_split src ranges
               Hsrc Hne).
    now rewrite (ranges_loop dk folder input src ranges Hvalid).
  - apply range_files_NoDup.
  - unfold range_files. now rewrite length_map, enumerate_length.
  - intros i start end_ Hi. split.
    + unfold range_files.
      now rewrite nth_error_map, (enumerate_nth ranges 1 i _ Hi).
    + rewrite Forall_forall in Hvalid.
      destruct (Hvalid _ (nth_error_In _ _ Hi)) as (H0 & H1 & H2).
      apply slice_len; assumption.
Qed.

Lemma split_pdf_ranges_witness :
  run (split_pdf "in/report.pdf" "out" "range" 1 (Some [(0, 1); (3, 4)]))
      sample_disk
  = (EvOpen "in/report.pdf" :: EvMakedirs "out"
       :: map save_event
            (range_files "out" "in/report.pdf" (sample 5) [(0, 1); (3, 4)] 1),
     Ok (map fst
           (range_files "out" "in/report.pdf" (sample 5) [(0, 1); (3, 4)] 1)))
  /\ NoDup (map fst
              (range_files "out" "in/report.pdf" (sample 5) [(0, 1); (3, 4)] 1))
  /\ List.length
       (range_files "out" "in/report.pdf" (sample 5) [(0, 1); (3, 4)] 1)
     = List.length [(0, 1); (3, 4)]
  /\ forall i start end_,
       nth_error [(0, 1); (3, 4)] i = Some (start, end_) ->
       nth_error
         (range_files "out" "in/report.pdf" (sample 5) [(0, 1); (3, 4)] 1) i
       = Some (out_path "out" "in/report.pdf" "range" (1 + Z.of_nat i),
               slice (sample 5) start end_)
       /\ len (slice (sample 5) start end_) = end_ - start + 1.
Proof.
  apply (split_pdf_ranges sample_disk "in/report.pdf" "out" 1 (sample 5)
           [(0, 1); (3, 4)]).
  - reflexivity.
  - discriminate.
  - repeat constructor; cbn; lia.
Defined.

(** X11: in 'range' mode the pairs are checked one at a time, each just
    before its file is made: when the pairs before the first pair with
    [start < 0] or [end >= len(doc)] are within the document,
    [split_pdf] saves their files and then raises the [ValueError] of
    that pair; the pairs after it are not looked at. *)
Theorem split_pdf_range_stops_at_invalid
  dk input folder pages_per_split src good bad rest :
  lookup dk input = Some src ->
  Forall (range_within (len src)) good ->
  fst bad < 0 \/ len src <= snd bad ->
  run (split_pdf input folder "range" pages_per_split
         (Some (good ++ bad :: rest))) dk
  = (EvOpen input :: EvMakedirs folder
       :: map save_event (range_files folder input src good 1),
     Raise (ValueError ("Invalid range (" ++ str (fst bad) ++ ", "
                        ++ str (snd bad) ++ "). PDF has " ++ str (len src)
                        ++ " pages (0-" ++ str (len src - 1) ++ ")")))
  /\ saved (EvOpen input :: EvMakedirs folder
              :: map save_event (range_files folder input src good 1))
     = range_files folder input src good 1.
Proof.
  intros Hsrc Hgood Hbad. split.
  - rewrite (split_pdf_range_run dk input folder pages_per_split src
               (good ++ bad :: rest) Hsrc)
      by (destruct good; discriminate).
    rewrite enumerate_app, for_each_app.
    rewrite (ranges_loop dk folder input src good Hgood).
    destruct bad as [start end_]. cbn [fst snd] in *.
    cbn [enumerate for_each]. rewrite run_bind.
    replace ((start <? 0) || (end_ >=? len src))%bool with true; [reflexivity |].
    symmetry. apply orb_true_iff. destruct Hbad as [Hb | Hb].
    + left. apply Z.ltb_lt. lia.
    + right. rewrite Z.geb_leb. apply Z.leb_le. lia.
  - cbn [saved].
    induction (range_files folder input src good 1) as [| [p d] fs IH];
      [reflexivity |].
    cbn [map save_event saved fst snd]. now rewrite IH.
Qed.

Lemma split_pdf_range_stops_at_invalid_witness :
  run (split_pdf "in/report.pdf" "out" "range" 1
         (Some ([(0, 1); (2, 2)] ++ (4, 5) :: [(0, 0)]))) sample_disk
  = (EvOpen "in/report.pdf" :: EvMakedirs "out"
       :: map save_event
            (range_files "out" "in/report.pdf" (sample 5) [(0, 1); (2, 2)] 1),
     Raise (ValueError ("Invalid range (" ++ str 4 ++ ", "
                        ++ str 5 ++ "). PDF has " ++ str (len (sample 5))
                        ++ " pages (0-" ++ str (len (sample 5) - 1) ++ ")")))
  /\ saved (EvOpen "in/report.pdf" :: EvMakedirs "out"
              :: map save_event
                   (range_files "out" "in/report.pdf" (sample 5)
                      [(0, 1); (2, 2)] 1))
     = range_files "out" "in/report.pdf" (sample 5) [(0, 1); (2, 2)] 1.
Proof.
  apply (split_pdf_range_stops_at_invalid sample_disk "in/report.pdf" "out" 1
           (sample 5) [(0, 1); (2, 2)] (4, 5) [(0, 0)]).
  - reflexivity.
  - repeat constructor; cbn; lia.
  - right. cbn. lia.
Defined.

(** ** Splitting, then merging *)

Lemma saved_save_events files : saved (map save_event files) = files.
Proof.
  induction files as [| [p d] files IH]; [reflexivity |].
  cbn [map save_event saved fst snd]. now rewrite IH.
Qed.

Lemma lookup_app_found (l dk : disk) p d :
  NoDup (map fst l) -> In (p, d) l -> lookup (l ++ dk) p = Some d.
Proof.
  induction l as [| [q e] l IH]; intros Hnd Hin; [contradiction |].
  cbn [map fst] in Hnd. apply NoDup_cons_iff in Hnd. destruct Hnd as [Hq Hnd].
  cbn [app lookup]. destruct (String.eqb_spec q p) as [-> | Hne].
  - destruct Hin as [E | Hin]; [congruence |].
    exfalso. apply Hq. apply in_map_iff. exists (p, d). auto.
  - destruct Hin as [E | Hin]; [congruence |]. auto.
Qed.

Lemma lookup_app_other (l dk : disk) p :
  ~ In p (map fst l) -> lookup (l ++ dk) p = lookup dk p.
Proof.
  induction l as [| [q e] l IH]; intros Hp; [reflexivity |].
  cbn [app lookup]. cbn [map fst In] in Hp.
  destruct (String.eqb_spec q p) as [-> | Hne]; [tauto |]. apply IH. tauto.
Qed.

(** Every file of a run that saved under distinct paths is found, with
    its content, on the disk written back. *)
Lemma written_files_found dk t files :
  saved t = files ->
  NoDup (map fst files) ->
  Forall2 (fun path d => lookup (write_back t dk) path = Some d)
          (map fst files) (map snd files).
Proof.
  intros Hsaved Hnd. unfold write_back. rewrite Hsaved.
  assert (H : forall sub, incl sub files ->
            Forall2 (fun path d => lookup (rev files ++ dk) path = Some d)
                    (map fst sub) (map snd sub)).
  { induction sub as [| [p d] sub IH]; intros Hsub; cbn [map]; constructor.
    - cbn [fst snd]. apply lookup_app_found.
      + rewrite map_rev. now apply NoDup_rev.
      + apply in_rev. rewrite rev_involutive. apply Hsub. now left.
    - apply IH. intros f Hf. apply Hsub. now right. }
  apply H. apply incl_refl.
Qed.

Lemma concat_singletons {A B} (f : A -> B) l :
  List.concat (map (fun x => [f x]) l) = map f l.
Proof. induction l as [| x l IH]; cbn; [| rewrite IH]; reflexivity. Qed.

Lemma split_pdf_pages_run dk input folder pages_per_split page_ranges src :
  lookup dk input = Some src ->
  run (split_pdf input folder "pages" pages_per_split page_ranges) dk
  = (EvOpen input :: EvMakedirs folder
       :: map save_event
            (map (fun ip => (out_path folder input "page" (fst ip), [snd ip]))
                 (enumerate src 1)),
     Ok (map fst
           (map (fun ip => (out_path folder input "page" (fst ip), [snd ip]))
                (enumerate src 1)))).
Proof.
  intros Hsrc. unfold split_pdf. step_run.
  rewrite (fitz_open_found dk [] input _ Hsrc).
  rewrite run_bind. unfold makedirs, emit.
  cbn [app String.eqb Ascii.eqb Bool.eqb].
  unfold range, len. rewrite Nat2Z.id.
  pose proof (pages_loop dk folder input src src [] []
                [EvOpen input; EvMakedirs folder] eq_refl) as E.
  cbn [List.length app] in E. unfold out_path in E. unfold out_path.
  cbv zeta. rewrite E. rewrite !map_map. reflexivity.
Qed.

(** X12: splitting a document that has a page into single pages and
    merging the files returned, in the order returned, gives the
    document back: on the disk as [split_pdf] leaves it, [merge_pdfs] of
    the returned paths saves the pages of the input in their order. *)
Theorem split_pages_then_merge
  dk input folder pages_per_split page_ranges src output :
  lookup dk input = Some src ->
  src <> [] ->
  exists t paths,
    run (split_pdf input folder "pages" pages_per_split page_ranges) dk
    = (t, Ok paths)
    /\ run (merge_pdfs paths output) (write_back t dk)
       = (map EvOpen paths ++ [EvSave output src plain_save], Ok tt).
Proof.
  intros Hsrc Hne.
  set (files := map (fun ip => (out_path folder input "page" (fst ip),
                                [snd ip])) (enumerate src 1)).
  exists (EvOpen input :: EvMakedirs folder :: map save_event files),
         (map fst files).
  split; [now apply split_pdf_pages_run |].
  assert (Hnd : NoDup (map fst files)).
  { unfold files. rewrite map_map. cbn [fst].
    rewrite <- (map_map fst (out_path folder input "page")), enumerate_fst.
    rewrite map_map. apply out_paths_NoDup. }
  assert (Hsaved : saved (EvOpen input :: EvMakedirs folder
                            :: map save_event files) = files)
    by apply saved_save_events.
  assert (Hc : List.concat (map snd files) = src).
  { unfold files. rewrite map_map. cbn [snd].
    rewrite (concat_singletons snd). apply enumerate_snd. }
  replace (EvSave output src plain_save)
    with (EvSave output (List.concat (map snd files)) plain_save)
    by (now rewrite Hc).
  apply merge_pdfs_run.
  - exact (written_files_found dk _ files Hsaved Hnd).
  - unfold files. destruct src; [contradiction | discriminate].
  - unfold files. rewrite map_map. apply Forall_map, Forall_forall.
    intros ip _. discriminate.
Qed.

Lemma split_pages_then_merge_witness :
  exists t paths,
    run (split_pdf "in/report.pdf" "out" "pages" 1 None) sample_disk
    = (t, Ok paths)
    /\ run (merge_pdfs paths "again.pdf") (write_back t sample_disk)
       = (map EvOpen paths ++ [EvSave "again.pdf" (sample 5) plain_save],
          Ok tt).
Proof.
  apply (split_pages_then_merge sample_disk "in/report.pdf" "out" 1 None
           (sample 5) "again.pdf").
  - reflexivity.
  - discriminate.
Defined.

Lemma firstn_plus {A} (a b : nat) (l : list A) :
  firstn a l ++ firstn b (skipn a l) = firstn (a + b) l.
Proof.
  revert l. induction a as [| a IH]; intros l; [reflexivity |].
  destruct l as [| x l].
  - cbn [firstn skipn app Nat.add]. apply firstn_nil.
  - cbn [firstn skipn app Nat.add]. now rewrite IH.
Qed.

(** The first [m] chunks, put end to end, are the first [m * C] pages. *)
Lemma chunks_prefix src C m :
  1 <= C ->
  (forall i, (i < m)%nat -> Z.of_nat i * C < len src) ->
  List.concat (map (chunk src C) (seq 0 m))
  = firstn (Z.to_nat (Z.of_nat m * C)) src.
Proof.
  intros HC. induction m as [| m IH]; intros Hm; [reflexivity |].
  rewrite seq_S, map_app, concat_app, IH by (intros i Hi; apply Hm; lia).
  cbn [Nat.add map List.concat]. rewrite app_nil_r.
  unfold chunk, slice. rewrite firstn_plus.
  pose proof (Hm m ltac:(lia)) as Hlt. unfold len in *.
  destruct (Z_le_dec (Z.of_nat (S m) * C) (Z.of_nat (List.length src)))
    as [Hle | Hgt].
  - f_equal. nia.
  - rewrite !firstn_all2; [reflexivity | nia | nia].
Qed.

Lemma chunks_concat src C :
  1 <= C ->
  List.concat (map (chunk src C) (seq 0 (Z.to_nat (ceil_div (len src) C))))
  = src.
Proof.
  intros HC.
  pose proof (len_nonneg src) as HK.
  pose proof (ceil_div_bounds (len src) C HC) as Hceil.
  pose proof (ceil_div_nonneg (len src) C HK HC) as Hpos.
  rewrite chunks_prefix by (trivial; nia).
  apply firstn_all2. unfold len in *. nia.
Qed.

Lemma split_pdf_chunks_run dk input folder C page_ranges src :
  lookup dk input = Some src ->
  1 <= C ->
  run (split_pdf input folder "chunks" C page_ranges) dk
  = (EvOpen input :: EvMakedirs folder
       :: map save_event
            (map (fun i => (out_path folder input "chunk" (Z.of_nat i + 1),
                            chunk src C i))
                 (seq 0 (Z.to_nat (ceil_div (len src) C)))),
     Ok (map fst
           (map (fun i => (out_path folder input "chunk" (Z.of_nat i + 1),
                           chunk src C i))
                (seq 0 (Z.to_nat (ceil_div (len src) C)))))).
Proof.
  intros Hsrc HC.
  pose proof (len_nonneg src) as HK.
  pose proof (ceil_div_bounds (len src) C HC) as Hceil.
  pose proof (ceil_div_nonneg (len src) C HK HC) as Hpos.
  set (n := Z.to_nat (ceil_div (len src) C)).
  assert (Hstart : forall i, (i < n)%nat -> Z.of_nat i * C < len src)
    by (unfold n; nia).
  unfold split_pdf. step_run.
  rewrite (fitz_open_found dk [] input _ Hsrc).
  rewrite run_bind. unfold makedirs, emit.
  cbn [app String.eqb Ascii.eqb Bool.eqb].
  rewrite run_bind. unfold lift at 1, range3.
  destruct (C =? 0) eqn:E0; [apply Z.eqb_eq in E0; lia |].
  rewrite (range_len_ceil (len src) C HK HC). fold n.
  pose proof (chunks_loop dk folder input src C HC n 0 []
                [EvOpen input; EvMakedirs folder]) as E.
  change (Z.of_nat 0 + 1) with 1 in E.
  unfold out_path in E. unfold out_path. cbv zeta.
  rewrite run_bind.
  rewrite E by (intros i Hi; apply in_seq in Hi; apply Hstart; lia).
  unfold ret. cbn [app fst]. rewrite !map_map. reflexivity.
Qed.

(** X13: splitting a document that has a page into chunks of [C >= 1]
    pages and merging the files returned, in the order returned, gives
    the document back. *)
Theorem split_chunks_then_merge dk input folder C page_ranges src output :
  lookup dk input = Some src ->
  src <> [] ->
  1 <= C ->
  exists t paths,
    run (split_pdf input folder "chunks" C page_ranges) dk = (t, Ok paths)
    /\ run (merge_pdfs paths output) (write_back t dk)
       = (map EvOpen paths ++ [EvSave output src plain_save], Ok tt).
Proof.
  intros Hsrc Hne HC.
  pose proof (len_positive src Hne) as HK1.
  pose proof (ceil_div_bounds (len src) C HC) as Hceil.
  set (files := map (fun i => (out_path folder input "chunk" (Z.of_nat i + 1),
                               chunk src C i))
                    (seq 0 (Z.to_nat (ceil_div (len src) C)))).
  exists (EvOpen input :: EvMakedirs folder :: map save_event files),
         (map fst files).
  split; [now apply split_pdf_chunks_run |].
  assert (Hnd : NoDup (map fst files)).
  { unfold files. rewrite map_map. cbn [fst].
    rewrite (map_ext _ (fun i => out_path folder input "chunk"
                                   (1 + Z.of_nat i)))
      by (intros i; f_equal; lia).
    apply out_paths_NoDup. }
  assert (Hsaved : saved (EvOpen input :: EvMakedirs folder
                            :: map save_event files) = files)
    by apply saved_save_events.
  assert (Hc : List.concat (map snd files) = src).
  { unfold files. rewrite map_map. cbn [snd]. now apply chunks_concat. }
  replace (EvSave output src plain_save)
    with (EvSave output (List.concat (map snd files)) plain_save)
    by (now rewrite Hc).
  apply merge_pdfs_run.
  - exact (written_files_found dk _ files Hsaved Hnd).
  - unfold files.
    replace (Z.to_nat (ceil_div (len src) C))
      with (S (Z.to_nat (ceil_div (len src) C - 1))) by nia.
    discriminate.
  - unfold files. rewrite map_map. apply Forall_map, Forall_forall.
    intros i Hi. apply in_seq in Hi. cbn [snd]. unfold chunk.
    apply slice_nonempty; nia.
Qed.

Lemma split_chunks_then_merge_witness :
  exists t paths,
    run (split_pdf "in/report.pdf" "out" "chunks" 2 None) sample_disk
    = (t, Ok paths)
    /\ run (merge_pdfs paths "again.pdf") (write_back t sample_disk)
       = (map EvOpen paths ++ [EvSave "again.pdf" (sample 5) plain_save],
          Ok tt).
Proof.
  apply (split_chunks_then_merge sample_disk "in/report.pdf" "out" 2 None
           (sample 5) "again.pdf").
  - reflexivity.
  - discriminate.
  - lia.
Defined.

(** ** Merging: a missing input, merging in two steps *)

Lemma fitz_open_missing dk t path :
  lookup dk path = None ->
  fitz_open path dk t = (t ++ [EvOpen path], Raise (FileNotFoundError path)).
Proof.
  intros H. unfold fitz_open, bind, emit. now rewrite H.
Qed.

(** X14: when an input of [merge_pdfs] cannot be opened, the inputs
    before it (documents with a page each) have been opened in order,
    the call raises at that input, the inputs after it are not opened
    and nothing is saved. *)
Theorem merge_pdfs_missing_input dk before docs missing after output :
  Forall2 (fun path d => lookup dk path = Some d) before docs ->
  Forall (fun d => d <> []) docs ->
  lookup dk missing = None ->
  run (merge_pdfs (before ++ missing :: after) output) dk
  = (map EvOpen before ++ [EvOpen missing], Raise (FileNotFoundError missing)).
Proof.
  intros Hbefore Hne Hmissing. unfold merge_pdfs. step_run.
  rewrite for_each_app, (merge_loop dk before docs Hbefore Hne [] []).
  cbn [app for_each]. rewrite run_bind, run_bind.
  now rewrite (fitz_open_missing dk _ missing Hmissing).
Qed.

Lemma merge_pdfs_missing_input_witness :
  run (merge_pdfs (["a.pdf"; "b.pdf"] ++ "lost.pdf" :: ["four.pdf"]) "all.pdf")
      sample_disk
  = (map EvOpen ["a.pdf"; "b.pdf"] ++ [EvOpen "lost.pdf"],
     Raise (FileNotFoundError "lost.pdf")).
Proof.
  apply (merge_pdfs_missing_input sample_disk ["a.pdf"; "b.pdf"]
           [sample 2; sample 3] "lost.pdf" ["four.pdf"] "all.pdf").
  - repeat constructor.
  - repeat constructor; discriminate.
  - reflexivity.
Defined.

Lemma saved_opens paths : saved (map EvOpen paths) = [].
Proof. induction paths as [| p paths IH]; [reflexivity | exact IH]. Qed.

(** X15: merging in two steps gives the document of merging at once:
    when [first], which is not empty, is merged into [mid] and then
    [mid] is merged with [second] (which does not name [mid]), the
    document saved is the one [merge_pdfs] saves for [first ++ second];
    all the inputs are documents with a page. *)
Theorem merge_pdfs_in_two_steps dk first docs1 second docs2 mid output :
  Forall2 (fun path d => lookup dk path = Some d) first docs1 ->
  Forall2 (fun path d => lookup dk path = Some d) second docs2 ->
  first <> [] ->
  Forall (fun d => d <> []) docs1 ->
  Forall (fun d => d <> []) docs2 ->
  ~ In mid second ->
  exists t merged,
    run (merge_pdfs first mid) dk = (t, Ok tt)
    /\ run (merge_pdfs (mid :: second) output) (write_back t dk)
       = (map EvOpen (mid :: second) ++ [EvSave output merged plain_save],
          Ok tt)
    /\ run (merge_pdfs (first ++ second) output) dk
       = (map EvOpen (first ++ second) ++ [EvSave output merged plain_save],
          Ok tt)
    /\ merged = List.concat docs1 ++ List.concat docs2.
Proof.
  intros H1 H2 Hfirst Hne1 Hne2 Hmid.
  assert (Hdocs1 : docs1 <> [])
    by (intros ->; inversion H1; subst; contradiction).
  exists (map EvOpen first ++ [EvSave mid (List.concat docs1) plain_save]),
         (List.concat docs1 ++ List.concat docs2).
  split; [now apply merge_pdfs_run |].
  split; [| split; [| reflexivity]].
  - rewrite (merge_pdfs_run _ (mid :: second) (List.concat docs1 :: docs2)).
    + reflexivity.
    + unfold write_back. rewrite saved_app.
      rewrite saved_opens.
      cbn [saved app rev].
      constructor; [cbn [lookup]; now rewrite String.eqb_refl |].
      clear - H2 Hmid.
      induction H2 as [| path d second docs2 Hd _ IH]; constructor.
      * cbn [lookup].
        destruct (String.eqb_spec mid path) as [-> | _]; [| exact Hd].
        exfalso. apply Hmid. now left.
      * apply IH. intros Hin. apply Hmid. now right.
    + discriminate.
    + constructor; [now apply concat_nonempty | exact Hne2].
  - rewrite (merge_pdfs_run _ (first ++ second) (docs1 ++ docs2)).
    + now rewrite concat_app.
    + now apply Forall2_app.
    + destruct first; [contradiction | discriminate].
    + apply Forall_app. split; assumption.
Qed.

Lemma merge_pdfs_in_two_steps_witness :
  exists t merged,
    run (merge_pdfs ["a.pdf"] "mid.pdf") sample_disk = (t, Ok tt)
    /\ run (merge_pdfs ("mid.pdf" :: ["b.pdf"]) "all.pdf")
           (write_back t sample_disk)
       = (map EvOpen ("mid.pdf" :: ["b.pdf"])
            ++ [EvSave "all.pdf" merged plain_save], Ok tt)
    /\ run (merge_pdfs (["a.pdf"] ++ ["b.pdf"]) "all.pdf") sample_disk
       = (map EvOpen (["a.pdf"] ++ ["b.pdf"])
            ++ [EvSave "all.pdf" merged plain_save], Ok tt)
    /\ merged = List.concat [sample 2] ++ List.concat [sample 3].
Proof.
  apply (merge_pdfs_in_two_steps sample_disk ["a.pdf"] [sample 2] ["b.pdf"]
           [sample 3] "mid.pdf" "all.pdf").
  - repeat constructor.
  - repeat constructor.
  - discriminate.
  - repeat constructor; discriminate.
  - repeat constructor; discriminate.
  - cbn. intros [E | []]. discriminate.
Defined.

(** ** Deleting distinct pages *)

Lemma insert_desc_length x l :
  List.length (insert_desc x l) = S (List.length l).
Proof.
  induction l as [| y l IH]; [reflexivity |].
  cbn [insert_desc]. destruct (y <=? x); cbn [List.length]; [| rewrite IH];
    reflexivity.
Qed.

Lemma sorted_reverse_length l :
  List.length (sorted_reverse l) = List.length l.
Proof.
  induction l as [| x l IH]; [reflexivity |].
  cbn [sorted_reverse List.length]. now rewrite insert_desc_length, IH.
Qed.

Lemma delete_descending_len nums :
  StronglySorted Z.gt nums ->
  forall d,
    Forall (fun n => 0 <= n < len d) nums ->
    len (without_from 0 d nums) = len d - Z.of_nat (List.length nums).
Proof.
  induction 1 as [| a rest Hrest IH Ha]; intros d Hvalid.
  - rewrite without_from_outside by constructor. cbn [List.length]. lia.
  - inversion Hvalid as [| ? ? Hin Hvalid']; subst.
    destruct (delete_greatest d a rest Hin Ha) as (d1 & _ & Hlen & <-).
    rewrite IH.
    + cbn [List.length]. lia.
    + rewrite Forall_forall in *. intros n Hn.
      specialize (Hvalid' n Hn). specialize (Ha n Hn). lia.
Qed.

(** X16: for distinct page numbers, all in [1..len(doc)], given in any
    order, [delete_pages] is left with the pages whose 1-based number is
    not in the list, in their order: [len(doc)] minus the length of the
    list of them.  When a page is left it saves them; when every page is
    listed it raises the [ValueError] of [save] for a document without
    pages, and nothing is saved. *)
Theorem delete_pages_keeps_unlisted dk input output l doc :
  lookup dk input = Some doc ->
  NoDup l ->
  Forall (fun p => 1 <= p <= len doc) l ->
  len (without_from 1 doc l) = len doc - Z.of_nat (List.length l)
  /\ (Z.of_nat (List.length l) < len doc ->
      run (delete_pages input output l) dk
      = ([EvOpen input; EvSave output (without_from 1 doc l) plain_save],
         Ok tt))
  /\ (Z.of_nat (List.length l) = len doc ->
      run (delete_pages input output l) dk
      = ([EvOpen input], Raise (ValueError "cannot save with zero pages"))).
Proof.
  intros Hdoc Hnodup Hvalid.
  assert (Hlen : len (without_from 1 doc l)
                 = len doc - Z.of_nat (List.length l)).
  { set (nums := sorted_reverse (map (fun p => p - 1) l)).
    assert (Hsorted : StronglySorted Z.gt nums).
    { apply sorted_reverse_sorted.
      apply Injective_map_NoDup; [| exact Hnodup]. intros x y H. lia. }
    assert (Hin : Forall (fun n => 0 <= n < len doc) nums).
    { apply Forall_forall. intros n Hn. unfold nums in Hn.
      apply (proj1 (sorted_reverse_In _ _)) in Hn.
      apply in_map_iff in Hn. destruct Hn as (q & <- & Hq).
      rewrite Forall_forall in Hvalid. specialize (Hvalid q Hq). lia. }
    pose proof (delete_descending_len nums Hsorted doc Hin) as Hlen.
    unfold nums in Hlen at 1.
    rewrite (without_from_same_numbers 0 doc _ (map (fun p => p - 1) l)
               (sorted_reverse_In _)) in Hlen.
    rewrite without_from_shift in Hlen. cbn [Z.add] in Hlen. rewrite Hlen.
    unfold nums. now rewrite sorted_reverse_length, length_map. }
  rewrite (delete_pages_distinct dk input output l doc Hdoc Hnodup Hvalid).
  split; [exact Hlen | split]; intros Hl.
  - apply fitz_save_nonempty. intros E. rewrite E in Hlen.
    unfold len in Hlen at 1. cbn [List.length] in Hlen. lia.
  - rewrite (len_zero (without_from 1 doc l)) by lia. reflexivity.
Qed.

Lemma delete_pages_keeps_unlisted_witness :
  run (delete_pages "in/report.pdf" "out.pdf" [4; 1; 5]) sample_disk
  = ([EvOpen "in/report.pdf";
      EvSave "out.pdf" (without_from 1 (sample 5) [4; 1; 5]) plain_save],
     Ok tt).
Proof.
  apply (proj1 (proj2 (delete_pages_keeps_unlisted sample_disk "in/report.pdf"
                         "out.pdf" [4; 1; 5] (sample 5) eq_refl
                         ltac:(repeat constructor; cbn; intuition discriminate)
                         ltac:(repeat constructor; cbn; lia)))).
  cbn. lia.
Defined.

(** ** Numbering all pages; the position string *)

Lemma filter_none {A} (f : A -> bool) l :
  (forall x, In x l -> f x = false) -> filter f l = [].
Proof.
  induction l as [| x l IH]; intros H; [reflexivity |].
  cbn [filter]. rewrite (H x) by now left. apply IH.
  intros y Hy. apply H. now right.
Qed.

Lemma filter_eqb_seq j n :
  forall s, (s <= j < s + n)%nat ->
    filter (fun k => (k =? j)%nat) (seq s n) = [j].
Proof.
  induction n as [| n IH]; intros s Hj; [lia |].
  cbn [seq filter]. destruct (Nat.eqb_spec s j) as [-> | Hne].
  - f_equal. apply filter_none. intros k Hk. apply in_seq in Hk.
    apply Nat.eqb_neq. lia.
  - apply IH. lia.
Qed.

Lemma nth_map_seq {A} (g : nat -> A) n k d :
  (k < n)%nat -> nth k (map g (seq 0 n)) d = g k.
Proof.
  intros Hk. rewrite (nth_indep _ d (g O)) by (now rewrite length_map, length_seq).
  now rewrite map_nth, seq_nth.
Qed.

(** X17: with [pages='all'] and a known position, [add_page_numbers]
    saves an input that has a page with exactly one text on every page,
    page [j] (from 0) the text
    [format_string.format(page = start_number + j, total = len(doc))],
    at the point its rectangle gives for the position; nothing else
    changes. *)
Theorem add_page_numbers_all
  format dk input output position font_size color format_string
  start_number doc texts :
  lookup dk input = Some doc ->
  doc <> [] ->
  In position positions ->
  (forall k, (k < List.length doc)%nat ->
     format format_string (start_number + Z.of_nat k) (len doc)
     = Ok (texts k)) ->
  exists out,
    run (add_page_numbers format input output position font_size color
           format_string start_number (PagesStr "all")) dk
    = ([EvOpen input; EvSave output out plain_save], Ok tt)
    /\ List.length out = List.length doc
    /\ forall j p, nth_error doc j = Some p ->
         exists p' pt,
           nth_error out j = Some p'
           /\ number_point position (page_rect p) 30%Q = Ok pt
           /\ same_but_marks p p' [TextMark pt (texts j) font_size color].
Proof.
  intros Hdoc Hdne Hpos Hfmt.
  set (l := map (fun k => Z.of_nat k + 1) (seq 0 (List.length doc))).
  assert (Hll : List.length l = List.length doc)
    by (unfold l; now rewrite length_map, length_seq).
  assert (Hl : map (fun p => p - 1) l = range (len doc)).
  { unfold l, range, len. rewrite map_map, Nat2Z.id.
    apply map_ext. intros k. lia. }
  assert (Hvalid : Forall (fun p => 1 <= p <= len doc) l).
  { apply Forall_forall. intros p Hp. unfold l in Hp.
    apply in_map_iff in Hp. destruct Hp as (k & <- & Hk).
    apply in_seq in Hk. unfold len. lia. }
  destruct (stamp_loop format position font_size color format_string
              start_number (len doc) texts Hpos l O doc Hvalid)
    as (out & Hrun & Hlen & Hpages).
  { intros k Hk. apply Hfmt. lia. }
  exists out. split; [| split; [exact Hlen |]].
  - unfold add_page_numbers. step_run.
    rewrite (fitz_open_found dk [] input _ Hdoc). cbn [app].
    rewrite run_bind. unfold lift at 1, number_selection.
    cbn [is_keyword String.eqb Ascii.eqb Bool.eqb]. cbn beta iota.
    rewrite run_bind. unfold lift at 1.
    rewrite <- Hl, length_map, Hll. fold (len doc).
    cbn [Z.of_nat] in Hrun. rewrite Hrun. cbn beta iota.
    apply (fitz_save_nonempty out output plain_save dk [EvOpen input]).
    exact (same_length_nonempty doc out Hlen Hdne).
  - intros j p Hj.
    destruct (Hpages j p Hj) as (p' & pt & Hp' & Hpt & Hsame).
    exists p', pt. split; [exact Hp' | split; [exact Hpt |]].
    assert (Hjlt : (j < List.length doc)%nat)
      by (apply nth_error_Some; congruence).
    unfold numbers_on in Hsame. rewrite Hll in Hsame.
    rewrite (filter_ext_in _ (fun k => (k =? j)%nat)) in Hsame.
    + rewrite filter_eqb_seq in Hsame by lia. exact Hsame.
    + intros k Hk. apply in_seq in Hk. unfold l.
      rewrite nth_map_seq by lia.
      destruct (Nat.eqb_spec k j) as [-> | Hne].
      * apply Z.eqb_eq. lia.
      * apply Z.eqb_neq. lia.
Qed.

Lemma add_page_numbers_all_witness :
  exists out,
    run (add_page_numbers simple_format "a.pdf" "out.pdf" "top-right" 10
           (0, 0, 0)%Q "{page}/{total}" 1 (PagesStr "all")) sample_disk
    = ([EvOpen "a.pdf"; EvSave "out.pdf" out plain_save], Ok tt)
    /\ List.length out = List.length (sample 2)
    /\ forall j p, nth_error (sample 2) j = Some p ->
         exists p' pt,
           nth_error out j = Some p'
           /\ number_point "top-right" (page_rect p) 30%Q = Ok pt
           /\ same_but_marks p p'
                [TextMark pt (template (1 + Z.of_nat j) 2 "{page}/{total}" 0)
                   10 (0, 0, 0)%Q].
Proof.
  apply (add_page_numbers_all simple_format sample_disk "a.pdf" "out.pdf"
           "top-right" 10 (0, 0, 0)%Q "{page}/{total}" 1 (sample 2)
           (fun k => template (1 + Z.of_nat k) 2 "{page}/{total}" 0)).
  - reflexivity.
  - discriminate.
  - cbn. tauto.
  - intros k Hk. reflexivity.
Defined.

Lemma number_point_unknown position rect margin :
  ~ In position positions ->
  number_point position rect margin
  = Raise (ValueError ("Invalid position: " ++ position)).
Proof.
  unfold positions, number_point. cbn [In]. intros H.
  repeat match goal with
  | |- context [String.eqb position ?s] =>
      destruct (String.eqb_spec position s) as [-> | _]; [tauto |]
  end.
  reflexivity.
Qed.

(** X18: the position string of [add_page_numbers] is looked at only
    when a page is being numbered.  With a first page to number (its
    text formatted without error) an unknown position raises
    [ValueError] and nothing is saved; with an empty list of pages any
    position, known or not, is accepted and an input that has a page is
    saved unchanged. *)
Theorem add_page_numbers_position_checked_late
  format dk input output position font_size color format_string
  start_number doc :
  lookup dk input = Some doc ->
  (forall p rest text,
      ~ In position positions ->
      Forall (fun q => 1 <= q <= len doc) (p :: rest) ->
      format format_string (start_number + 0)
             (Z.of_nat (List.length (p :: rest))) = Ok text ->
      run (add_page_numbers format input output position font_size color
             format_string start_number (PagesList (p :: rest))) dk
      = ([EvOpen input], Raise (ValueError ("Invalid position: " ++ position))))
  /\ (doc <> [] ->
      run (add_page_numbers format input output position font_size color
             format_string start_number (PagesList [])) dk
      = ([EvOpen input; EvSave output doc plain_save], Ok tt)).
Proof.
  intros Hdoc. split.
  - intros p rest text Hpos Hvalid Hfmt.
    unfold add_page_numbers. step_run.
    rewrite (fitz_open_found dk [] input _ Hdoc). cbn [app].
    rewrite run_bind. unfold lift at 1, number_selection.
    cbn [is_keyword zero_based rbind].
    rewrite (validate_pages_ok (p :: rest) (len doc) Hvalid). cbn [rbind].
    rewrite run_bind. unfold lift at 1. rewrite length_map.
    cbn [map enumerate rfold]. unfold number_page at 1.
    inversion Hvalid as [| ? ? Hp _]; subst.
    destruct (load_page_in doc (p - 1) ltac:(lia)) as (pg & _ & ->).
    cbn [rbind]. rewrite Hfmt. cbn [rbind].
    now rewrite (number_point_unknown position _ _ Hpos).
  - intros Hne. unfold add_page_numbers. step_run.
    rewrite (fitz_open_found dk [] input _ Hdoc).
    destruct doc; [contradiction | reflexivity].
Qed.

Lemma add_page_numbers_position_checked_late_witness :
  (forall p rest text,
      ~ In "middle" positions ->
      Forall (fun q => 1 <= q <= len (sample 5)) (p :: rest) ->
      simple_format "{page}" (1 + 0) (Z.of_nat (List.length (p :: rest)))
      = Ok text ->
      run (add_page_numbers simple_format "in/report.pdf" "out.pdf" "middle"
             10 (0, 0, 0)%Q "{page}" 1 (PagesList (p :: rest))) sample_disk
      = ([EvOpen "in/report.pdf"],
         Raise (ValueError ("Invalid position: " ++ "middle"))))
  /\ (sample 5 <> [] ->
      run (add_page_numbers simple_format "in/report.pdf" "out.pdf" "middle"
             10 (0, 0, 0)%Q "{page}" 1 (PagesList [])) sample_disk
      = ([EvOpen "in/report.pdf"; EvSave "out.pdf" (sample 5) plain_save],
         Ok tt)).
Proof.
  apply (add_page_numbers_position_checked_late simple_format sample_disk
           "in/report.pdf" "out.pdf" "middle" 10 (0, 0, 0)%Q "{page}" 1
           (sample 5)).
  reflexivity.
Defined.

(** ** N-up: an empty grid; which source page goes where *)

(** X19: with a grid of 0 columns or 0 rows [create_nup] raises
    [ZeroDivisionError] when it computes the cell size: the input (here
    with at least one page) has been opened and nothing is saved. *)
Theorem create_nup_empty_grid fl dk input output n_cols n_rows orientation
  p0 rest :
  lookup dk input = Some (p0 :: rest) ->
  n_cols = 0 \/ n_rows = 0 ->
  run (create_nup fl input output n_cols n_rows orientation) dk
  = ([EvOpen input], Raise (ZeroDivisionError "division by zero")).
Proof.
  intros Hsrc Hzero. unfold create_nup. step_run.
  rewrite (fitz_open_found dk [] input _ Hsrc). cbn [app].
  rewrite run_bind. unfold lift at 1.
  change (load_page (p0 :: rest) 0) with (Ok p0 : result page).
  cbn beta iota. rewrite run_bind. unfold lift at 1.
  assert (Hgeo : nup_geometry fl n_cols n_rows orientation (page_frect fl p0)
                 = Raise (ZeroDivisionError "division by zero")).
  { unfold nup_geometry, int_div.
    destruct (String.eqb (lower orientation) "landscape");
      (destruct (Z.eqb_spec n_cols 0) as [Hc | Hc]; [reflexivity |]);
      cbn [rbind];
      (destruct Hzero as [E | ->]; [contradiction | reflexivity]). }
  now rewrite Hgeo.
Qed.

Lemma create_nup_empty_grid_witness :
  run (create_nup binary64 "in/report.pdf" "nup.pdf" 2 0 "portrait") sample_disk
  = ([EvOpen "in/report.pdf"], Raise (ZeroDivisionError "division by zero")).
Proof.
  apply (create_nup_empty_grid binary64 sample_disk "in/report.pdf" "nup.pdf"
           2 0 "portrait" (a4 1) (map a4 (seq 2 4))).
  - reflexivity.
  - now right.
Defined.

(** X21: for an input of K >= 1 pages, each with content, and a grid of
    at least one column and one row whose rectangles the library
    accepts, [create_nup] shows every source page exactly once, in page
    order: sheet [k] (from 0) shows the pages from [k * n_cols * n_rows]
    up to the next multiple or to the last page, row by row, so that
    the pages shown by the sheets, read in order, are
    [0, 1, ..., K - 1]. *)
Theorem create_nup_places_every_page
  fl dk input output n_cols n_rows orientation p0 rest :
  lookup dk input = Some (p0 :: rest) ->
  1 <= n_cols -> 1 <= n_rows ->
  Forall (fun p => has_contents p = true) (p0 :: rest) ->
  feqb (frect_width fl (page_frect fl p0)) (of_int fl 0) = false ->
  feqb (frect_height fl (page_frect fl p0)) (of_int fl 0) = false ->
  grid_accepted fl (placed_width fl orientation n_cols n_rows p0)
    (placed_height fl orientation n_cols n_rows p0) n_cols n_rows = true ->
  exists doc,
    run (create_nup fl input output n_cols n_rows orientation) dk
    = ([EvOpen input; EvSave output doc plain_save], Ok tt)
    /\ map shown doc
       = map (fun k => upto (Z.of_nat k * (n_cols * n_rows))
                         (Z.min (Z.of_nat k * (n_cols * n_rows)
                                 + n_cols * n_rows)
                                (len (p0 :: rest))))
             (seq 0 (List.length doc))
    /\ List.concat (map shown doc) = range (len (p0 :: rest)).
Proof.
  intros Hsrc Hc Hr Hcont Hw Hh Hacc.
  destruct (create_nup_run fl dk input output n_cols n_rows orientation
              p0 rest Hsrc Hc Hr Hcont Hw Hh Hacc)
    as (doc & Hrun & _ & Hshown).
  set (src := p0 :: rest) in *.
  set (P := n_cols * n_rows) in *.
  assert (HP : 1 <= P) by (unfold P; nia).
  pose proof (len_nonneg src) as HK.
  pose proof (ceil_div_bounds (len src) P HP) as Hceil.
  pose proof (ceil_div_nonneg (len src) P HK HP) as Hpos.
  set (n := Z.to_nat (ceil_div (len src) P)) in *.
  assert (Hlen : List.length doc = n).
  { rewrite <- (length_map shown), Hshown, length_map. apply length_seq. }
  exists doc. split; [exact Hrun | split].
  - rewrite Hlen. exact Hshown.
  - rewrite Hshown, (sheets_concat P (len src) n ltac:(lia)).
    rewrite <- upto_range. f_equal. unfold n. nia.
Qed.

Lemma create_nup_places_every_page_witness :
  exists doc,
    run (create_nup binary64 "in/report.pdf" "nup.pdf" 2 2 "portrait")
        sample_disk
    = ([EvOpen "in/report.pdf"; EvSave "nup.pdf" doc plain_save], Ok tt)
    /\ map shown doc
       = map (fun k => upto (Z.of_nat k * (2 * 2))
                         (Z.min (Z.of_nat k * (2 * 2) + 2 * 2)
                                (len (a4 1 :: map a4 (seq 2 4)))))
             (seq 0 (List.length doc))
    /\ List.concat (map shown doc) = range (len (a4 1 :: map a4 (seq 2 4))).
Proof.
  apply (create_nup_places_every_page binary64 sample_disk "in/report.pdf"
           "nup.pdf" 2 2 "portrait" (a4 1) (map a4 (seq 2 4))).
  - reflexivity.
  - lia.
  - lia.
  - repeat constructor.
  - vm_compute. reflexivity.
  - vm_compute. reflexivity.
  - vm_compute. reflexivity.
Defined.

(** ** The office converters *)

Ltac host_cases h :=
  repeat match goal with
  | |- context [h ?c] => let E := fresh "E" in destruct (h c) eqn:E
  end.

Ltac office_run :=
  unfold Office.word_to_pdf, Office.powerpoint_to_pdf, Office.try_finally,
    started;
  cbn [Office.perform fst snd].

(** X22: [word_to_pdf] and [powerpoint_to_pdf] quit the application
    whatever happens inside the [try]: once the application has been
    started and its [Visible] set, [Quit] is called exactly once and is
    the last call, whether [Open], [SaveAs] and [Close] succeed or
    fail.  When the start or the setting of [Visible] fails, [Quit] is
    never called and the call raises. *)
Theorem office_quit_on_every_path abspath h input output :
  (started h "Word.Application" 0 ->
   exists calls,
     fst (Office.word_to_pdf abspath h input output) = calls ++ [Office.Quit]
     /\ ~ In Office.Quit calls)
  /\ (~ started h "Word.Application" 0 ->
      ~ In Office.Quit (fst (Office.word_to_pdf abspath h input output))
      /\ snd (Office.word_to_pdf abspath h input output) <> None)
  /\ (started h "PowerPoint.Application" 1 ->
      exists calls,
        fst (Office.powerpoint_to_pdf abspath h input output)
        = calls ++ [Office.Quit]
        /\ ~ In Office.Quit calls)
  /\ (~ started h "PowerPoint.Application" 1 ->
      ~ In Office.Quit (fst (Office.powerpoint_to_pdf abspath h input output))
      /\ snd (Office.powerpoint_to_pdf abspath h input output) <> None).
Proof.
  split; [| split; [| split]]; office_run.
  - intros (E1 & E2 & E3). rewrite E1, E2, E3.
    host_cases h; cbn [fst];
      (eexists; split; [reflexivity |]); cbn [app In]; intuition discriminate.
  - intros Hnot. host_cases h; cbn [fst snd app In];
      try (exfalso; apply Hnot; now auto);
      (split; [intuition discriminate | discriminate]).
  - intros (E1 & E2 & E3). rewrite E1, E2, E3.
    host_cases h; cbn [fst];
      (eexists; split; [reflexivity |]); cbn [app In]; intuition discriminate.
  - intros Hnot. host_cases h; cbn [fst snd app In];
      try (exfalso; apply Hnot; now auto);
      (split; [intuition discriminate | discriminate]).
Qed.

Lemma office_quit_on_every_path_witness :
  exists calls,
    fst (Office.word_to_pdf (fun p => p) open_fails "a.docx" "a.pdf")
    = calls ++ [Office.Quit]
    /\ ~ In Office.Quit calls.
Proof.
  apply (proj1 (office_quit_on_every_path (fun p => p) open_fails
                  "a.docx" "a.pdf")).
  repeat split.
Defined.

(** X23: [word_to_pdf] (resp. [powerpoint_to_pdf]) returns normally
    exactly when the host lets all seven calls succeed, and it has then
    made exactly these calls, in this order: the import, the start of
    the application, the setting of [Visible], [Open] on the absolute
    input path, [SaveAs] on the absolute output path with format 17
    (resp. 32), [Close], [Quit]. *)
Theorem office_conversion_succeeds abspath h input output :
  (snd (Office.word_to_pdf abspath h input output) = None
   <-> Forall (fun c => h c = None)
         [Office.Import; Office.Dispatch "Word.Application";
          Office.SetVisible 0; Office.Open (abspath input) None;
          Office.SaveAs (abspath output) 17; Office.Close; Office.Quit])
  /\ (snd (Office.word_to_pdf abspath h input output) = None ->
      fst (Office.word_to_pdf abspath h input output)
      = [Office.Import; Office.Dispatch "Word.Application";
         Office.SetVisible 0; Office.Open (abspath input) None;
         Office.SaveAs (abspath output) 17; Office.Close; Office.Quit])
  /\ (snd (Office.powerpoint_to_pdf abspath h input output) = None
      <-> Forall (fun c => h c = None)
            [Office.Import; Office.Dispatch "PowerPoint.Application";
             Office.SetVisible 1; Office.Open (abspath input) (Some false);
             Office.SaveAs (abspath output) 32; Office.Close; Office.Quit])
  /\ (snd (Office.powerpoint_to_pdf abspath h input output) = None ->
      fst (Office.powerpoint_to_pdf abspath h input output)
      = [Office.Import; Office.Dispatch "PowerPoint.Application";
         Office.SetVisible 1; Office.Open (abspath input) (Some false);
         Office.SaveAs (abspath output) 32; Office.Close; Office.Quit]).
Proof.
  split; [| split; [| split]]; office_run.
  - split.
    + host_cases h; cbn [snd]; intros Hret; try discriminate.
      repeat constructor; assumption.
    + intros Hall.
      repeat match goal with
      | H : Forall _ (_ :: _) |- _ =>
          let E := fresh "E" in
          apply Forall_cons_iff in H; destruct H as [E H]; rewrite E
      end.
      reflexivity.
  - host_cases h; cbn [fst snd]; intros Hret; try discriminate.
    reflexivity.
  - split.
    + host_cases h; cbn [snd]; intros Hret; try discriminate.
      repeat constructor; assumption.
    + intros Hall.
      repeat match goal with
      | H : Forall _ (_ :: _) |- _ =>
          let E := fresh "E" in
          apply Forall_cons_iff in H; destruct H as [E H]; rewrite E
      end.
      reflexivity.
  - host_cases h; cbn [fst snd]; intros Hret; try discriminate.
    reflexivity.
Qed.

Lemma office_conversion_succeeds_witness :
  fst (Office.powerpoint_to_pdf (fun p => ("C:/work/" ++ p)%string)
         (fun _ => None) "talk.pptx" "talk.pdf")
  = [Office.Import; Office.Dispatch "PowerPoint.Application";
     Office.SetVisible 1; Office.Open "C:/work/talk.pptx" (Some false);
     Office.SaveAs "C:/work/talk.pdf" 32; Office.Close; Office.Quit].
Proof.
  apply (proj2 (proj2 (proj2 (office_conversion_succeeds
                                (fun p => ("C:/work/" ++ p)%string)
                                (fun _ => None) "talk.pptx" "talk.pdf")))).
  reflexivity.
Defined.

(** X24: what the converters raise, and what is on disk then.  For
    each converter, once its application is started: [SaveAs] is called
    exactly when [Open] succeeded; an error of [Quit] is the one raised,
    also when the body had failed with another; and when [SaveAs]
    succeeded but [Close] or [Quit] fails, the call raises although the
    PDF has been written. *)
Theorem office_conversion_failures abspath h input output :
  (started h "Word.Application" 0 ->
   (In (Office.SaveAs (abspath output) 17)
       (fst (Office.word_to_pdf abspath h input output))
    <-> h (Office.Open (abspath input) None) = None)
   /\ (forall err, h Office.Quit = Some err ->
         snd (Office.word_to_pdf abspath h input output) = Some err)
   /\ (h (Office.Open (abspath input) None) = None ->
       h (Office.SaveAs (abspath output) 17) = None ->
       h Office.Close <> None \/ h Office.Quit <> None ->
       snd (Office.word_to_pdf abspath h input output) <> None
       /\ In (Office.SaveAs (abspath output) 17)
             (fst (Office.word_to_pdf abspath h input output))))
  /\ (started h "PowerPoint.Application" 1 ->
      (In (Office.SaveAs (abspath output) 32)
          (fst (Office.powerpoint_to_pdf abspath h input output))
       <-> h (Office.Open (abspath input) (Some false)) = None)
      /\ (forall err, h Office.Quit = Some err ->
            snd (Office.powerpoint_to_pdf abspath h input output) = Some err)
      /\ (h (Office.Open (abspath input) (Some false)) = None ->
          h (Office.SaveAs (abspath output) 32) = None ->
          h Office.Close <> None \/ h Office.Quit <> None ->
          snd (Office.powerpoint_to_pdf abspath h input output) <> None
          /\ In (Office.SaveAs (abspath output) 32)
                (fst (Office.powerpoint_to_pdf abspath h input output)))).
Proof.
  split; intros (E1 & E2 & E3); office_run; rewrite E1, E2, E3;
    (split; [| split]).
  - split.
    + host_cases h; cbn [fst app In]; intros Hin;
        try reflexivity; intuition discriminate.
    + intros Hopen. rewrite Hopen.
      host_cases h; cbn [fst app In]; auto 10.
  - intros err Hquit. rewrite Hquit.
    host_cases h; reflexivity.
  - intros Hopen Hsave. rewrite Hopen, Hsave.
    host_cases h; cbn [fst snd app In]; intros Hfail;
      (split; [| auto 10]); try discriminate;
      destruct Hfail as [Hf | Hf]; congruence.
  - split.
    + host_cases h; cbn [fst app In]; intros Hin;
        try reflexivity; intuition discriminate.
    + intros Hopen. rewrite Hopen.
      host_cases h; cbn [fst app In]; auto 10.
  - intros err Hquit. rewrite Hquit.
    host_cases h; reflexivity.
  - intros Hopen Hsave. rewrite Hopen, Hsave.
    host_cases h; cbn [fst snd app In]; intros Hfail;
      (split; [| auto 10]); try discriminate;
      destruct Hfail as [Hf | Hf]; congruence.
Qed.

Lemma office_conversion_failures_witness :
  snd (Office.word_to_pdf (fun p => p) close_fails "a.docx" "a.pdf") <> None
  /\ In (Office.SaveAs "a.pdf" 17)
        (fst (Office.word_to_pdf (fun p => p) close_fails "a.docx" "a.pdf")).
Proof.
  apply (proj2 (proj2 (proj1 (office_conversion_failures (fun p => p)
                                close_fails "a.docx" "a.pdf")
                         ltac:(repeat split)))).
  - reflexivity.
  - reflexivity.
  - left. discriminate.
Defined.

(** ** The watermark *)

Section WatermarkFacts.

Variable fl : float_ops.
Variable text_rect : string -> float fl -> frect (float fl).
Variables radians cos sin : float fl -> float fl.

Lemma watermark_call_center page_rect watermark_text opacity font_size
  color rotation position :
  ~ In position ["top"; "bottom"] ->
  watermark_call fl text_rect radians cos sin page_rect watermark_text opacity
    font_size color rotation position
  = watermark_call fl text_rect radians cos sin page_rect watermark_text
      opacity font_size color rotation "center".
Proof.
  intros H. cbn [In] in H. unfold watermark_call.
  destruct (String.eqb_spec position "top") as [-> | _]; [tauto |].
  destruct (String.eqb_spec position "bottom") as [-> | _]; [tauto |].
  reflexivity.
Qed.

End WatermarkFacts.

(** X25: [add_watermark] does not check its position string: every
    position other than 'top' and 'bottom', known or not, gives what
    'center' gives, on any disk and for any other arguments. *)
Theorem add_watermark_position_defaults_to_center
  fl text_rect radians cos sin write_text dk input output watermark_text
  opacity font_size color rotation position :
  ~ In position ["top"; "bottom"] ->
  run (add_watermark fl text_rect radians cos sin write_text input output
         watermark_text opacity font_size color rotation position) dk
  = run (add_watermark fl text_rect radians cos sin write_text input output
           watermark_text opacity font_size color rotation "center") dk.
Proof.
  intros Hpos. unfold add_watermark. step_run.
  destruct (fitz_open input dk []) as [t [doc | e]]; [| reflexivity].
  cbv zeta.
  rewrite (map_ext _
             (fun page =>
                write_text page
                  (watermark_call fl text_rect radians cos sin
                     (page_frect fl page) watermark_text opacity font_size
                     color rotation "center"))); [reflexivity |].
  intros pg.
  now rewrite (watermark_call_center fl text_rect radians cos sin _ _ _ _ _ _ _
                 Hpos).
Qed.

Lemma add_watermark_position_defaults_to_center_witness :
  run (add_watermark binary64 sample_text_rect sample_radians sample_cos
         sample_sin sample_write_text "a.pdf" "out.pdf" "DRAFT"
         (Binary64.of_Q (3 # 10)) (Binary64.of_int 50)
         (Binary64.of_Q (1 # 2), Binary64.of_Q (1 # 2), Binary64.of_Q (1 # 2))
         (Binary64.of_int 45) "middle") sample_disk
  = run (add_watermark binary64 sample_text_rect sample_radians sample_cos
           sample_sin sample_write_text "a.pdf" "out.pdf" "DRAFT"
           (Binary64.of_Q (3 # 10)) (Binary64.of_int 50)
           (Binary64.of_Q (1 # 2), Binary64.of_Q (1 # 2), Binary64.of_Q (1 # 2))
           (Binary64.of_int 45) "center") sample_disk.
Proof.
  apply (add_watermark_position_defaults_to_center binary64 sample_text_rect
           sample_radians sample_cos sample_sin sample_write_text sample_disk
           "a.pdf" "out.pdf" "DRAFT" (Binary64.of_Q (3 # 10))
           (Binary64.of_int 50)
           (Binary64.of_Q (1 # 2), Binary64.of_Q (1 # 2), Binary64.of_Q (1 # 2))
           (Binary64.of_int 45) "middle").
  cbn. intros [E | [E | []]]; discriminate.
Defined.

(** X26: [add_watermark] has no failure path of its own: on an input
    that opens and has a page it returns, whatever its other arguments,
    and saves a document of as many pages, each page drawn on by one
    [write_text] call.  In float arithmetic, with the measured width and
    height of the text and the width and height of the page (each the
    [max(0, ...)] of a rectangle): the pivot is half the page width and
    1/4, 3/4 or 1/2 of the page height for 'top', 'bottom' and any other
    position; the text starts half its width left of the pivot and a
    quarter of its height below it; [morph] is left out exactly when
    the rotation equals 0, and is otherwise the pivot with the matrix
    [(cos a, sin a, -sin a, cos a, 0, 0)] of the angle in radians. *)
Theorem add_watermark_centres_text
  fl text_rect radians cos sin write_text dk input output watermark_text
  opacity font_size color rotation position doc :
  lookup dk input = Some doc ->
  doc <> [] ->
  exists out,
    run (add_watermark fl text_rect radians cos sin write_text input output
           watermark_text opacity font_size color rotation position) dk
    = ([EvOpen input; EvSave output out plain_save], Ok tt)
    /\ List.length out = List.length doc
    /\ forall j p, nth_error doc j = Some p ->
         let pw := frect_width fl (page_frect fl p) in
         let ph := frect_height fl (page_frect fl p) in
         let tw := frect_width fl (text_rect watermark_text font_size) in
         let th := frect_height fl (text_rect watermark_text font_size) in
         let cx := fdiv pw (of_int fl 2) in
         let cy := if String.eqb position "top"
                   then fmul ph (of_Q fl (1 # 4))
                   else if String.eqb position "bottom"
                   then fmul ph (of_Q fl (3 # 4))
                   else fdiv ph (of_int fl 2) in
         let a := radians rotation in
         exists c,
           nth_error out j = Some (write_text p c)
           /\ tc_text c = watermark_text
           /\ tc_fontsize c = font_size
           /\ tc_opacity c = opacity
           /\ tc_color c = color
           /\ tc_overlay c = true
           /\ tc_point c = (fsub cx (fdiv tw (of_int fl 2)),
                            fadd cy (fdiv th (of_int fl 4)))
           /\ tc_morph c
              = (if feqb rotation (of_int fl 0) then None
                 else Some ((cx, cy),
                            (cos a, sin a, fneg (sin a), cos a,
                             of_int fl 0, of_int fl 0))).
Proof.
  intros Hdoc Hne. eexists. split; [| split].
  - unfold add_watermark. step_run.
    rewrite (fitz_open_found dk [] input _ Hdoc). cbv zeta. cbn [app].
    match goal with
    | |- fitz_save ?d _ _ _ _ = _ =>
        apply (fitz_save_nonempty d output plain_save dk [EvOpen input])
    end.
    destruct doc; [contradiction | discriminate].
  - apply length_map.
  - intros j p Hj. cbv zeta. rewrite nth_error_map, Hj. cbn [option_map].
    eexists. split; [reflexivity |].
    unfold watermark_call.
    destruct (feqb rotation (of_int fl 0)); cbn [negb];
      cbn [tc_text tc_fontsize tc_opacity tc_color tc_overlay tc_point
           tc_morph];
      repeat split.
Qed.

Lemma add_watermark_centres_text_witness :
  exists out,
    run (add_watermark binary64 sample_text_rect sample_radians sample_cos
           sample_sin sample_write_text "a.pdf" "out.pdf" "DRAFT"
           (Binary64.of_Q (3 # 10)) (Binary64.of_int 50)
           (Binary64.of_Q (1 # 2), Binary64.of_Q (1 # 2),
            Binary64.of_Q (1 # 2))
           (Binary64.of_int 45) "top") sample_disk
    = ([EvOpen "a.pdf"; EvSave "out.pdf" out plain_save], Ok tt)
    /\ List.length out = List.length (sample 2).
Proof.
  destruct (add_watermark_centres_text binary64 sample_text_rect
              sample_radians sample_cos sample_sin sample_write_text
              sample_disk "a.pdf" "out.pdf" "DRAFT" (Binary64.of_Q (3 # 10))
              (Binary64.of_int 50)
              (Binary64.of_Q (1 # 2), Binary64.of_Q (1 # 2),
               Binary64.of_Q (1 # 2))
              (Binary64.of_int 45) "top" (sample 2) eq_refl
              ltac:(discriminate))
    as (out & Hrun & Hlen & _).
  exists out. split; assumption.
Defined.

(** ** What [compress_pdf] hands to [save]; inputs without pages *)

(** X27: [compress_pdf] changes nothing itself: for an input that has a
    page it hands the document it opened, as it is, to [save], once,
    with the options of the level: [garbage] 1, 3 or 4, [deflate] on,
    [deflate_images] and [deflate_fonts] off for 'low' and on
    otherwise, [clean] on for 'high' alone. *)
Theorem compress_pdf_saves_with_level_options dk input output doc :
  lookup dk input = Some doc ->
  doc <> [] ->
  run (compress_pdf input output "low") dk
  = ([EvOpen input; EvSave output doc (mkOpts 1 true false false false)], Ok tt)
  /\ run (compress_pdf input output "medium") dk
     = ([EvOpen input; EvSave output doc (mkOpts 3 true true true false)],
        Ok tt)
  /\ run (compress_pdf input output "high") dk
     = ([EvOpen input; EvSave output doc (mkOpts 4 true true true true)],
        Ok tt).
Proof.
  intros Hdoc Hne.
  repeat split; unfold compress_pdf; cbn [compression_settings String.eqb
    Ascii.eqb Bool.eqb]; step_run;
    rewrite (fitz_open_found dk [] input _ Hdoc);
    destruct doc; try contradiction; reflexivity.
Qed.

Lemma compress_pdf_saves_with_level_options_witness :
  run (compress_pdf "in/report.pdf" "small.pdf" "high") sample_disk
  = ([EvOpen "in/report.pdf";
      EvSave "small.pdf" (sample 5) (mkOpts 4 true true true true)], Ok tt).
Proof.
  apply (compress_pdf_saves_with_level_options sample_disk "in/report.pdf"
           "small.pdf" (sample 5)).
  - reflexivity.
  - discriminate.
Defined.

(** X28: an input without pages opens, but no function can save it: on
    such an input [rotate_pages] (for 'all', 'even', 'odd' and the empty
    list), [compress_pdf], [delete_pages] and [add_page_numbers] (for
    the empty list, and the latter for 'all' too) and [add_watermark]
    raise the [ValueError] of [save], after the input has been opened
    and with nothing written. *)
Theorem input_without_pages_refused dk input output :
  lookup dk input = Some [] ->
  let refused := ([EvOpen input],
                  Raise (ValueError "cannot save with zero pages")) in
  (forall rotation pages,
      In rotation rotations ->
      In pages [PagesStr "all"; PagesStr "even"; PagesStr "odd"; PagesList []] ->
      run (rotate_pages input output rotation pages) dk = refused)
  /\ (forall level,
         In level ["low"; "medium"; "high"] ->
         run (compress_pdf input output level) dk = refused)
  /\ run (delete_pages input output []) dk = refused
  /\ (forall format position font_size color format_string start_number pages,
         In pages [PagesStr "all"; PagesList []] ->
         run (add_page_numbers format input output position font_size color
                format_string start_number pages) dk = refused)
  /\ (forall fl text_rect radians cos sin write_text watermark_text opacity
             font_size color rotation position,
         run (add_watermark fl text_rect radians cos sin write_text input
                output watermark_text opacity font_size color rotation
                position) dk = refused).
Proof.
  intros Hdoc refused. subst refused.
  split; [| split; [| split; [| split]]].
  - intros rotation pages Hrot Hpages. apply mem_In in Hrot.
    unfold rotate_pages. rewrite Hrot. cbn [negb]. step_run.
    rewrite (fitz_open_found dk [] input _ Hdoc).
    cbn [In] in Hpages. decompose [or] Hpages; subst; try contradiction;
      reflexivity.
  - intros level Hlevel. apply compression_settings_known in Hlevel.
    unfold compress_pdf.
    destruct (compression_settings level) as [settings |]; [| contradiction].
    step_run. now rewrite (fitz_open_found dk [] input _ Hdoc).
  - unfold delete_pages. step_run.
    now rewrite (fitz_open_found dk [] input _ Hdoc).
  - intros format position font_size color format_string start_number pages
      Hpages.
    unfold add_page_numbers. step_run.
    rewrite (fitz_open_found dk [] input _ Hdoc).
    cbn [In] in Hpages. decompose [or] Hpages; subst; try contradiction;
      reflexivity.
  - intros. unfold add_watermark. step_run.
    now rewrite (fitz_open_found dk [] input _ Hdoc).
Qed.

Lemma input_without_pages_refused_witness :
  run (delete_pages "empty.pdf" "out.pdf" []) sample_disk
  = ([EvOpen "empty.pdf"], Raise (ValueError "cannot save with zero pages")).
Proof.
  apply (proj1 (proj2 (proj2 (input_without_pages_refused sample_disk
                                "empty.pdf" "out.pdf" eq_refl)))).
Defined.
